(** * Weighing tickets (Romaneio): the net-weight calculation of [Romaneio.save]

    A shallow embedding of [core/models.py], class [Romaneio], method [save]
    (with the models [TabelaClassificacao] and [TaxaArmazem] it reads), and the
    properties of the weighing settlement that the specification states.

    The calculation is written with Python's [decimal.Decimal] under the
    default context: 28 significant digits, rounding half to even.  The module
    [Dec] models the finite decimals and the four operations the method uses,
    with the rounding to the context precision written out. *)

From Stdlib Require Import ZArith QArith Qpower Lia Lqa String Ascii List Bool.
Import ListNotations.
Local Open Scope Z_scope.

(** ** Errors and results *)

(** The exceptions the calculation can meet. *)
Inductive exn : Type :=
| InvalidOperation   (* decimal.InvalidOperation: text that is not a number *)
| DivisionByZero     (* decimal.DivisionByZero *)
| TypeError.         (* an operand of a type the operator does not accept *)

Inductive result (A : Type) : Type :=
| Ok (a : A)
| Raise (e : exn).
Arguments Ok {A} a.
Arguments Raise {A} e.

Definition bind {A B : Type} (m : result A) (k : A -> result B) : result B :=
  match m with
  | Ok a => k a
  | Raise e => Raise e
  end.

Notation "x <- m ;; k" := (bind m (fun x => k))
  (at level 61, m at next level, right associativity).

(** ** Finite decimals under the default context *)

Module Dec.

(** A finite [Decimal]: the number [coef * 10 ^ expo].  The sign is the sign of
    the coefficient (the sign of a zero is not kept: it changes neither the
    value, nor the truth value, nor any comparison).  Infinities and NaN are
    not modelled, nor are the exponent limits of the context (Emax, Emin),
    which no operand built from the fields of a ticket comes near. *)
Record t : Type := mk { coef : Z; expo : Z }.

(** [getcontext().prec] *)
Definition prec : Z := 28.

(** [len(self._int)]: the number of decimal digits of the coefficient. *)
Fixpoint ndigits_aux (fuel : nat) (n : Z) : Z :=
  match fuel with
  | O => 1
  | S f => if n <? 10 then 1 else 1 + ndigits_aux f (n / 10)
  end.

Definition ndigits (n : Z) : Z :=
  ndigits_aux (Z.to_nat (Z.log2 (Z.abs n))) (Z.abs n).

(** [Decimal._fix]: round the coefficient to [prec] digits, half to even. *)
Definition fix_ (d : t) : t :=
  let k := ndigits (coef d) - prec in
  if k <=? 0 then d
  else
    let a := Z.abs (coef d) in
    let q := a / 10 ^ k in
    let r := a mod 10 ^ k in
    let half := 5 * 10 ^ (k - 1) in
    let q1 := if (half <? r) || ((r =? half) && Z.odd q) then q + 1 else q in
    if 10 ^ prec <=? q1
    then mk (Z.sgn (coef d) * (q1 / 10)) (expo d + k + 1)
    else mk (Z.sgn (coef d) * q1) (expo d + k).

(** The exact sum, at the smaller of the two exponents. *)
Definition add_exact (a b : t) : t :=
  let e := Z.min (expo a) (expo b) in
  mk (coef a * 10 ^ (expo a - e) + coef b * 10 ^ (expo b - e)) e.

Definition neg (a : t) : t := mk (- coef a) (expo a).

Definition mul_exact (a b : t) : t := mk (coef a * coef b) (expo a + expo b).

(** [a + b], [a - b], [a * b]: the exact result, rounded by the context. *)
Definition add (a b : t) : t := fix_ (add_exact a b).
Definition sub (a b : t) : t := fix_ (add_exact a (neg b)).
Definition mul (a b : t) : t := fix_ (mul_exact a b).

(** The loop of [__truediv__] on an exact quotient:
    [while exp < ideal_exp and coeff % 10 == 0: coeff //= 10; exp += 1];
    [fuel] is [ideal_exp - exp]. *)
Fixpoint strip_zeros (fuel : nat) (c e : Z) : Z * Z :=
  match fuel with
  | O => (c, e)
  | S f => if c mod 10 =? 0 then strip_zeros f (c / 10) (e + 1) else (c, e)
  end.

(** [a / b] ([Decimal.__truediv__]). *)
Definition div (a b : t) : result t :=
  if coef b =? 0 then
    (if coef a =? 0 then Raise InvalidOperation else Raise DivisionByZero)
  else if coef a =? 0 then Ok (fix_ (mk 0 (expo a - expo b)))
  else
    let shift := ndigits (coef b) - ndigits (coef a) + prec + 1 in
    let e := expo a - expo b - shift in
    let n := if 0 <=? shift then Z.abs (coef a) * 10 ^ shift else Z.abs (coef a) in
    let m := if 0 <=? shift then Z.abs (coef b) else Z.abs (coef b) * 10 ^ (- shift) in
    let q := n / m in
    let r := n mod m in
    let '(c, e') :=
      if r =? 0 then strip_zeros (Z.to_nat (expo a - expo b - e)) q e
      else ((if q mod 5 =? 0 then q + 1 else q), e) in
    Ok (fix_ (mk (Z.sgn (coef a) * Z.sgn (coef b) * c) e')).

(** Comparisons are exact: both coefficients at the smaller exponent. *)
Definition compare (a b : t) : comparison :=
  let e := Z.min (expo a) (expo b) in
  Z.compare (coef a * 10 ^ (expo a - e)) (coef b * 10 ^ (expo b - e)).

Definition gtb (a b : t) : bool :=
  match compare a b with Gt => true | _ => false end.

Definition is_zero (a : t) : bool := coef a =? 0.

(** The number a decimal denotes. *)
Definition val (a : t) : Q := (inject_Z (coef a) * Qpower (10 # 1) (expo a))%Q.

End Dec.

Definition Decimal : Type := Dec.t.

(** Decimal literals of the source. *)
Definition d_0_00 : Decimal := Dec.mk 0 (-2).       (* Decimal('0.00') *)
Definition d_14_00 : Decimal := Dec.mk 1400 (-2).   (* Decimal('14.00') *)
Definition d_1_00 : Decimal := Dec.mk 100 (-2).     (* Decimal('1.00') *)
Definition d_100 : Decimal := Dec.mk 100 0.         (* Decimal('100') *)


(** ** Python values held by a numeric attribute

    A model attribute is dynamically typed.  A numeric attribute of a ticket
    holds [None], an [int], a [Decimal] (what a validated form and the database
    give) or a [str]. *)
Inductive pyval : Type :=
| PyNone
| PyInt (z : Z)
| PyDec (d : Decimal)
| PyStr (s : string).

(** [bool(v)] *)
Definition truthy (v : pyval) : bool :=
  match v with
  | PyNone => false
  | PyInt z => negb (z =? 0)
  | PyDec d => negb (Dec.is_zero d)
  | PyStr s => negb (String.eqb s EmptyString)
  end.

(** [v or w] *)
Definition py_or (v w : pyval) : pyval := if truthy v then v else w.

(** [v == 0] *)
Definition eq_zero (v : pyval) : bool :=
  match v with
  | PyInt z => z =? 0
  | PyDec d => Dec.is_zero d
  | PyNone | PyStr _ => false
  end.

(** [Decimal(n)] for an [int] operand of a decimal operator. *)
Definition of_int (z : Z) : Decimal := Dec.mk z 0.

(** [v + w] *)
Definition py_add (v w : pyval) : result pyval :=
  match v, w with
  | PyDec a, PyDec b => Ok (PyDec (Dec.add a b))
  | PyDec a, PyInt z => Ok (PyDec (Dec.add a (of_int z)))
  | PyInt z, PyDec b => Ok (PyDec (Dec.add (of_int z) b))
  | PyInt y, PyInt z => Ok (PyInt (y + z))
  | PyStr s, PyStr u => Ok (PyStr (s ++ u))
  | _, _ => Raise TypeError
  end.

(** [a - w] for a decimal [a] *)
Definition dec_sub_py (a : Decimal) (w : pyval) : result Decimal :=
  match w with
  | PyDec b => Ok (Dec.sub a b)
  | PyInt z => Ok (Dec.sub a (of_int z))
  | PyNone | PyStr _ => Raise TypeError
  end.

(** ** The models *)

(** [Plantio]: only [cultura] is read by the calculation. *)
Record Plantio : Type := mkPlantio {
  plantio_id : Z;
  cultura : string
}.

Record TabelaClassificacao : Type := mkTabela {
  tabela_empresa : option Z;
  tabela_nome : string;
  tabela_cultura : string;
  padrao_umidade : Decimal;
  padrao_impureza : Decimal;
  padrao_avariado : Decimal;
  taxa_secagem : Decimal
}.

(** [TaxaArmazem]: the billing rates are not read by the calculation. *)
Record TaxaArmazem : Type := mkTaxaArmazem {
  taxa_id : Z;
  fornecedor : option Z;
  quebra_tecnica : pyval
}.

Record Romaneio : Type := mkRomaneio {
  empresa : option Z;
  data : Z;
  numero_ticket : string;
  fazenda : Z;
  talhao : Z;
  plantio : option Plantio;
  motorista : option string;
  placa : option string;
  peso_tara : pyval;
  peso_bruto : pyval;
  umidade_percentual : pyval;
  impureza_percentual : pyval;
  avariado_percentual : pyval;
  desconto_kg_umidade : pyval;
  desconto_kg_impureza : pyval;
  desconto_kg_avariado : pyval;
  total_descontos_kg : pyval;
  armazem_terceiro : option TaxaArmazem;
  peso_quebra_tecnica : pyval;
  peso_liquido : pyval
}.

(** Attribute assignments [self.f = v] of the method. *)
Definition set_desconto_kg_umidade (r : Romaneio) (v : pyval) : Romaneio :=
  mkRomaneio (empresa r) (data r) (numero_ticket r) (fazenda r) (talhao r)
    (plantio r) (motorista r) (placa r) (peso_tara r) (peso_bruto r)
    (umidade_percentual r) (impureza_percentual r) (avariado_percentual r)
    v (desconto_kg_impureza r) (desconto_kg_avariado r)
    (total_descontos_kg r) (armazem_terceiro r) (peso_quebra_tecnica r)
    (peso_liquido r).

Definition set_desconto_kg_impureza (r : Romaneio) (v : pyval) : Romaneio :=
  mkRomaneio (empresa r) (data r) (numero_ticket r) (fazenda r) (talhao r)
    (plantio r) (motorista r) (placa r) (peso_tara r) (peso_bruto r)
    (umidade_percentual r) (impureza_percentual r) (avariado_percentual r)
    (desconto_kg_umidade r) v (desconto_kg_avariado r)
    (total_descontos_kg r) (armazem_terceiro r) (peso_quebra_tecnica r)
    (peso_liquido r).

Definition set_desconto_kg_avariado (r : Romaneio) (v : pyval) : Romaneio :=
  mkRomaneio (empresa r) (data r) (numero_ticket r) (fazenda r) (talhao r)
    (plantio r) (motorista r) (placa r) (peso_tara r) (peso_bruto r)
    (umidade_percentual r) (impureza_percentual r) (avariado_percentual r)
    (desconto_kg_umidade r) (desconto_kg_impureza r) v
    (total_descontos_kg r) (armazem_terceiro r) (peso_quebra_tecnica r)
    (peso_liquido r).

Definition set_total_descontos_kg (r : Romaneio) (v : pyval) : Romaneio :=
  mkRomaneio (empresa r) (data r) (numero_ticket r) (fazenda r) (talhao r)
    (plantio r) (motorista r) (placa r) (peso_tara r) (peso_bruto r)
    (umidade_percentual r) (impureza_percentual r) (avariado_percentual r)
    (desconto_kg_umidade r) (desconto_kg_impureza r) (desconto_kg_avariado r)
    v (armazem_terceiro r) (peso_quebra_tecnica r)
    (peso_liquido r).

Definition set_peso_quebra_tecnica (r : Romaneio) (v : pyval) : Romaneio :=
  mkRomaneio (empresa r) (data r) (numero_ticket r) (fazenda r) (talhao r)
    (plantio r) (motorista r) (placa r) (peso_tara r) (peso_bruto r)
    (umidade_percentual r) (impureza_percentual r) (avariado_percentual r)
    (desconto_kg_umidade r) (desconto_kg_impureza r) (desconto_kg_avariado r)
    (total_descontos_kg r) (armazem_terceiro r) v
    (peso_liquido r).

Definition set_peso_liquido (r : Romaneio) (v : pyval) : Romaneio :=
  mkRomaneio (empresa r) (data r) (numero_ticket r) (fazenda r) (talhao r)
    (plantio r) (motorista r) (placa r) (peso_tara r) (peso_bruto r)
    (umidade_percentual r) (impureza_percentual r) (avariado_percentual r)
    (desconto_kg_umidade r) (desconto_kg_impureza r) (desconto_kg_avariado r)
    (total_descontos_kg r) (armazem_terceiro r) (peso_quebra_tecnica r)
    v.

(** ** The lookup of the classification table *)

Definition lower_ascii (c : ascii) : ascii :=
  let n := nat_of_ascii c in
  if (65 <=? n)%nat && (n <=? 90)%nat then ascii_of_nat (n + 32) else c.

Fixpoint lower (s : string) : string :=
  match s with
  | EmptyString => EmptyString
  | String c s' => String (lower_ascii c) (lower s')
  end.

(** [cultura__iexact]: equality up to the case of the letters (the database
    decides it; the ASCII letters are modelled). *)
Definition iexact (a b : string) : bool := String.eqb (lower a) (lower b).

Definition same_empresa (a b : option Z) : bool :=
  match a, b with
  | Some x, Some y => x =? y
  | None, None => true
  | _, _ => false
  end.

(** [TabelaClassificacao.objects.filter(empresa=self.empresa,
    cultura__iexact=self.plantio.cultura).first()]; [tabelas] is the table of
    the database in the order of the primary key. *)
Definition buscar_tabela (tabelas : list TabelaClassificacao) (self : Romaneio)
  (p : Plantio) : option TabelaClassificacao :=
  find (fun t => same_empresa (tabela_empresa t) (empresa self)
                 && iexact (tabela_cultura t) (cultura p)) tabelas.

(** The table the method resolves: none without a [plantio]. *)
Definition tabela_do_romaneio (tabelas : list TabelaClassificacao)
  (self : Romaneio) : option TabelaClassificacao :=
  match plantio self with
  | Some p => buscar_tabela tabelas self p
  | None => None
  end.

(** The four parameters of the classification:
    [(padrao_umid, padrao_imp, padrao_avar, taxa_sec)]. *)
Record Parametros : Type := mkParametros {
  padrao_umid : Decimal;
  padrao_imp : Decimal;
  padrao_avar : Decimal;
  taxa_sec : Decimal
}.

(** "Valores padrão" *)
Definition parametros_padrao : Parametros :=
  mkParametros d_14_00 d_1_00 d_0_00 d_0_00.

Definition parametros (tabela : option TabelaClassificacao) : Parametros :=
  match tabela with
  | Some t => mkParametros (padrao_umidade t) (padrao_impureza t)
                           (padrao_avariado t) (taxa_secagem t)
  | None => parametros_padrao
  end.

(** ** The calculation *)

(** "Cálculo Desconto Umidade" *)
Definition calc_desconto_umidade (peso_carga umidade : Decimal) (p : Parametros)
  : result Decimal :=
  if Dec.gtb umidade (padrao_umid p) then
    let excesso := Dec.sub umidade (padrao_umid p) in
    q <- Dec.div excesso d_100 ;;
    let desc_peso := Dec.mul peso_carga q in
    t <- Dec.div (taxa_sec p) d_100 ;;
    let desc_taxa := Dec.mul peso_carga t in
    Ok (Dec.add desc_peso desc_taxa)
  else Ok d_0_00.

(** "Cálculo Desconto Impureza" and "Cálculo Desconto Avariado": the same
    statements on the two pairs of a measure and its standard. *)
Definition calc_desconto_excesso (peso_carga medido padrao : Decimal)
  : result Decimal :=
  if Dec.gtb medido padrao then
    let excesso := Dec.sub medido padrao in
    q <- Dec.div excesso d_100 ;;
    Ok (Dec.mul peso_carga q)
  else Ok d_0_00.

(** [not v or v == 0]: the attribute holds no manual deduction. *)
Definition sem_manual (v : pyval) : bool := negb (truthy v) || eq_zero v.

Section Save.

(** [Decimal(s)] on a text [s] (the constructor of the library): the finite
    decimal the text denotes, or [None] when the constructor raises
    [InvalidOperation].  Texts that denote an infinity or a NaN have no image
    here. *)
Variable Decimal_of_text : string -> option Decimal.

(** [Decimal(str(v))] *)
Definition Decimal_str (v : pyval) : result Decimal :=
  match v with
  | PyDec d => Ok d
  | PyInt z => Ok (of_int z)
  | PyNone => Raise InvalidOperation
  | PyStr s =>
      match Decimal_of_text s with
      | Some d => Ok d
      | None => Raise InvalidOperation
      end
  end.

(** [Decimal(str(v or 0))] *)
Definition to_Decimal (v : pyval) : result Decimal :=
  Decimal_str (py_or v (PyInt 0)).

(** "Cálculo Quebra Técnica" with the two assignments that follow it: the
    ticket with [peso_quebra_tecnica] and [peso_liquido] set. *)
Definition quebra_e_liquido (self : Romaneio) (peso_pos_classificacao : Decimal)
  : result Romaneio :=
  match armazem_terceiro self with
  | Some armazem =>
      indice_quebra <- to_Decimal (quebra_tecnica armazem) ;;
      q <- Dec.div indice_quebra d_100 ;;
      let quebra_tec := Dec.mul peso_pos_classificacao q in
      let self := set_peso_quebra_tecnica self (PyDec quebra_tec) in
      Ok (set_peso_liquido self
            (PyDec (Dec.sub peso_pos_classificacao quebra_tec)))
  | None =>
      let quebra_tec := d_0_00 in
      let self := set_peso_quebra_tecnica self (PyInt 0) in
      Ok (set_peso_liquido self
            (PyDec (Dec.sub peso_pos_classificacao quebra_tec)))
  end.

(** [Romaneio.save], up to the call of [super().save], which hands the ticket
    to the database layer. *)
Definition save (tabelas : list TabelaClassificacao) (self : Romaneio)
  : result Romaneio :=
  peso_bruto <- to_Decimal (peso_bruto self) ;;
  peso_tara <- to_Decimal (peso_tara self) ;;
  umidade <- to_Decimal (umidade_percentual self) ;;
  impureza <- to_Decimal (impureza_percentual self) ;;
  avariado <- to_Decimal (avariado_percentual self) ;;
  let peso_carga := Dec.sub peso_bruto peso_tara in
  let p := parametros (tabela_do_romaneio tabelas self) in
  desconto_umidade <- calc_desconto_umidade peso_carga umidade p ;;
  desconto_impureza <- calc_desconto_excesso peso_carga impureza (padrao_imp p) ;;
  desconto_avariado <- calc_desconto_excesso peso_carga avariado (padrao_avar p) ;;
  let self :=
    if sem_manual (desconto_kg_umidade self)
    then set_desconto_kg_umidade self (PyDec desconto_umidade) else self in
  let self :=
    if sem_manual (desconto_kg_impureza self)
    then set_desconto_kg_impureza self (PyDec desconto_impureza) else self in
  let self :=
    if sem_manual (desconto_kg_avariado self)
    then set_desconto_kg_avariado self (PyDec desconto_avariado) else self in
  s <- py_add (desconto_kg_umidade self) (desconto_kg_impureza self) ;;
  total <- py_add s (desconto_kg_avariado self) ;;
  let self := set_total_descontos_kg self total in
  peso_pos_classificacao <- dec_sub_py peso_carga (total_descontos_kg self) ;;
  quebra_e_liquido self peso_pos_classificacao.

End Save.

(** ** The run on the object

    [save] assigns to the attributes of [self] as it goes and ends with
    [super().save], which hands the object to the database layer.  When a
    statement raises, the object keeps what was assigned before it.  A run is
    a function of the state of the object that returns the state in which it
    stops with the value or the exception. *)

Definition Run (A : Type) : Type := Romaneio -> Romaneio * result A.

Definition bindR {A B : Type} (m : Run A) (k : A -> Run B) : Run B :=
  fun self =>
    match m self with
    | (self', Ok a) => k a self'
    | (self', Raise e) => (self', Raise e)
    end.

Notation "x <~ m ;; k" := (bindR m (fun x => k))
  (at level 61, m at next level, right associativity).

(** An expression on the attributes of [self]: the object is only read. *)
Definition expr {A : Type} (f : Romaneio -> result A) : Run A :=
  fun self => (self, f self).

(** An assignment to an attribute of [self]. *)
Definition atribuir (f : Romaneio -> Romaneio) : Run unit :=
  fun self => (f self, Ok tt).

(** [Romaneio.save], statement by statement, up to the call of
    [super().save]. *)
Definition save_self (parse : string -> option Decimal)
  (tabelas : list TabelaClassificacao) : Run unit :=
  peso_bruto <~ expr (fun self => to_Decimal parse (peso_bruto self)) ;;
  peso_tara <~ expr (fun self => to_Decimal parse (peso_tara self)) ;;
  umidade <~ expr (fun self => to_Decimal parse (umidade_percentual self)) ;;
  impureza <~ expr (fun self => to_Decimal parse (impureza_percentual self)) ;;
  avariado <~ expr (fun self => to_Decimal parse (avariado_percentual self)) ;;
  let peso_carga := Dec.sub peso_bruto peso_tara in
  p <~ expr (fun self => Ok (parametros (tabela_do_romaneio tabelas self))) ;;
  desconto_umidade <~
    expr (fun _ => calc_desconto_umidade peso_carga umidade p) ;;
  desconto_impureza <~
    expr (fun _ => calc_desconto_excesso peso_carga impureza (padrao_imp p)) ;;
  desconto_avariado <~
    expr (fun _ => calc_desconto_excesso peso_carga avariado (padrao_avar p)) ;;
  _ <~ atribuir (fun self =>
         if sem_manual (desconto_kg_umidade self)
         then set_desconto_kg_umidade self (PyDec desconto_umidade)
         else self) ;;
  _ <~ atribuir (fun self =>
         if sem_manual (desconto_kg_impureza self)
         then set_desconto_kg_impureza self (PyDec desconto_impureza)
         else self) ;;
  _ <~ atribuir (fun self =>
         if sem_manual (desconto_kg_avariado self)
         then set_desconto_kg_avariado self (PyDec desconto_avariado)
         else self) ;;
  total <~ expr (fun self =>
             s <- py_add (desconto_kg_umidade self)
                         (desconto_kg_impureza self) ;;
             py_add s (desconto_kg_avariado self)) ;;
  _ <~ atribuir (fun self => set_total_descontos_kg self total) ;;
  peso_pos_classificacao <~
    expr (fun self => dec_sub_py peso_carga (total_descontos_kg self)) ;;
  armazem_terceiro <~ expr (fun self => Ok (armazem_terceiro self)) ;;
  match armazem_terceiro with
  | Some armazem =>
      indice_quebra <~
        expr (fun _ => to_Decimal parse (quebra_tecnica armazem)) ;;
      q <~ expr (fun _ => Dec.div indice_quebra d_100) ;;
      let quebra_tec := Dec.mul peso_pos_classificacao q in
      _ <~ atribuir (fun self =>
             set_peso_quebra_tecnica self (PyDec quebra_tec)) ;;
      atribuir (fun self =>
        set_peso_liquido self
          (PyDec (Dec.sub peso_pos_classificacao quebra_tec)))
  | None =>
      let quebra_tec := d_0_00 in
      _ <~ atribuir (fun self => set_peso_quebra_tecnica self (PyInt 0)) ;;
      atribuir (fun self =>
        set_peso_liquido self
          (PyDec (Dec.sub peso_pos_classificacao quebra_tec)))
  end.

(** How a call of the whole method ends, with the state of the object:
    the row was written, the calculation raised, or the database layer
    raised (a column that refuses a value, a constraint). *)
Inductive Saida (E : Type) : Type :=
| Gravado (self : Romaneio)
| ErroCalculo (self : Romaneio) (e : exn)
| ErroBanco (self : Romaneio) (e : E).
Arguments Gravado {E} self.
Arguments ErroCalculo {E} self e.
Arguments ErroBanco {E} self e.

(** The call of [super().save] on the object in state [self]:
    [super_save] is the database layer, with errors of its own. *)
Definition entregar {E : Type} (super_save : Romaneio -> Romaneio * option E)
  (self : Romaneio) : Saida E :=
  match super_save self with
  | (self', None) => Gravado self'
  | (self', Some e) => ErroBanco self' e
  end.

(** [Romaneio.save] with its last statement. *)
Definition save_completo {E : Type}
  (super_save : Romaneio -> Romaneio * option E)
  (parse : string -> option Decimal) (tabelas : list TabelaClassificacao)
  (self : Romaneio) : Saida E :=
  match save_self parse tabelas self with
  | (self', Ok _) => entregar super_save self'
  | (self', Raise e) => ErroCalculo self' e
  end.

(** ** A reader of numeric strings

    The finite numeric strings of the constructor ([_parser] of the library,
    on the text stripped of surrounding white space and with its underscores
    removed) over ASCII texts: an optional
    sign, digits with an optional point (at least one digit), an optional
    exponent.  It serves as the constructor in the examples.  The texts of the
    infinities and of NaN, which the constructor accepts too, denote no finite
    decimal and are not read. *)

Definition digit_of (c : ascii) : option Z :=
  let n := nat_of_ascii c in
  if (48 <=? n)%nat && (n <=? 57)%nat then Some (Z.of_nat (n - 48)) else None.

(** White space for [str.strip] among the ASCII characters. *)
Definition is_space (c : ascii) : bool :=
  let n := nat_of_ascii c in
  ((9 <=? n)%nat && (n <=? 13)%nat) || ((28 <=? n)%nat && (n <=? 32)%nat).

Fixpoint lstrip (l : list ascii) : list ascii :=
  match l with
  | c :: l' => if is_space c then lstrip l' else l
  | [] => []
  end.

(** [value.strip()] with the underscores removed. *)
Definition strip_replace (s : string) : string :=
  string_of_list_ascii
    (filter (fun c => negb (Ascii.eqb c "_"%char))
       (rev (lstrip (rev (lstrip (list_ascii_of_string s)))))).

(** [\d+] up to the end of the text. *)
Fixpoint read_nat (s : string) (acc : Z) (seen : bool) : option Z :=
  match s with
  | EmptyString => if seen then Some acc else None
  | String c s' =>
      match digit_of c with
      | Some d => read_nat s' (10 * acc + d) true
      | None => None
      end
  end.

(** [[-+]?\d+] up to the end of the text: the exponent. *)
Definition read_exp (s : string) : option Z :=
  match s with
  | String "-"%char s' =>
      match read_nat s' 0 false with
      | Some x => Some (- x)
      | None => None
      end
  | String "+"%char s' => read_nat s' 0 false
  | _ => read_nat s 0 false
  end.

Fixpoint read_digits (s : string) (acc : Z) (frac : option Z) (seen : bool)
  : option (Z * Z) :=
  match s with
  | EmptyString => if seen then Some (acc, match frac with Some k => - k | None => 0 end) else None
  | String c s' =>
      match digit_of c with
      | Some d =>
          read_digits s' (10 * acc + d)
            (match frac with Some k => Some (k + 1) | None => None end) true
      | None =>
          if Ascii.eqb c "."%char then
            match frac with
            | None => read_digits s' acc (Some 0) seen
            | Some _ => None
            end
          else if (Ascii.eqb c "e"%char || Ascii.eqb c "E"%char) && seen then
            match read_exp s' with
            | Some x =>
                Some (acc, x + match frac with Some k => - k | None => 0 end)
            | None => None
            end
          else None
      end
  end.

Definition plain_decimal (s : string) : option Decimal :=
  match strip_replace s with
  | String "-"%char s' =>
      match read_digits s' 0 None false with
      | Some (c, e) => Some (Dec.mk (- c) e)
      | None => None
      end
  | String "+"%char s' =>
      match read_digits s' 0 None false with
      | Some (c, e) => Some (Dec.mk c e)
      | None => None
      end
  | s' =>
      match read_digits s' 0 None false with
      | Some (c, e) => Some (Dec.mk c e)
      | None => None
      end
  end.

(** ** Sizes of the fields

    [DecimalField(max_digits=md, decimal_places=dp)]: at most [dp] decimal
    places and at most [md - dp] digits before the point. *)

(** [fits k B d]: [d] has at most [k] decimal places and [|d| * 10^k < B]. *)
Definition fits (k B : Z) (d : Decimal) : Prop :=
  - k <= Dec.expo d /\ Z.abs (Dec.coef d) * 10 ^ (Dec.expo d + k) < B.

(** The size of a numeric attribute that holds no text: [None] and [int]
    values are read as the method reads them. *)
Definition campo (md dp : Z) (v : pyval) : Prop :=
  match v with
  | PyNone => True
  | PyInt z => fits dp (10 ^ md) (of_int z)
  | PyDec d => fits dp (10 ^ md) d
  | PyStr _ => False
  end.

(** The attribute holds [None], an [int] or a [Decimal]. *)
Definition numerico (v : pyval) : Prop :=
  match v with
  | PyStr _ => False
  | _ => True
  end.

(** The number a numeric attribute stands for ([None] counts as 0). *)
Definition valor (v : pyval) : Q :=
  match v with
  | PyNone => 0%Q
  | PyInt z => inject_Z z
  | PyDec d => Dec.val d
  | PyStr _ => 0%Q
  end.

(** Every numeric attribute the method reads is numeric. *)
Definition ticket_numerico (r : Romaneio) : Prop :=
  numerico (peso_bruto r) /\ numerico (peso_tara r) /\
  numerico (umidade_percentual r) /\ numerico (impureza_percentual r) /\
  numerico (avariado_percentual r) /\
  numerico (desconto_kg_umidade r) /\ numerico (desconto_kg_impureza r) /\
  numerico (desconto_kg_avariado r) /\
  match armazem_terceiro r with
  | Some a => numerico (quebra_tecnica a)
  | None => True
  end.

(** The attributes are within the sizes their fields declare. *)
Definition ticket_valido (r : Romaneio) : Prop :=
  campo 12 0 (peso_bruto r) /\ campo 12 0 (peso_tara r) /\
  campo 5 2 (umidade_percentual r) /\ campo 5 2 (impureza_percentual r) /\
  campo 5 2 (avariado_percentual r) /\
  campo 12 2 (desconto_kg_umidade r) /\ campo 12 2 (desconto_kg_impureza r) /\
  campo 12 2 (desconto_kg_avariado r) /\
  match armazem_terceiro r with
  | Some a => campo 5 2 (quebra_tecnica a)
  | None => True
  end.

(** The four parameters are within the sizes of [TabelaClassificacao]. *)
Definition parametros_validos (p : Parametros) : Prop :=
  fits 2 (10 ^ 5) (padrao_umid p) /\ fits 2 (10 ^ 5) (padrao_imp p) /\
  fits 2 (10 ^ 5) (padrao_avar p) /\ fits 2 (10 ^ 5) (taxa_sec p).

(** The deduction a category ends with: the attribute when it holds a manual
    value, the calculated deduction otherwise. *)
Definition desconto_final (manual : pyval) (calculado : Decimal) : pyval :=
  if sem_manual manual then PyDec calculado else manual.

(** The ticket with its six derived attributes replaced. *)
Definition com_derivados (r : Romaneio) (du di da total quebra liquido : pyval)
  : Romaneio :=
  mkRomaneio (empresa r) (data r) (numero_ticket r) (fazenda r) (talhao r)
    (plantio r) (motorista r) (placa r) (peso_tara r) (peso_bruto r)
    (umidade_percentual r) (impureza_percentual r) (avariado_percentual r)
    du di da total (armazem_terceiro r) quebra liquido.

(** What can be added: an [int] or a [Decimal]. *)
Definition somavel (v : pyval) : Prop :=
  match v with
  | PyInt _ | PyDec _ => True
  | PyNone | PyStr _ => False
  end.

(** A summand within a size. *)
Definition pyfits (k B : Z) (v : pyval) : Prop :=
  match v with
  | PyInt z => fits k B (of_int z)
  | PyDec d => fits k B d
  | PyNone | PyStr _ => False
  end.

(** ** Tickets of the examples *)

(** Gross 10000 kg, tare 2000 kg, moisture 18 %, impurity 0.5 %, damage 0 %,
    no manual deduction, no warehouse, no crop. *)
Definition ticket_1 : Romaneio :=
  mkRomaneio (Some 1) 20240315 "R-0001" 1 1 None (Some "Joao"%string)
    (Some "ABC1D23"%string)
    (PyDec (Dec.mk 2000 0)) (PyDec (Dec.mk 10000 0))
    (PyDec (Dec.mk 1800 (-2))) (PyDec (Dec.mk 50 (-2))) (PyDec (Dec.mk 0 (-2)))
    (PyInt 0) (PyInt 0) (PyInt 0) (PyInt 0) None (PyInt 0) PyNone.

(** A warehouse whose technical shrinkage is 2 %. *)
Definition armazem_2 : TaxaArmazem :=
  mkTaxaArmazem 1 (Some 7) (PyDec (Dec.mk 200 (-2))).

(** [ticket_1] delivered to [armazem_2]. *)
Definition ticket_3 : Romaneio :=
  mkRomaneio (Some 1) 20240315 "R-0001" 1 1 None (Some "Joao"%string)
    (Some "ABC1D23"%string)
    (PyDec (Dec.mk 2000 0)) (PyDec (Dec.mk 10000 0))
    (PyDec (Dec.mk 1800 (-2))) (PyDec (Dec.mk 50 (-2))) (PyDec (Dec.mk 0 (-2)))
    (PyInt 0) (PyInt 0) (PyInt 0) (PyInt 0) (Some armazem_2) (PyInt 0) PyNone.

(** What [save] returns, or the ticket itself when [save] raises. *)
Definition salvo (parse : string -> option Decimal)
  (tabelas : list TabelaClassificacao) (r : Romaneio) : Romaneio :=
  match save parse tabelas r with
  | Ok r' => r'
  | Raise _ => r
  end.

(** The attributes the calculation has no business with. *)
Definition mesmas_entradas (r r' : Romaneio) : Prop :=
  empresa r' = empresa r /\ data r' = data r /\
  numero_ticket r' = numero_ticket r /\ fazenda r' = fazenda r /\
  talhao r' = talhao r /\ plantio r' = plantio r /\
  motorista r' = motorista r /\ placa r' = placa r /\
  peso_tara r' = peso_tara r /\ peso_bruto r' = peso_bruto r /\
  umidade_percentual r' = umidade_percentual r /\
  impureza_percentual r' = impureza_percentual r /\
  avariado_percentual r' = avariado_percentual r /\
  armazem_terceiro r' = armazem_terceiro r.

(** The net weight stored on [r'] is the load weight minus the stored total
    of the deductions minus the stored technical shrinkage, computed with the
    operators of the method on the attributes of [r']. *)
Definition liquido_coerente (parse : string -> option Decimal) (r' : Romaneio)
  : Prop :=
  exists bruto tara liquido pos resto,
    to_Decimal parse (peso_bruto r') = Ok bruto /\
    to_Decimal parse (peso_tara r') = Ok tara /\
    peso_liquido r' = PyDec liquido /\
    dec_sub_py (Dec.sub bruto tara) (total_descontos_kg r') = Ok pos /\
    dec_sub_py pos (peso_quebra_tecnica r') = Ok resto /\
    (Dec.val liquido == Dec.val resto)%Q.

(** The deductions the method calculates from the percentages of [r], before
    any manual value is looked at. *)
Definition calculados (parse : string -> option Decimal)
  (tabelas : list TabelaClassificacao) (r : Romaneio) (cu ci ca : Decimal)
  : Prop :=
  exists b t u i a,
    to_Decimal parse (peso_bruto r) = Ok b /\
    to_Decimal parse (peso_tara r) = Ok t /\
    to_Decimal parse (umidade_percentual r) = Ok u /\
    to_Decimal parse (impureza_percentual r) = Ok i /\
    to_Decimal parse (avariado_percentual r) = Ok a /\
    calc_desconto_umidade (Dec.sub b t) u
      (parametros (tabela_do_romaneio tabelas r)) = Ok cu /\
    calc_desconto_excesso (Dec.sub b t) i
      (padrao_imp (parametros (tabela_do_romaneio tabelas r))) = Ok ci /\
    calc_desconto_excesso (Dec.sub b t) a
      (padrao_avar (parametros (tabela_do_romaneio tabelas r))) = Ok ca.

(** Manual precedence, in the words of the specification: a manual value that
    is absent or zero gives way to the calculated deduction, any other manual
    value is stored as it is. *)
Definition precedencia (manual : pyval) (calculado : Decimal) (final : pyval)
  : Prop :=
  ((valor manual == 0)%Q -> final = PyDec calculado) /\
  (~ (valor manual == 0)%Q -> final = manual).

(** A text the constructor of [Decimal] refuses. *)
Definition texto_invalido (parse : string -> option Decimal) (v : pyval)
  : Prop :=
  exists s, v = PyStr s /\ s <> EmptyString /\ parse s = None.

(** One of the five raw measurements of the ticket is such a text. *)
Definition entrada_invalida (parse : string -> option Decimal) (r : Romaneio)
  : Prop :=
  texto_invalido parse (peso_bruto r) \/ texto_invalido parse (peso_tara r) \/
  texto_invalido parse (umidade_percentual r) \/
  texto_invalido parse (impureza_percentual r) \/
  texto_invalido parse (avariado_percentual r).

(** [ticket_1] with the gross weight missing. *)
Definition ticket_sem_bruto : Romaneio :=
  mkRomaneio (Some 1) 20240315 "R-0001" 1 1 None (Some "Joao"%string)
    (Some "ABC1D23"%string)
    (PyDec (Dec.mk 2000 0)) PyNone
    (PyDec (Dec.mk 1800 (-2))) (PyDec (Dec.mk 50 (-2))) (PyDec (Dec.mk 0 (-2)))
    (PyInt 0) (PyInt 0) (PyInt 0) (PyInt 0) None (PyInt 0) PyNone.

(** [ticket_1] with a moisture that is not a number. *)
Definition ticket_texto : Romaneio :=
  mkRomaneio (Some 1) 20240315 "R-0001" 1 1 None (Some "Joao"%string)
    (Some "ABC1D23"%string)
    (PyDec (Dec.mk 2000 0)) (PyDec (Dec.mk 10000 0))
    (PyStr "dezoito") (PyDec (Dec.mk 50 (-2))) (PyDec (Dec.mk 0 (-2)))
    (PyInt 0) (PyInt 0) (PyInt 0) (PyInt 0) None (PyInt 0) PyNone.

(** [ticket_1] with a manual moisture deduction of 100 kg. *)
Definition ticket_4 : Romaneio :=
  mkRomaneio (Some 1) 20240315 "R-0001" 1 1 None (Some "Joao"%string)
    (Some "ABC1D23"%string)
    (PyDec (Dec.mk 2000 0)) (PyDec (Dec.mk 10000 0))
    (PyDec (Dec.mk 1800 (-2))) (PyDec (Dec.mk 50 (-2))) (PyDec (Dec.mk 0 (-2)))
    (PyDec (Dec.mk 100 0)) (PyInt 0) (PyInt 0) (PyInt 0) None (PyInt 0) PyNone.

(** [ticket_1] with a manual moisture deduction of -100 kg. *)
Definition ticket_negativo : Romaneio :=
  mkRomaneio (Some 1) 20240315 "R-0001" 1 1 None (Some "Joao"%string)
    (Some "ABC1D23"%string)
    (PyDec (Dec.mk 2000 0)) (PyDec (Dec.mk 10000 0))
    (PyDec (Dec.mk 1800 (-2))) (PyDec (Dec.mk 50 (-2))) (PyDec (Dec.mk 0 (-2)))
    (PyDec (Dec.mk (-100) 0)) (PyInt 0) (PyInt 0) (PyInt 0) None (PyInt 0)
    PyNone.

(** A soybean table, a maize table that holds the default standard, and
    [ticket_1] on a maize planting. *)
Definition tabela_soja : TabelaClassificacao :=
  mkTabela (Some 1) "Soja 2024" "Soja"
    (Dec.mk 1200 (-2)) (Dec.mk 100 (-2)) (Dec.mk 0 (-2)) (Dec.mk 200 (-2)).

Definition tabela_milho_padrao : TabelaClassificacao :=
  mkTabela (Some 1) "Milho" "MILHO" d_14_00 d_1_00 d_0_00 d_0_00.

Definition ticket_milho : Romaneio :=
  mkRomaneio (Some 1) 20240315 "R-0001" 1 1 (Some (mkPlantio 3 "Milho"))
    (Some "Joao"%string) (Some "ABC1D23"%string)
    (PyDec (Dec.mk 2000 0)) (PyDec (Dec.mk 10000 0))
    (PyDec (Dec.mk 1800 (-2))) (PyDec (Dec.mk 50 (-2))) (PyDec (Dec.mk 0 (-2)))
    (PyInt 0) (PyInt 0) (PyInt 0) (PyInt 0) None (PyInt 0) PyNone.

(** The load weight as a number: gross weight minus tare. *)
Definition carga (r : Romaneio) : Q :=
  (valor (peso_bruto r) - valor (peso_tara r))%Q.

(** The technical shrinkage rate of the warehouse of the ticket, in percent;
    0 without a warehouse. *)
Definition indice_quebra (r : Romaneio) : Q :=
  match armazem_terceiro r with
  | Some armazem => valor (quebra_tecnica armazem)
  | None => 0%Q
  end.

(** The deduction of a category in the words of the specification: 0 when
    the measured percentage does not exceed the standard, and otherwise load
    weight x ((measured - standard) + fee) / 100, where the fee is the drying
    fee for moisture and 0 for impurity and damage. *)
Definition desconto_esperado (carga medido padrao taxa : Q) : Q :=
  if Qle_bool medido padrao then 0%Q
  else (carga * ((medido - padrao) + taxa) / (100 # 1))%Q.

(** [ticket_4] with an impurity of 3.50 %, a manual impurity deduction that
    is an explicit [Decimal('0.00')] and no value for the damage deduction:
    a manual moisture deduction of 100 kg, the other two left to the
    calculation. *)
Definition ticket_5 : Romaneio :=
  mkRomaneio (Some 1) 20240315 "R-0001" 1 1 None (Some "Joao"%string)
    (Some "ABC1D23"%string)
    (PyDec (Dec.mk 2000 0)) (PyDec (Dec.mk 10000 0))
    (PyDec (Dec.mk 1800 (-2))) (PyDec (Dec.mk 350 (-2))) (PyDec (Dec.mk 0 (-2)))
    (PyDec (Dec.mk 100 0)) (PyDec (Dec.mk 0 (-2))) PyNone (PyInt 0) None
    (PyInt 0) PyNone.

(** [ticket_1] with an empty text for the moisture. *)
Definition ticket_vazio : Romaneio :=
  mkRomaneio (Some 1) 20240315 "R-0001" 1 1 None (Some "Joao"%string)
    (Some "ABC1D23"%string)
    (PyDec (Dec.mk 2000 0)) (PyDec (Dec.mk 10000 0))
    (PyStr EmptyString) (PyDec (Dec.mk 50 (-2))) (PyDec (Dec.mk 0 (-2)))
    (PyInt 0) (PyInt 0) (PyInt 0) (PyInt 0) None (PyInt 0) PyNone.

(** ** Other methods of the models *)

(** [v - w] *)
Definition py_sub (v w : pyval) : result pyval :=
  match v, w with
  | PyDec a, PyDec b => Ok (PyDec (Dec.sub a b))
  | PyDec a, PyInt z => Ok (PyDec (Dec.sub a (of_int z)))
  | PyInt z, PyDec b => Ok (PyDec (Dec.sub (of_int z) b))
  | PyInt y, PyInt z => Ok (PyInt (y - z))
  | _, _ => Raise TypeError
  end.

(** [v * d] for a decimal [d] *)
Definition py_mul_dec (v : pyval) (d : Decimal) : result Decimal :=
  match v with
  | PyDec a => Ok (Dec.mul a d)
  | PyInt z => Ok (Dec.mul (of_int z) d)
  | PyNone | PyStr _ => Raise TypeError
  end.

(** [a + w] for a decimal [a] (the statement [a += w]) *)
Definition dec_add_py (a : Decimal) (w : pyval) : result Decimal :=
  match w with
  | PyDec b => Ok (Dec.add a b)
  | PyInt z => Ok (Dec.add a (of_int z))
  | PyNone | PyStr _ => Raise TypeError
  end.

(** [a <= b], [a >= b], [a < b] on decimals: exact, as [a > b] is. *)
Definition dec_leb (a b : Decimal) : bool := negb (Dec.gtb a b).
Definition dec_geb (a b : Decimal) : bool := negb (Dec.gtb b a).
Definition dec_ltb (a b : Decimal) : bool := Dec.gtb b a.

(** [d or Decimal(...)] on the result of an aggregate of the database:
    [None] without rows, a decimal otherwise. *)
Definition agregado_ou (soma : option Decimal) (padrao : Decimal) : Decimal :=
  match soma with
  | Some d => if Dec.is_zero d then padrao else d
  | None => padrao
  end.

(** The number such an aggregate stands for. *)
Definition valor_agregado (soma : option Decimal) : Q :=
  match soma with
  | Some d => Dec.val d
  | None => 0%Q
  end.

(** [sum(...)] of Python over decimals: the additions start from the
    [int] 0, from left to right. *)
Definition py_sum (l : list Decimal) : result pyval :=
  fold_left (fun acc x => a <- acc ;; py_add a (PyDec x)) l (Ok (PyInt 0)).

(** The sum of a list of rationals. *)
Definition soma_Q (l : list Q) : Q := fold_right Qplus 0%Q l.

(** *** [Romaneio]: the properties [peso_carga] and [peso_descontos] *)

(** [Romaneio.peso_carga]: "Peso Bruto - Tara". *)
Definition peso_carga (self : Romaneio) : result pyval :=
  py_sub (py_or (peso_bruto self) (PyDec (Dec.mk 0 0)))
         (py_or (peso_tara self) (PyDec (Dec.mk 0 0))).

(** [Romaneio.peso_descontos] *)
Definition peso_descontos (self : Romaneio) : result pyval :=
  match peso_liquido self with
  | PyNone => Ok (PyDec (Dec.mk 0 0))
  | _ =>
      c <- peso_carga self ;;
      s <- py_add (peso_liquido self) (peso_quebra_tecnica self) ;;
      py_sub c s
  end.

(** The ticket with other measured percentages (an edit of the ticket in the
    form). *)
Definition com_percentuais (r : Romaneio) (umidade impureza avariado : pyval)
  : Romaneio :=
  mkRomaneio (empresa r) (data r) (numero_ticket r) (fazenda r) (talhao r)
    (plantio r) (motorista r) (placa r) (peso_tara r) (peso_bruto r)
    umidade impureza avariado
    (desconto_kg_umidade r) (desconto_kg_impureza r) (desconto_kg_avariado r)
    (total_descontos_kg r) (armazem_terceiro r) (peso_quebra_tecnica r)
    (peso_liquido r).

(** *** [ItemPedidoCompra] *)

Module ItemPedidoCompra.

Inductive StatusPedido : Type := ABERTO | PARCIAL | CONCLUIDO | CANCELADO.

Record t : Type := mk {
  quantidade : Decimal;
  valor_unitario : Decimal;
  status : StatusPedido
}.

(** [saldo_restante]; [quantidade_entregue] is what the aggregate over the
    movements of the item returns,
    [Coalesce(Sum('quantidade'), Decimal('0'))]. *)
Definition saldo_restante (self : t) (quantidade_entregue : Decimal) : Decimal :=
  Dec.sub (quantidade self) quantidade_entregue.

(** [percentual_concluido] *)
Definition percentual_concluido (self : t) (quantidade_entregue : Decimal)
  : result Decimal :=
  if Dec.gtb (quantidade self) (of_int 0) then
    q <- Dec.div quantidade_entregue (quantidade self) ;;
    Ok (Dec.mul q (of_int 100))
  else Ok (Dec.mk 0 0).

(** [update_status], up to [self.save()]. *)
Definition update_status (self : t) (quantidade_entregue : Decimal) : t :=
  let saldo := saldo_restante self quantidade_entregue in
  if dec_leb saldo (of_int 0) then
    mk (quantidade self) (valor_unitario self) CONCLUIDO
  else if dec_ltb saldo (quantidade self) then
    mk (quantidade self) (valor_unitario self) PARCIAL
  else
    mk (quantidade self) (valor_unitario self) ABERTO.

End ItemPedidoCompra.

(** *** [ContaPagar], [ContaReceber] and their settlements *)

Module Financeiro.

Inductive StatusFinanceiro : Type := PENDENTE | PARCIAL | PAGO | CANCELADO.

(** What the settlement reads and writes of [ContaPagar] and of
    [ContaReceber]. *)
Record Conta : Type := mkConta {
  valor_total : Decimal;
  status : StatusFinanceiro
}.

(** [ContaPagar.valor_pago] and [ContaReceber.valor_recebido]:
    [self.baixas.aggregate(total=Sum('valor'))['total'] or Decimal('0.00')];
    [soma] is what the aggregate returns. *)
Definition valor_pago (soma : option Decimal) : Decimal :=
  agregado_ou soma d_0_00.

(** [ContaPagar.saldo_devedor] and [ContaReceber.saldo_restante] *)
Definition saldo_devedor (conta : Conta) (soma : option Decimal) : Decimal :=
  Dec.sub (valor_total conta) (valor_pago soma).

(** [BaixaContaPagar.save] and [BaixaContaReceber.save] after
    [super().save]: the status of the parent account, up to [conta.save()]. *)
Definition baixa_save (conta : Conta) (soma : option Decimal) : Conta :=
  let total_pago := valor_pago soma in
  if dec_geb total_pago (valor_total conta) then
    mkConta (valor_total conta) PAGO
  else if Dec.gtb total_pago (of_int 0) then
    mkConta (valor_total conta) PARCIAL
  else conta.

End Financeiro.

(** *** [OperacaoCampo] and [OperacaoCampoItem] *)

Module OperacaoCampo.

(** An operation: the [custo_final] of each of its items, and its
    [area_aplicada_ha] (a nullable column). *)
Record t : Type := mk {
  itens : list Decimal;
  area_aplicada_ha : option Decimal
}.

(** [OperacaoCampoItem.save], up to [super().save]: the [custo_final] it
    stores.  [area_aplicada_ha] is the area of the operation of the item. *)
Definition custo_final (is_custo_total : bool) (custo_unitario : Decimal)
  (area_aplicada_ha : option Decimal) : Decimal :=
  let area := agregado_ou area_aplicada_ha (Dec.mk 10 (-1)) in
  if is_custo_total then custo_unitario
  else Dec.mul custo_unitario area.

(** [OperacaoCampo.custo_total]: [sum(item.custo_final for item in itens)]. *)
Definition custo_total (self : t) : result pyval := py_sum (itens self).

(** A [custo_final] within the size of its column (15 digits, 2 places)
    that is not negative. *)
Definition custo_valido (d : Decimal) : Prop :=
  fits 2 (10 ^ 15) d /\ (0 <= Dec.val d)%Q.

(** An operation of at most 1000 items, each with such a cost. *)
Definition valida (self : t) : Prop :=
  Forall custo_valido (itens self) /\ Z.of_nat (length (itens self)) <= 1000.

(** The exact sum of the costs of the items. *)
Definition custo_exato (self : t) : Q := soma_Q (map Dec.val (itens self)).

End OperacaoCampo.

(** *** [Talhao.calcular_custo_total] *)

Module Talhao.

(** The body of the loop: what one operation adds to [custo_total]. *)
Definition parcela (area_hectares : Decimal) (operacao : OperacaoCampo.t)
  : result pyval :=
  op_custo <- OperacaoCampo.custo_total operacao ;;
  let op_area :=
    agregado_ou (OperacaoCampo.area_aplicada_ha operacao) (Dec.mk 1 0) in
  if Dec.gtb op_area (of_int 0) then
    proporcao <- Dec.div area_hectares op_area ;;
    let proporcao :=
      if Dec.gtb proporcao (of_int 1) then Dec.mk 10 (-1) else proporcao in
    p <- py_mul_dec op_custo proporcao ;;
    Ok (PyDec p)
  else Ok op_custo.

(** [calcular_custo_total]; [operacoes] is [self.operacoes_campo.all()]. *)
Definition calcular_custo_total (area_hectares : Decimal)
  (operacoes : list OperacaoCampo.t) : result Decimal :=
  fold_left
    (fun acc operacao =>
       custo_total <- acc ;;
       x <- parcela area_hectares operacao ;;
       dec_add_py custo_total x)
    operacoes (Ok d_0_00).

End Talhao.

(** *** [Plantio]: cost, revenue and return *)

Module Ciclo.

(** What the financial methods of [Plantio] read: the aggregate of the areas
    of its fields, two columns and its operations. *)
Record t : Type := mk {
  soma_areas : option Decimal;
  producao_estimada_sc_ha : Decimal;
  preco_venda_estimado_sc : Decimal;
  operacoes : list OperacaoCampo.t
}.

(** [area_total_ha]:
    [self.talhoes.aggregate(total=Sum('area_hectares'))['total']
     or Decimal('0.0000')] *)
Definition area_total_ha (self : t) : Decimal :=
  agregado_ou (soma_areas self) (Dec.mk 0 (-4)).

Definition producao_total_estimada_sc (self : t) : Decimal :=
  Dec.mul (area_total_ha self) (producao_estimada_sc_ha self).

Definition calcular_custo_total (self : t) : result Decimal :=
  fold_left
    (fun acc operacao =>
       custo_total <- acc ;;
       c <- OperacaoCampo.custo_total operacao ;;
       dec_add_py custo_total c)
    (operacoes self) (Ok d_0_00).

Definition calcular_receita_estimada (self : t) : Decimal :=
  Dec.mul (producao_total_estimada_sc self) (preco_venda_estimado_sc self).

Definition calcular_lucro_estimado (self : t) : result Decimal :=
  custo <- calcular_custo_total self ;;
  Ok (Dec.sub (calcular_receita_estimada self) custo).

Definition calcular_roi (self : t) : result Decimal :=
  custo <- calcular_custo_total self ;;
  if Dec.gtb custo (of_int 0) then
    lucro <- calcular_lucro_estimado self ;;
    q <- Dec.div lucro custo ;;
    Ok (Dec.mul q (of_int 100))
  else Ok d_0_00.

End Ciclo.

(** *** [ContratoVenda] and [ItemContratoVenda] *)

Module ContratoVenda.

Record Item : Type := mkItem {
  quantidade : Decimal;
  valor_unitario : Decimal
}.

(** [ItemContratoVenda.valor_total] *)
Definition valor_total (item : Item) : Decimal :=
  Dec.mul (quantidade item) (valor_unitario item).

(** [ContratoVenda.valor_total_contrato]:
    [sum(item.valor_total for item in self.itens.all())] *)
Definition valor_total_contrato (itens : list Item) : result pyval :=
  py_sum (map valor_total itens).

(** The item is within the sizes of its fields. *)
Definition item_valido (item : Item) : Prop :=
  fits 2 (10 ^ 12) (quantidade item) /\ fits 2 (10 ^ 10) (valor_unitario item).

(** Quantity times unit price, as a number. *)
Definition valor_exato (item : Item) : Q :=
  (Dec.val (quantidade item) * Dec.val (valor_unitario item))%Q.

End ContratoVenda.

(** * Properties *)

(** ** The decimal operations *)

Module DecFacts.
Import Dec.

Lemma ndigits_aux_pos (fuel : nat) : forall n, 1 <= ndigits_aux fuel n.
Proof.
  induction fuel as [|f IH]; intros n; cbn [ndigits_aux]; [lia|].
  destruct (n <? 10); [lia|]. specialize (IH (n / 10)). lia.
Qed.

Lemma ndigits_aux_upper (fuel : nat) :
  forall n, 0 <= n -> n < 2 ^ (Z.of_nat fuel + 1) ->
            n < 10 ^ ndigits_aux fuel n.
Proof.
  induction fuel as [|f IH]; intros n Hn Hlt.
  - simpl in *. lia.
  - cbn [ndigits_aux]. destruct (n <? 10) eqn:E.
    + apply Z.ltb_lt in E. simpl. lia.
    + apply Z.ltb_ge in E.
      assert (Hq : n / 10 < 2 ^ (Z.of_nat f + 1)).
      { apply Z.div_lt_upper_bound; [lia|].
        replace (Z.of_nat (S f) + 1) with (Z.succ (Z.of_nat f + 1)) in Hlt by lia.
        rewrite Z.pow_succ_r in Hlt by lia. lia. }
      specialize (IH (n / 10) ltac:(apply Z.div_pos; lia) Hq).
      pose proof (ndigits_aux_pos f (n / 10)) as Hnd.
      replace (1 + ndigits_aux f (n / 10)) with (Z.succ (ndigits_aux f (n / 10))) by lia.
      rewrite Z.pow_succ_r by lia.
      pose proof (Z.div_mod n 10 ltac:(lia)).
      pose proof (Z.mod_pos_bound n 10 ltac:(lia)). lia.
Qed.

Lemma ndigits_aux_min (fuel : nat) :
  forall n k, 0 <= n -> 1 <= k -> n < 10 ^ k -> ndigits_aux fuel n <= k.
Proof.
  induction fuel as [|f IH]; intros n k Hn Hk Hlt; cbn [ndigits_aux]; [lia|].
  destruct (n <? 10) eqn:E; [lia|]. apply Z.ltb_ge in E.
  assert (2 <= k).
  { destruct (Z.eq_dec k 1) as [->|]; [simpl in Hlt; lia | lia]. }
  assert (n / 10 < 10 ^ (k - 1)).
  { apply Z.div_lt_upper_bound; [lia|].
    rewrite <- Z.pow_succ_r by lia. replace (Z.succ (k - 1)) with k by lia. lia. }
  specialize (IH (n / 10) (k - 1) ltac:(apply Z.div_pos; lia) ltac:(lia) H0). lia.
Qed.

(** The coefficient is below the power of ten of its number of digits. *)
Lemma ndigits_upper (n : Z) : Z.abs n < 10 ^ ndigits n.
Proof.
  unfold ndigits. apply ndigits_aux_upper; [lia|].
  rewrite Z2Nat.id by apply Z.log2_nonneg.
  destruct (Z.eq_dec (Z.abs n) 0) as [->|Hnz]; [reflexivity|].
  pose proof (Z.log2_spec (Z.abs n) ltac:(lia)). lia.
Qed.

Lemma ndigits_min (n k : Z) : 1 <= k -> Z.abs n < 10 ^ k -> ndigits n <= k.
Proof. intros. unfold ndigits. apply ndigits_aux_min; lia. Qed.

(** A coefficient of at most [prec] digits is left as it is. *)
Lemma fix_small (d : t) : Z.abs (coef d) < 10 ^ prec -> fix_ d = d.
Proof.
  intros H. unfold fix_.
  pose proof (ndigits_min (coef d) prec ltac:(unfold prec; lia) H).
  destruct (ndigits (coef d) - prec <=? 0) eqn:E; [reflexivity|].
  apply Z.leb_gt in E. lia.
Qed.

(** *** The value of the exact results *)

Lemma ten_nonzero : ~ (10 # 1 == 0)%Q.
Proof. intros H. discriminate H. Qed.

Lemma scale_val (c j e : Z) :
  0 <= j ->
  (inject_Z (c * 10 ^ j) * (10 # 1) ^ e == inject_Z c * (10 # 1) ^ (j + e))%Q.
Proof.
  intros Hj. rewrite inject_Z_mult, (Zpower_Qpower 10 j Hj).
  rewrite (Qpower_plus _ j e ten_nonzero).
  change (inject_Z 10) with (10 # 1)%Q. ring.
Qed.

Lemma val_add_exact (a b : t) : (val (add_exact a b) == val a + val b)%Q.
Proof.
  unfold val, add_exact. cbn [coef expo].
  set (e := Z.min (expo a) (expo b)).
  rewrite inject_Z_plus, Qmult_plus_distr_l.
  rewrite !scale_val by (subst e; lia).
  replace (expo a - e + e) with (expo a) by lia.
  replace (expo b - e + e) with (expo b) by lia.
  reflexivity.
Qed.

Lemma val_neg (a : t) : (val (neg a) == - val a)%Q.
Proof. unfold val, neg. cbn [coef expo]. rewrite inject_Z_opp. ring. Qed.

Lemma val_mul_exact (a b : t) : (val (mul_exact a b) == val a * val b)%Q.
Proof.
  unfold val, mul_exact. cbn [coef expo].
  rewrite inject_Z_mult, (Qpower_plus _ _ _ ten_nonzero). ring.
Qed.

Lemma val_zero (a : t) : coef a = 0 -> (val a == 0)%Q.
Proof. intros H. unfold val. rewrite H. ring. Qed.

(** *** Comparison *)

Lemma pow10_pos (e : Z) : (0 < (10 # 1) ^ e)%Q.
Proof. apply Qpower_0_lt. reflexivity. Qed.

Lemma gtb_val (a b : t) : gtb a b = true <-> (val b < val a)%Q.
Proof.
  unfold gtb, compare.
  set (e := Z.min (expo a) (expo b)).
  set (x := coef a * 10 ^ (expo a - e)).
  set (y := coef b * 10 ^ (expo b - e)).
  assert (Ha : (val a == inject_Z x * (10 # 1) ^ e)%Q).
  { unfold val. subst x. rewrite scale_val by (subst e; lia).
    replace (expo a - e + e) with (expo a) by lia. reflexivity. }
  assert (Hb : (val b == inject_Z y * (10 # 1) ^ e)%Q).
  { unfold val. subst y. rewrite scale_val by (subst e; lia).
    replace (expo b - e + e) with (expo b) by lia. reflexivity. }
  rewrite Ha, Hb. pose proof (pow10_pos e) as Hp.
  destruct (Z.compare_spec x y) as [E|E|E]; split; intros H; try discriminate;
    try reflexivity.
  - exfalso. rewrite E in H. exact (Qlt_irrefl _ H).
  - exfalso. rewrite Zlt_Qlt in E.
    assert (inject_Z x * (10 # 1) ^ e < inject_Z y * (10 # 1) ^ e)%Q
      by (apply Qmult_lt_compat_r; assumption).
    apply (Qlt_irrefl (inject_Z y * (10 # 1) ^ e)). eapply Qlt_trans; eassumption.
  - rewrite Zlt_Qlt in E. apply Qmult_lt_compat_r; assumption.
Qed.

(** *** Operands within a size: no rounding takes place *)

Lemma fits_coef (k B : Z) (d : t) : fits k B d -> Z.abs (coef d) < B.
Proof.
  intros [He Hc].
  assert (0 < 10 ^ (expo d + k)) by (apply Z.pow_pos_nonneg; lia).
  nia.
Qed.

Lemma fits_weaken (k B B' : Z) (d : t) : fits k B d -> B <= B' -> fits k B' d.
Proof. intros [He Hc] Hle. split; lia. Qed.

Lemma fits_places (k j B : Z) (d : t) :
  0 <= j -> fits k B d -> fits (k + j) (B * 10 ^ j) d.
Proof.
  intros Hj [He Hc]. split; [lia|].
  replace (expo d + (k + j)) with ((expo d + k) + j) by lia.
  rewrite Z.pow_add_r by lia.
  assert (0 < 10 ^ j) by (apply Z.pow_pos_nonneg; lia).
  nia.
Qed.

Lemma fits_neg (k B : Z) (d : t) : fits k B d -> fits k B (neg d).
Proof. unfold fits, neg. cbn [coef expo]. rewrite Z.abs_opp. tauto. Qed.

Lemma add_exact_fits (k B1 B2 : Z) (a b : t) :
  fits k B1 a -> fits k B2 b -> fits k (B1 + B2) (add_exact a b).
Proof.
  intros [Hea Hca] [Heb Hcb]. unfold fits, add_exact. cbn [coef expo].
  set (e := Z.min (expo a) (expo b)). split; [subst e; lia|].
  replace (expo a + k) with ((expo a - e) + (e + k)) in Hca by lia.
  replace (expo b + k) with ((expo b - e) + (e + k)) in Hcb by lia.
  rewrite Z.pow_add_r in Hca, Hcb by (subst e; lia).
  assert (Hx : 0 < 10 ^ (expo a - e)) by (apply Z.pow_pos_nonneg; subst e; lia).
  assert (Hy : 0 < 10 ^ (expo b - e)) by (apply Z.pow_pos_nonneg; subst e; lia).
  assert (Hw : 0 < 10 ^ (e + k)) by (apply Z.pow_pos_nonneg; subst e; lia).
  set (X := 10 ^ (expo a - e)) in *. set (Y := 10 ^ (expo b - e)) in *.
  set (W := 10 ^ (e + k)) in *.
  pose proof (Z.abs_triangle (coef a * X) (coef b * Y)) as Ht.
  rewrite !Z.abs_mul, (Z.abs_eq X), (Z.abs_eq Y) in Ht by lia.
  nia.
Qed.

Lemma mul_exact_fits (k1 k2 B1 B2 : Z) (a b : t) :
  fits k1 B1 a -> fits k2 B2 b -> fits (k1 + k2) (B1 * B2) (mul_exact a b).
Proof.
  intros [Hea Hca] [Heb Hcb]. unfold fits, mul_exact. cbn [coef expo].
  split; [lia|].
  replace (expo a + expo b + (k1 + k2)) with ((expo a + k1) + (expo b + k2)) by lia.
  rewrite Z.pow_add_r, Z.abs_mul by lia.
  assert (0 < 10 ^ (expo a + k1)) by (apply Z.pow_pos_nonneg; lia).
  assert (0 < 10 ^ (expo b + k2)) by (apply Z.pow_pos_nonneg; lia).
  pose proof (Z.abs_nonneg (coef a)). pose proof (Z.abs_nonneg (coef b)).
  nia.
Qed.

Lemma fits_fix (k B : Z) (d : t) : fits k B d -> B <= 10 ^ prec -> fix_ d = d.
Proof. intros H Hle. apply fix_small. apply fits_coef in H. lia. Qed.

(** Sum, difference and product of operands within a size are exact. *)
Lemma add_fits (k B1 B2 B : Z) (a b : t) :
  fits k B1 a -> fits k B2 b -> B1 + B2 <= B -> B <= 10 ^ prec ->
  fits k B (add a b) /\ (val (add a b) == val a + val b)%Q.
Proof.
  intros Ha Hb Hsum Hle.
  pose proof (fits_weaken _ _ _ _ (add_exact_fits _ _ _ _ _ Ha Hb) Hsum) as Hf.
  unfold add. rewrite (fits_fix _ _ _ Hf Hle). split; [exact Hf|].
  apply val_add_exact.
Qed.

Lemma sub_fits (k B1 B2 B : Z) (a b : t) :
  fits k B1 a -> fits k B2 b -> B1 + B2 <= B -> B <= 10 ^ prec ->
  fits k B (sub a b) /\ (val (sub a b) == val a - val b)%Q.
Proof.
  intros Ha Hb Hsum Hle.
  pose proof (fits_weaken _ _ _ _
                (add_exact_fits _ _ _ _ _ Ha (fits_neg _ _ _ Hb)) Hsum) as Hf.
  unfold sub. rewrite (fits_fix _ _ _ Hf Hle). split; [exact Hf|].
  rewrite val_add_exact, val_neg. ring.
Qed.

Lemma mul_fits (k1 k2 B1 B2 B : Z) (a b : t) :
  fits k1 B1 a -> fits k2 B2 b -> B1 * B2 <= B -> B <= 10 ^ prec ->
  fits (k1 + k2) B (mul a b) /\ (val (mul a b) == val a * val b)%Q.
Proof.
  intros Ha Hb Hprod Hle.
  pose proof (fits_weaken _ _ _ _ (mul_exact_fits _ _ _ _ _ _ Ha Hb) Hprod) as Hf.
  unfold mul. rewrite (fits_fix _ _ _ Hf Hle). split; [exact Hf|].
  apply val_mul_exact.
Qed.

(** More decimal places, a larger bound. *)
Lemma fits_up (k k' B B' : Z) (d : t) :
  fits k B d -> k <= k' -> B * 10 ^ (k' - k) <= B' -> fits k' B' d.
Proof.
  intros Hf Hk HB.
  pose proof (fits_places k (k' - k) B d ltac:(lia) Hf) as H.
  replace (k + (k' - k)) with k' in H by lia.
  exact (fits_weaken _ _ _ _ H HB).
Qed.

(** *** Division by the literal 100 *)

Lemma strip_zeros_spec (fuel : nat) :
  forall c e, 0 <= c ->
    exists j, 0 <= j <= Z.of_nat fuel /\
              snd (strip_zeros fuel c e) = e + j /\
              c = fst (strip_zeros fuel c e) * 10 ^ j /\
              0 <= fst (strip_zeros fuel c e) /\
              (j = Z.of_nat fuel \/ fst (strip_zeros fuel c e) mod 10 <> 0).
Proof.
  induction fuel as [|f IH]; intros c e Hc.
  - exists 0. cbn. repeat split; lia.
  - cbn [strip_zeros]. destruct (c mod 10 =? 0) eqn:E.
    + apply Z.eqb_eq in E.
      destruct (IH (c / 10) (e + 1) ltac:(apply Z.div_pos; lia))
        as (j & Hj & He & Hv & Hpos & Hstop).
      exists (j + 1).
      split; [lia|]. split; [lia|]. split; [|split; [exact Hpos|]].
      * rewrite Z.pow_add_r by lia.
        pose proof (Z.div_mod c 10 ltac:(lia)). change (10 ^ 1) with 10. lia.
      * destruct Hstop as [->|Hm]; [left; lia | right; exact Hm].
    + apply Z.eqb_neq in E. exists 0. cbn [fst snd].
      split; [lia|]. split; [lia|]. split; [lia|]. split; [lia|].
      right; exact E.
Qed.

(** Dividing a coefficient of at most [prec] digits by 100 is exact, takes
    at most two more decimal places and never raises. *)
Lemma div_100 (a : t) :
  Z.abs (coef a) < 10 ^ prec ->
  exists q, div a (mk 100 0) = Ok q /\
            (val q == val a / (100 # 1))%Q /\
            expo a - 2 <= expo q /\
            Z.abs (coef q) * 10 ^ (expo q - (expo a - 2)) = Z.abs (coef a).
Proof.
  intros Hsmall. unfold div. cbn [coef expo].
  change (100 =? 0) with false. cbv iota.
  destruct (coef a =? 0) eqn:Ez.
  - apply Z.eqb_eq in Ez. eexists. split; [reflexivity|].
    rewrite fix_small by (cbn [coef]; change (Z.abs 0) with 0;
                          apply Z.pow_pos_nonneg; unfold prec; lia).
    cbn [coef expo]. rewrite Ez. repeat split; try lia.
    unfold val. cbn [coef expo]. rewrite Ez. field.
  - apply Z.eqb_neq in Ez.
    change (ndigits 100) with 3. change (Z.abs 100) with 100.
    change (Z.sgn 100) with 1.
    pose proof (ndigits_min (coef a) prec ltac:(unfold prec; lia) Hsmall) as Hn.
    set (shift := 3 - ndigits (coef a) + prec + 1).
    assert (Hs : 4 <= shift) by (subst shift; unfold prec in *; lia).
    destruct (0 <=? shift) eqn:E0; [|apply Z.leb_gt in E0; lia].
    assert (Hp : 10 ^ shift = 10 ^ (shift - 2) * 100).
    { replace shift with ((shift - 2) + 2) at 1 by lia.
      rewrite Z.pow_add_r by lia. reflexivity. }
    rewrite Hp, Z.mul_assoc, Z.mod_mul, Z.div_mul by lia.
    change (0 =? 0) with true. cbv iota.
    replace (expo a - 0 - (expo a - 0 - shift)) with shift by lia.
    set (q0 := Z.abs (coef a) * 10 ^ (shift - 2)).
    assert (Hq0 : 0 <= q0).
    { subst q0. apply Z.mul_nonneg_nonneg; [lia|]. apply Z.pow_nonneg; lia. }
    destruct (strip_zeros_spec (Z.to_nat shift) q0 (expo a - 0 - shift) Hq0)
      as (j & Hj & He & Hv & Hpos & Hstop).
    rewrite Z2Nat.id in Hj, Hstop by lia.
    destruct (strip_zeros (Z.to_nat shift) q0 (expo a - 0 - shift)) as [c e'].
    cbn [fst snd] in *.
    assert (Hj2 : shift - 2 <= j).
    { destruct Hstop as [->|Hm]; [lia|].
      destruct (Z_le_gt_dec (shift - 2) j) as [|Hgt]; [assumption|exfalso].
      apply Hm. subst q0.
      replace (shift - 2) with ((shift - 2 - j - 1) + 1 + j) in Hv by lia.
      rewrite !Z.pow_add_r in Hv by lia.
      assert (0 < 10 ^ j) by (apply Z.pow_pos_nonneg; lia).
      assert (c = Z.abs (coef a) * 10 ^ (shift - 2 - j - 1) * 10) by
        (change (10 ^ 1) with 10 in Hv; nia).
      subst c. apply Z.mod_mul; lia. }
    assert (Hc : c * 10 ^ (j - (shift - 2)) = Z.abs (coef a)).
    { subst q0. replace j with ((j - (shift - 2)) + (shift - 2)) in Hv at 1 by lia.
      rewrite Z.pow_add_r in Hv by lia.
      assert (0 < 10 ^ (shift - 2)) by (apply Z.pow_pos_nonneg; lia). nia. }
    assert (Hle : c <= Z.abs (coef a)).
    { assert (0 < 10 ^ (j - (shift - 2))) by (apply Z.pow_pos_nonneg; lia). nia. }
    assert (Habs : Z.abs (Z.sgn (coef a) * 1 * c) = c).
    { rewrite Z.mul_1_r, Z.abs_mul, (Z.abs_eq c) by lia.
      destruct (coef a); cbn [Z.sgn Z.abs]; lia. }
    eexists. split; [reflexivity|].
    rewrite fix_small by (cbn [coef]; rewrite Habs; lia).
    cbn [coef expo]. rewrite Habs. subst e'. repeat split; try lia.
    + unfold val. cbn [coef expo].
      assert (Hca : coef a = (Z.sgn (coef a) * 1 * c) * 10 ^ (j - (shift - 2))).
      { rewrite Z.mul_1_r, <- Z.mul_assoc, Hc.
        pose proof (Z.abs_sgn (coef a)). lia. }
      rewrite Hca at 2. rewrite scale_val by lia.
      replace (j - (shift - 2) + expo a) with (2 + (expo a - 0 - shift + j)) by lia.
      rewrite (Qpower_plus _ 2 _ ten_nonzero).
      change ((10 # 1) ^ 2)%Q with (100 # 1)%Q. field.
    + replace (expo a - 0 - shift + j - (expo a - 2)) with (j - (shift - 2)) by lia.
      exact Hc.
Qed.

Lemma div_100_fits (k B : Z) (a : t) :
  fits k B a -> B <= 10 ^ prec ->
  exists q, div a (mk 100 0) = Ok q /\ fits (k + 2) B q /\
            (val q == val a / (100 # 1))%Q.
Proof.
  intros Hf Hle. pose proof (fits_coef _ _ _ Hf) as Hc.
  destruct (div_100 a ltac:(lia)) as (q & Hq & Hv & He & Hs).
  exists q. repeat split; try assumption.
  - destruct Hf; lia.
  - destruct Hf as [Hea Hca].
    replace (expo q + (k + 2)) with ((expo q - (expo a - 2)) + (expo a + k)) by lia.
    rewrite Z.pow_add_r, Z.mul_assoc, Hs by lia. exact Hca.
Qed.

(** The quotient by the literal 100 never raises, whatever the dividend. *)
Lemma div_100_total (a : t) : exists q, div a (mk 100 0) = Ok q.
Proof.
  unfold div. cbn [coef expo]. change (100 =? 0) with false. cbv iota.
  destruct (coef a =? 0); [eexists; reflexivity|].
  destruct (if _ =? 0 then _ else _) as [c e']. eexists; reflexivity.
Qed.

(** *** Rounding in general *)

(** The result of an operation has at most [prec] digits. *)
Lemma fix_bound (d : t) : Z.abs (coef (fix_ d)) < 10 ^ prec.
Proof.
  unfold fix_. pose proof (ndigits_upper (coef d)) as Hu.
  set (k := ndigits (coef d) - prec) in *.
  destruct (k <=? 0) eqn:Ek.
  - apply Z.leb_le in Ek.
    assert (10 ^ ndigits (coef d) <= 10 ^ prec)
      by (apply Z.pow_le_mono_r; lia). lia.
  - apply Z.leb_gt in Ek.
    replace (ndigits (coef d)) with (prec + k) in Hu by (subst k; lia).
    rewrite Z.pow_add_r in Hu by (unfold prec; lia).
    assert (Hk : 0 < 10 ^ k) by (apply Z.pow_pos_nonneg; lia).
    assert (Hq : Z.abs (coef d) / 10 ^ k < 10 ^ prec)
      by (apply Z.div_lt_upper_bound; lia).
    assert (Hq0 : 0 <= Z.abs (coef d) / 10 ^ k)
      by (apply Z.div_pos; lia).
    set (q := Z.abs (coef d) / 10 ^ k) in *.
    set (q1 := if _ : bool then q + 1 else q).
    assert (Hq1 : 0 <= q1 <= 10 ^ prec) by (subst q1; destruct (_ || _); lia).
    assert (Hsg : forall x, 0 <= x -> Z.abs (Z.sgn (coef d) * x) <= x).
    { intros x Hx. rewrite Z.abs_mul, (Z.abs_eq x) by lia.
      destruct (coef d); cbn [Z.sgn Z.abs]; lia. }
    destruct (10 ^ prec <=? q1) eqn:E1; cbn [coef].
    + apply Z.leb_le in E1. assert (q1 = 10 ^ prec) by lia.
      assert (q1 / 10 < 10 ^ prec).
      { apply Z.div_lt_upper_bound; [lia|]. unfold prec in *. lia. }
      pose proof (Hsg (q1 / 10) ltac:(apply Z.div_pos; lia)). lia.
    + apply Z.leb_gt in E1. pose proof (Hsg q1 ltac:(lia)). lia.
Qed.

(** Rounding drops the zeros that pad a coefficient of at most [prec] digits
    and nothing else. *)
Lemma fix_padded (c j e : Z) :
  Z.abs c < 10 ^ prec -> 0 <= j ->
  (val (fix_ (mk (c * 10 ^ j) e)) == val (mk (c * 10 ^ j) e))%Q.
Proof.
  intros Hc Hj. unfold fix_. cbn [coef expo].
  assert (Hpj : 0 < 10 ^ j) by (apply Z.pow_pos_nonneg; lia).
  assert (Hnd : ndigits (c * 10 ^ j) <= prec + j).
  { apply ndigits_min; [unfold prec; lia|].
    rewrite Z.pow_add_r, Z.abs_mul, (Z.abs_eq (10 ^ j)) by (unfold prec; lia).
    apply Z.mul_lt_mono_pos_r; assumption. }
  pose proof (ndigits_upper (c * 10 ^ j)) as Hu.
  set (k := ndigits (c * 10 ^ j) - prec) in *.
  destruct (k <=? 0) eqn:Ek; [reflexivity|]. apply Z.leb_gt in Ek.
  assert (Hk : 0 < 10 ^ k) by (apply Z.pow_pos_nonneg; lia).
  assert (Habs : Z.abs (c * 10 ^ j) = (Z.abs c * 10 ^ (j - k)) * 10 ^ k).
  { rewrite Z.abs_mul, (Z.abs_eq (10 ^ j)) by lia.
    rewrite <- Z.mul_assoc, <- Z.pow_add_r by lia.
    replace (j - k + k) with j by lia. reflexivity. }
  rewrite Habs, Z.div_mul, Z.mod_mul by lia.
  assert (Hhalf : 0 < 5 * 10 ^ (k - 1)).
  { assert (0 < 10 ^ (k - 1)) by (apply Z.pow_pos_nonneg; lia). lia. }
  destruct (5 * 10 ^ (k - 1) <? 0) eqn:E1; [apply Z.ltb_lt in E1; lia|].
  destruct (0 =? 5 * 10 ^ (k - 1)) eqn:E2; [apply Z.eqb_eq in E2; lia|].
  cbn [orb andb].
  replace (ndigits (c * 10 ^ j)) with (prec + k) in Hu by (subst k; lia).
  rewrite Habs, Z.pow_add_r in Hu by (unfold prec; lia).
  assert (Hq : Z.abs c * 10 ^ (j - k) < 10 ^ prec) by nia.
  destruct (10 ^ prec <=? Z.abs c * 10 ^ (j - k)) eqn:E3;
    [apply Z.leb_le in E3; lia|].
  unfold val. cbn [coef expo].
  assert (Hsplit : c * 10 ^ j = (Z.sgn c * (Z.abs c * 10 ^ (j - k))) * 10 ^ k).
  { rewrite Z.mul_assoc, (Z.mul_comm (Z.sgn c)), Z.abs_sgn.
    rewrite <- Z.mul_assoc, <- Z.pow_add_r by lia.
    replace (j - k + k) with j by lia. reflexivity. }
  assert (Hsgn : Z.sgn (c * 10 ^ j) = Z.sgn c).
  { rewrite Z.sgn_mul, (Z.sgn_pos (10 ^ j)) by lia. lia. }
  rewrite Hsgn. rewrite Hsplit at 1. rewrite scale_val by lia.
  replace (k + e) with (e + k) by lia. reflexivity.
Qed.

(** Subtracting a zero, whatever its exponent, keeps the value. *)
Lemma sub_zero_val (x z : t) :
  Z.abs (coef x) < 10 ^ prec -> coef z = 0 -> (val (sub x z) == val x)%Q.
Proof.
  intros Hx Hz. unfold sub.
  assert (Hshape : add_exact x (neg z)
                   = mk (coef x * 10 ^ (expo x - Z.min (expo x) (expo z)))
                        (Z.min (expo x) (expo z))).
  { unfold add_exact, neg. cbn [coef expo]. rewrite Hz. f_equal. lia. }
  rewrite Hshape, fix_padded by lia. rewrite <- Hshape.
  rewrite val_add_exact, val_neg, (val_zero z Hz). ring.
Qed.

End DecFacts.

(** ** The shape of a run of [save] *)

(** Reading an attribute of a ticket that is written out. *)
Ltac campos :=
  cbn [set_desconto_kg_umidade set_desconto_kg_impureza set_desconto_kg_avariado
       set_total_descontos_kg set_peso_quebra_tecnica set_peso_liquido
       com_derivados
       empresa data numero_ticket fazenda talhao plantio motorista placa
       peso_tara peso_bruto umidade_percentual impureza_percentual
       avariado_percentual desconto_kg_umidade desconto_kg_impureza
       desconto_kg_avariado total_descontos_kg armazem_terceiro
       peso_quebra_tecnica peso_liquido] in *.

Section SaveFacts.

Variable parse : string -> option Decimal.
Variable tabelas : list TabelaClassificacao.

Lemma bind_ok {A B : Type} (m : result A) (k : A -> result B) (b : B) :
  bind m k = Ok b -> exists a, m = Ok a /\ k a = Ok b.
Proof. destruct m as [a|e]; cbn; [eauto | discriminate]. Qed.

(** The method as one chain of steps on the attributes of the ticket. *)
Lemma save_eq (r : Romaneio) :
  save parse tabelas r =
  (b <- to_Decimal parse (peso_bruto r) ;;
   t <- to_Decimal parse (peso_tara r) ;;
   u <- to_Decimal parse (umidade_percentual r) ;;
   i <- to_Decimal parse (impureza_percentual r) ;;
   a <- to_Decimal parse (avariado_percentual r) ;;
   let p := parametros (tabela_do_romaneio tabelas r) in
   cu <- calc_desconto_umidade (Dec.sub b t) u p ;;
   ci <- calc_desconto_excesso (Dec.sub b t) i (padrao_imp p) ;;
   ca <- calc_desconto_excesso (Dec.sub b t) a (padrao_avar p) ;;
   let du := desconto_final (desconto_kg_umidade r) cu in
   let di := desconto_final (desconto_kg_impureza r) ci in
   let da := desconto_final (desconto_kg_avariado r) ca in
   s <- py_add du di ;;
   total <- py_add s da ;;
   pos <- dec_sub_py (Dec.sub b t) total ;;
   match armazem_terceiro r with
   | Some armazem =>
       indice <- to_Decimal parse (quebra_tecnica armazem) ;;
       q <- Dec.div indice d_100 ;;
       Ok (com_derivados r du di da total (PyDec (Dec.mul pos q))
             (PyDec (Dec.sub pos (Dec.mul pos q))))
   | None =>
       Ok (com_derivados r du di da total (PyInt 0)
             (PyDec (Dec.sub pos d_0_00)))
   end).
Proof.
  unfold save, quebra_e_liquido, desconto_final, com_derivados.
  destruct r as [emp dat num faz tal pla mot plc tara bruto um im av dku dki dka tot arm qt liq].
  campos.
  destruct (sem_manual dku); campos;
    destruct (sem_manual dki); campos;
    destruct (sem_manual dka); campos;
    destruct arm; reflexivity.
Qed.

(** A run that returns went through every step, and the ticket it returns is
    the ticket it received with the six derived attributes replaced. *)
Lemma save_ok (r r' : Romaneio) :
  save parse tabelas r = Ok r' ->
  exists b t u i a cu ci ca s total pos quebra liquido,
    to_Decimal parse (peso_bruto r) = Ok b /\
    to_Decimal parse (peso_tara r) = Ok t /\
    to_Decimal parse (umidade_percentual r) = Ok u /\
    to_Decimal parse (impureza_percentual r) = Ok i /\
    to_Decimal parse (avariado_percentual r) = Ok a /\
    calc_desconto_umidade (Dec.sub b t) u
      (parametros (tabela_do_romaneio tabelas r)) = Ok cu /\
    calc_desconto_excesso (Dec.sub b t) i
      (padrao_imp (parametros (tabela_do_romaneio tabelas r))) = Ok ci /\
    calc_desconto_excesso (Dec.sub b t) a
      (padrao_avar (parametros (tabela_do_romaneio tabelas r))) = Ok ca /\
    py_add (desconto_final (desconto_kg_umidade r) cu)
           (desconto_final (desconto_kg_impureza r) ci) = Ok s /\
    py_add s (desconto_final (desconto_kg_avariado r) ca) = Ok total /\
    dec_sub_py (Dec.sub b t) total = Ok pos /\
    r' = com_derivados r (desconto_final (desconto_kg_umidade r) cu)
           (desconto_final (desconto_kg_impureza r) ci)
           (desconto_final (desconto_kg_avariado r) ca)
           total quebra (PyDec liquido) /\
    ((armazem_terceiro r = None /\ quebra = PyInt 0 /\
      liquido = Dec.sub pos d_0_00) \/
     (exists armazem indice q,
        armazem_terceiro r = Some armazem /\
        to_Decimal parse (quebra_tecnica armazem) = Ok indice /\
        Dec.div indice d_100 = Ok q /\
        quebra = PyDec (Dec.mul pos q) /\
        liquido = Dec.sub pos (Dec.mul pos q))).
Proof.
  rewrite save_eq. intros H.
  apply bind_ok in H. destruct H as (b & Hb & H).
  apply bind_ok in H. destruct H as (t & Ht & H).
  apply bind_ok in H. destruct H as (u & Hu & H).
  apply bind_ok in H. destruct H as (i & Hi & H).
  apply bind_ok in H. destruct H as (a & Ha & H).
  cbv zeta in H.
  apply bind_ok in H. destruct H as (cu & Hcu & H).
  apply bind_ok in H. destruct H as (ci & Hci & H).
  apply bind_ok in H. destruct H as (ca & Hca & H).
  apply bind_ok in H. destruct H as (s & Hs & H).
  apply bind_ok in H. destruct H as (total & Htot & H).
  apply bind_ok in H. destruct H as (pos & Hpos & H).
  exists b, t, u, i, a, cu, ci, ca, s, total, pos.
  destruct (armazem_terceiro r) as [arm|] eqn:Earm.
  - apply bind_ok in H. destruct H as (indice & Hidx & H).
    apply bind_ok in H. destruct H as (q & Hq & H).
    injection H as <-.
    exists (PyDec (Dec.mul pos q)), (Dec.sub pos (Dec.mul pos q)).
    repeat (split; [assumption || reflexivity|]).
    right. exists arm, indice, q. auto.
  - injection H as <-.
    exists (PyInt 0), (Dec.sub pos d_0_00).
    repeat (split; [assumption || reflexivity|]).
    left. auto.
Qed.

(** *** Numeric attributes: every step returns *)

Lemma to_Decimal_numerico (v : pyval) :
  numerico v ->
  exists d, to_Decimal parse v = Ok d /\ (Dec.val d == valor v)%Q.
Proof.
  destruct v as [|z|d|s]; cbn; intros Hn; try contradiction.
  - exists (of_int 0). split; reflexivity.
  - unfold to_Decimal, py_or. cbn. destruct (z =? 0) eqn:E; cbn.
    + apply Z.eqb_eq in E. subst z. exists (of_int 0). split; reflexivity.
    + exists (of_int z). split; [reflexivity|].
      unfold Dec.val, of_int. cbn. ring.
  - unfold to_Decimal, py_or. cbn. unfold Dec.is_zero.
    destruct (Dec.coef d =? 0) eqn:E; cbn.
    + apply Z.eqb_eq in E. exists (of_int 0). split; [reflexivity|].
      rewrite (DecFacts.val_zero d E). reflexivity.
    + exists d. split; reflexivity.
Qed.

Lemma calc_desconto_umidade_total (carga u : Decimal) (p : Parametros) :
  exists c, calc_desconto_umidade carga u p = Ok c.
Proof.
  unfold calc_desconto_umidade. destruct (Dec.gtb u (padrao_umid p)).
  - destruct (DecFacts.div_100_total (Dec.sub u (padrao_umid p))) as [q Hq].
    destruct (DecFacts.div_100_total (taxa_sec p)) as [q' Hq'].
    unfold d_100. rewrite Hq. cbn [bind]. rewrite Hq'. cbn [bind]. eauto.
  - eauto.
Qed.

Lemma calc_desconto_excesso_total (carga m padrao : Decimal) :
  exists c, calc_desconto_excesso carga m padrao = Ok c.
Proof.
  unfold calc_desconto_excesso. destruct (Dec.gtb m padrao).
  - destruct (DecFacts.div_100_total (Dec.sub m padrao)) as [q Hq].
    unfold d_100. rewrite Hq. cbn [bind]. eauto.
  - eauto.
Qed.

Lemma desconto_final_somavel (v : pyval) (c : Decimal) :
  numerico v -> somavel (desconto_final v c).
Proof.
  unfold desconto_final. intros Hn.
  destruct (sem_manual v) eqn:E; [exact I|].
  destruct v; try exact I; [discriminate E | contradiction].
Qed.

Lemma py_add_somavel (v w : pyval) :
  somavel v -> somavel w -> exists x, py_add v w = Ok x /\ somavel x.
Proof.
  destruct v, w; cbn; intros Hv Hw; try contradiction; eexists; split;
    try reflexivity; exact I.
Qed.

Lemma dec_sub_py_somavel (a : Decimal) (w : pyval) :
  somavel w -> exists d, dec_sub_py a w = Ok d.
Proof. destruct w; cbn; intros Hw; try contradiction; eauto. Qed.

Lemma save_total (r : Romaneio) :
  ticket_numerico r -> exists r', save parse tabelas r = Ok r'.
Proof.
  intros (Hb & Ht & Hu & Hi & Ha & Hdu & Hdi & Hda & Harm).
  rewrite save_eq.
  destruct (to_Decimal_numerico _ Hb) as (b & -> & _).
  destruct (to_Decimal_numerico _ Ht) as (t & -> & _).
  destruct (to_Decimal_numerico _ Hu) as (u & -> & _).
  destruct (to_Decimal_numerico _ Hi) as (i & -> & _).
  destruct (to_Decimal_numerico _ Ha) as (a & -> & _).
  cbn [bind]. cbv zeta.
  destruct (calc_desconto_umidade_total (Dec.sub b t) u
              (parametros (tabela_do_romaneio tabelas r))) as (cu & ->).
  destruct (calc_desconto_excesso_total (Dec.sub b t) i
              (padrao_imp (parametros (tabela_do_romaneio tabelas r)))) as (ci & ->).
  destruct (calc_desconto_excesso_total (Dec.sub b t) a
              (padrao_avar (parametros (tabela_do_romaneio tabelas r)))) as (ca & ->).
  cbn [bind].
  destruct (py_add_somavel _ _ (desconto_final_somavel _ cu Hdu)
              (desconto_final_somavel _ ci Hdi)) as (s & -> & Hs).
  cbn [bind].
  destruct (py_add_somavel _ _ Hs (desconto_final_somavel _ ca Hda))
    as (total & -> & Htot).
  cbn [bind].
  destruct (dec_sub_py_somavel (Dec.sub b t) total Htot) as (pos & ->).
  cbn [bind].
  destruct (armazem_terceiro r) as [arm|]; [|eauto].
  destruct (to_Decimal_numerico _ Harm) as (idx & -> & _). cbn [bind].
  destruct (DecFacts.div_100_total idx) as (q & Hq).
  unfold d_100. rewrite Hq. cbn [bind]. eauto.
Qed.

End SaveFacts.

(** ** Lemmas on the steps of the method *)

(** The deduction a category ends with is stable under a second pass. *)
Lemma desconto_final_idem (v : pyval) (c : Decimal) :
  desconto_final (desconto_final v c) c = desconto_final v c.
Proof.
  unfold desconto_final. destruct (sem_manual v) eqn:E.
  - destruct (sem_manual (PyDec c)); reflexivity.
  - rewrite E. reflexivity.
Qed.

Lemma dec_sub_py_bound (a pos : Decimal) (w : pyval) :
  dec_sub_py a w = Ok pos -> Z.abs (Dec.coef pos) < 10 ^ Dec.prec.
Proof.
  destruct w; cbn [dec_sub_py]; intros H; try discriminate;
    injection H as <-; apply DecFacts.fix_bound.
Qed.

(** *** Manual values *)

Lemma val_eq_zero (d : Decimal) : (Dec.val d == 0)%Q <-> Dec.coef d = 0.
Proof.
  split; [|apply DecFacts.val_zero].
  unfold Dec.val. intros H.
  pose proof (DecFacts.pow10_pos (Dec.expo d)) as Hp.
  destruct (Qmult_integral _ _ H) as [H0|H0].
  - unfold Qeq in H0. cbn in H0. lia.
  - rewrite H0 in Hp. discriminate Hp.
Qed.

(** On a numeric attribute the test of the method, [not v or v == 0], holds
    exactly when the attribute is absent or zero. *)
Lemma sem_manual_valor (v : pyval) :
  numerico v -> (sem_manual v = true <-> (valor v == 0)%Q).
Proof.
  destruct v as [|z|d|s]; cbn; intros Hn; try contradiction.
  - split; reflexivity.
  - unfold sem_manual. cbn. destruct (z =? 0) eqn:E; cbn.
    + apply Z.eqb_eq in E. subst z. split; reflexivity.
    + apply Z.eqb_neq in E. split; [discriminate|].
      intros H. unfold Qeq in H. cbn in H. lia.
  - unfold sem_manual. cbn. unfold Dec.is_zero. rewrite val_eq_zero.
    destruct (Dec.coef d =? 0) eqn:E; cbn.
    + apply Z.eqb_eq in E. tauto.
    + apply Z.eqb_neq in E. split; [discriminate | contradiction].
Qed.

Lemma desconto_final_precedencia (v : pyval) (c : Decimal) :
  numerico v -> precedencia v c (desconto_final v c).
Proof.
  intros Hn. unfold precedencia, desconto_final.
  pose proof (sem_manual_valor v Hn) as Hs.
  destruct (sem_manual v); split; intros H; try reflexivity.
  - exfalso. apply H. apply Hs. reflexivity.
  - apply Hs in H. discriminate.
Qed.

(** *** Deductions at or below the standard *)

Lemma calc_desconto_umidade_zero (carga u : Decimal) (p : Parametros) :
  (Dec.val u <= Dec.val (padrao_umid p))%Q ->
  calc_desconto_umidade carga u p = Ok d_0_00.
Proof.
  intros Hle. unfold calc_desconto_umidade.
  destruct (Dec.gtb u (padrao_umid p)) eqn:E; [|reflexivity].
  apply DecFacts.gtb_val in E. exfalso. apply (Qlt_not_le _ _ E Hle).
Qed.

Lemma calc_desconto_excesso_zero (carga m padrao : Decimal) :
  (Dec.val m <= Dec.val padrao)%Q ->
  calc_desconto_excesso carga m padrao = Ok d_0_00.
Proof.
  intros Hle. unfold calc_desconto_excesso.
  destruct (Dec.gtb m padrao) eqn:E; [|reflexivity].
  apply DecFacts.gtb_val in E. exfalso. apply (Qlt_not_le _ _ E Hle).
Qed.

Lemma to_Decimal_valor (parse : string -> option Decimal) (v : pyval)
  (d : Decimal) :
  numerico v -> to_Decimal parse v = Ok d -> (Dec.val d == valor v)%Q.
Proof.
  intros Hn Hd. destruct (to_Decimal_numerico parse v Hn) as (d' & Hd' & Hv).
  rewrite Hd in Hd'. injection Hd' as ->. exact Hv.
Qed.

Lemma desconto_final_sem_manual (v : pyval) (c : Decimal) :
  numerico v -> (valor v == 0)%Q -> desconto_final v c = PyDec c.
Proof.
  intros Hn Hz. apply (sem_manual_valor v Hn) in Hz.
  unfold desconto_final. rewrite Hz. reflexivity.
Qed.

(** *** Errors *)

Lemma to_Decimal_texto (parse : string -> option Decimal) (v : pyval) :
  texto_invalido parse v -> to_Decimal parse v = Raise InvalidOperation.
Proof.
  intros (s & -> & Hne & Hp). unfold to_Decimal, py_or. cbn.
  destruct (String.eqb s EmptyString) eqn:E.
  - apply String.eqb_eq in E. contradiction.
  - cbn. rewrite Hp. reflexivity.
Qed.

(** The conversion of an attribute raises nothing but [InvalidOperation]. *)
Lemma to_Decimal_cases (parse : string -> option Decimal) (v : pyval) :
  (exists d, to_Decimal parse v = Ok d) \/
  to_Decimal parse v = Raise InvalidOperation.
Proof.
  unfold to_Decimal, py_or. destruct (truthy v).
  - destruct v as [|z|d|s]; cbn; eauto. destruct (parse s); eauto.
  - cbn. eauto.
Qed.

Lemma save_entrada_invalida (parse : string -> option Decimal)
  (tabelas : list TabelaClassificacao) (r : Romaneio) :
  entrada_invalida parse r -> save parse tabelas r = Raise InvalidOperation.
Proof.
  intros Hinv. rewrite save_eq.
  destruct (to_Decimal_cases parse (peso_bruto r)) as [(b & Hb)|Hb];
    [|rewrite Hb; reflexivity].
  destruct Hinv as [H|Hinv];
    [rewrite (to_Decimal_texto parse _ H) in Hb; discriminate|].
  rewrite Hb. cbn [bind].
  destruct (to_Decimal_cases parse (peso_tara r)) as [(t & Ht)|Ht];
    [|rewrite Ht; reflexivity].
  destruct Hinv as [H|Hinv];
    [rewrite (to_Decimal_texto parse _ H) in Ht; discriminate|].
  rewrite Ht. cbn [bind].
  destruct (to_Decimal_cases parse (umidade_percentual r)) as [(u & Hu)|Hu];
    [|rewrite Hu; reflexivity].
  destruct Hinv as [H|Hinv];
    [rewrite (to_Decimal_texto parse _ H) in Hu; discriminate|].
  rewrite Hu. cbn [bind].
  destruct (to_Decimal_cases parse (impureza_percentual r)) as [(i & Hi)|Hi];
    [|rewrite Hi; reflexivity].
  destruct Hinv as [H|H];
    [rewrite (to_Decimal_texto parse _ H) in Hi; discriminate|].
  rewrite Hi. cbn [bind].
  rewrite (to_Decimal_texto parse _ H). reflexivity.
Qed.

(** ** Values of the run on a ticket within the sizes of its fields *)

(** A closed comparison of integers. *)
Ltac conta := first [lia | vm_compute; congruence].

Lemma val_of_int (z : Z) : (Dec.val (of_int z) == inject_Z z)%Q.
Proof. unfold Dec.val, of_int. cbn [Dec.coef Dec.expo]. change ((10 # 1) ^ 0)%Q with 1%Q. ring. Qed.

Lemma fits_zero (k B : Z) (e : Z) : - k <= e -> 0 < B -> fits k B (Dec.mk 0 e).
Proof. intros He HB. split; cbn [Dec.coef Dec.expo]; [exact He | lia]. Qed.

Lemma campo_numerico (md dp : Z) (v : pyval) : campo md dp v -> numerico v.
Proof. destruct v; cbn; tauto. Qed.

Lemma to_Decimal_campo (parse : string -> option Decimal) (md dp : Z)
  (v : pyval) :
  0 <= md -> 0 <= dp -> campo md dp v ->
  exists d, to_Decimal parse v = Ok d /\ (Dec.val d == valor v)%Q /\
            fits dp (10 ^ md) d.
Proof.
  intros Hmd Hdp Hc.
  destruct (to_Decimal_numerico parse v (campo_numerico _ _ _ Hc))
    as (d & Hd & Hv).
  exists d. split; [exact Hd|]. split; [exact Hv|].
  assert (Hz : fits dp (10 ^ md) (of_int 0)).
  { apply fits_zero; [lia|]. apply Z.pow_pos_nonneg; lia. }
  unfold to_Decimal, py_or in Hd.
  destruct v as [|z|x|s]; cbn [campo] in Hc; try contradiction.
  - cbn in Hd. injection Hd as <-. exact Hz.
  - cbn [truthy] in Hd. destruct (negb (z =? 0));
      cbn [Decimal_str] in Hd; injection Hd as <-; assumption.
  - cbn [truthy] in Hd. destruct (negb (Dec.is_zero x));
      cbn [Decimal_str] in Hd; injection Hd as <-; assumption.
Qed.

Lemma ticket_valido_numerico (r : Romaneio) :
  ticket_valido r -> ticket_numerico r.
Proof.
  unfold ticket_valido, ticket_numerico.
  intros (Hb & Ht & Hu & Hi & Ha & Hdu & Hdi & Hda & Harm).
  repeat (split; [eapply campo_numerico; eassumption|]).
  destruct (armazem_terceiro r); [eapply campo_numerico; eassumption | exact I].
Qed.

(** The moisture deduction on operands within their sizes. *)
Lemma calc_desconto_umidade_fits (carga u : Decimal) (p : Parametros) :
  fits 0 (2 * 10 ^ 12) carga -> fits 2 (10 ^ 5) u -> parametros_validos p ->
  exists c,
    calc_desconto_umidade carga u p = Ok c /\ fits 4 (10 ^ 18) c /\
    ((Dec.val (padrao_umid p) < Dec.val u)%Q ->
     (Dec.val c == Dec.val carga * ((Dec.val u - Dec.val (padrao_umid p)) / (100 # 1))
                   + Dec.val carga * (Dec.val (taxa_sec p) / (100 # 1)))%Q) /\
    ((Dec.val u <= Dec.val (padrao_umid p))%Q -> c = d_0_00).
Proof.
  intros Hc Hu (Hpu & _ & _ & Hts). unfold calc_desconto_umidade.
  destruct (Dec.gtb u (padrao_umid p)) eqn:E.
  - apply DecFacts.gtb_val in E.
    destruct (DecFacts.sub_fits 2 _ _ (2 * 10 ^ 5) u (padrao_umid p) Hu Hpu
                ltac:(conta) ltac:(conta)) as (Hex & Hexv).
    destruct (DecFacts.div_100_fits 2 _ _ Hex ltac:(conta)) as (q & Hq & Hqf & Hqv).
    destruct (DecFacts.div_100_fits 2 _ _ Hts ltac:(conta)) as (q' & Hq' & Hqf' & Hqv').
    unfold d_100. rewrite Hq. cbn [bind]. rewrite Hq'. cbn [bind].
    destruct (DecFacts.mul_fits 0 4 _ _ (4 * 10 ^ 17) carga q Hc Hqf
                ltac:(conta) ltac:(conta)) as (Hm & Hmv).
    destruct (DecFacts.mul_fits 0 4 _ _ (4 * 10 ^ 17) carga q' Hc Hqf'
                ltac:(conta) ltac:(conta)) as (Hm' & Hmv').
    destruct (DecFacts.add_fits 4 _ _ (10 ^ 18) _ _ Hm Hm'
                ltac:(conta) ltac:(conta)) as (Ha & Hav).
    eexists. split; [reflexivity|]. split; [exact Ha|]. split.
    + intros _. rewrite Hav, Hmv, Hmv', Hqv, Hqv', Hexv. reflexivity.
    + intros Hle. exfalso. apply (Qlt_not_le _ _ E Hle).
  - exists d_0_00. split; [reflexivity|]. split.
    + apply fits_zero; conta.
    + split; [|reflexivity].
      intros Hlt. apply DecFacts.gtb_val in Hlt. congruence.
Qed.

(** The impurity and damage deductions on operands within their sizes. *)
Lemma calc_desconto_excesso_fits (carga m padrao : Decimal) :
  fits 0 (2 * 10 ^ 12) carga -> fits 2 (10 ^ 5) m -> fits 2 (10 ^ 5) padrao ->
  exists c,
    calc_desconto_excesso carga m padrao = Ok c /\ fits 4 (10 ^ 18) c /\
    ((Dec.val padrao < Dec.val m)%Q ->
     (Dec.val c == Dec.val carga * ((Dec.val m - Dec.val padrao) / (100 # 1)))%Q) /\
    ((Dec.val m <= Dec.val padrao)%Q -> c = d_0_00).
Proof.
  intros Hc Hm Hp. unfold calc_desconto_excesso.
  destruct (Dec.gtb m padrao) eqn:E.
  - apply DecFacts.gtb_val in E.
    destruct (DecFacts.sub_fits 2 _ _ (2 * 10 ^ 5) m padrao Hm Hp
                ltac:(conta) ltac:(conta)) as (Hex & Hexv).
    destruct (DecFacts.div_100_fits 2 _ _ Hex ltac:(conta)) as (q & Hq & Hqf & Hqv).
    unfold d_100. rewrite Hq. cbn [bind].
    destruct (DecFacts.mul_fits 0 4 _ _ (10 ^ 18) carga q Hc Hqf
                ltac:(conta) ltac:(conta)) as (Hmf & Hmv).
    eexists. split; [reflexivity|]. split; [exact Hmf|]. split.
    + intros _. rewrite Hmv, Hqv, Hexv. reflexivity.
    + intros Hle. exfalso. apply (Qlt_not_le _ _ E Hle).
  - exists d_0_00. split; [reflexivity|]. split.
    + apply fits_zero; conta.
    + split; [|reflexivity].
      intros Hlt. apply DecFacts.gtb_val in Hlt. congruence.
Qed.

Lemma pyfits_valor_dec (k B : Z) (v : pyval) :
  pyfits k B v ->
  exists d, fits k B d /\ (Dec.val d == valor v)%Q /\
            (forall a, dec_sub_py a v = Ok (Dec.sub a d)) /\
            (forall a, py_add (PyDec a) v = Ok (PyDec (Dec.add a d))).
Proof.
  destruct v as [|z|d|s]; cbn [pyfits]; intros H; try contradiction.
  - exists (of_int z). split; [exact H|]. split; [apply val_of_int|].
    split; reflexivity.
  - exists d. split; [exact H|]. split; [reflexivity|]. split; reflexivity.
Qed.

Lemma desconto_final_fits (v : pyval) (c : Decimal) :
  campo 12 2 v -> fits 4 (10 ^ 18) c -> pyfits 4 (10 ^ 18) (desconto_final v c).
Proof.
  intros Hv Hc. unfold desconto_final.
  destruct (sem_manual v) eqn:E; [exact Hc|].
  destruct v as [|z|d|s]; cbn [campo pyfits] in *; try contradiction.
  - discriminate E.
  - apply (DecFacts.fits_up 2 4 (10 ^ 12)); [exact Hv | lia | conta].
  - apply (DecFacts.fits_up 2 4 (10 ^ 12)); [exact Hv | lia | conta].
Qed.

Lemma py_add_fits (k B1 B2 B : Z) (v w : pyval) :
  pyfits k B1 v -> pyfits k B2 w -> B1 + B2 <= B -> B <= 10 ^ Dec.prec ->
  exists x, py_add v w = Ok x /\ pyfits k B x /\
            (valor x == valor v + valor w)%Q.
Proof.
  intros Hv Hw Hsum Hle.
  destruct v as [|y|a|s]; cbn [pyfits] in Hv; try contradiction;
    destruct w as [|z|b|s']; cbn [pyfits] in Hw; try contradiction;
    cbn [py_add valor].
  - exists (PyInt (y + z)). split; [reflexivity|]. split.
    + cbn [pyfits].
      pose proof (DecFacts.fits_weaken _ _ _ _
                    (DecFacts.add_exact_fits _ _ _ _ _ Hv Hw) Hsum) as H.
      unfold Dec.add_exact, of_int in H. cbn [Dec.coef Dec.expo] in H.
      unfold of_int. destruct H as [He Hc]. split; [exact He|].
      cbn [Dec.coef Dec.expo] in *.
      replace (Z.min 0 0) with 0 in Hc by reflexivity.
      replace (0 - 0) with 0 in Hc by reflexivity.
      change (10 ^ 0) with 1 in Hc at 1 2. rewrite !Z.mul_1_r in Hc. exact Hc.
    + cbn [valor]. rewrite inject_Z_plus. reflexivity.
  - destruct (DecFacts.add_fits k _ _ B _ _ Hv Hw Hsum Hle) as (Hf & Hval).
    exists (PyDec (Dec.add (of_int y) b)). split; [reflexivity|].
    split; [exact Hf|]. cbn [valor]. rewrite Hval, val_of_int. reflexivity.
  - destruct (DecFacts.add_fits k _ _ B _ _ Hv Hw Hsum Hle) as (Hf & Hval).
    exists (PyDec (Dec.add a (of_int z))). split; [reflexivity|].
    split; [exact Hf|]. cbn [valor]. rewrite Hval, val_of_int. reflexivity.
  - destruct (DecFacts.add_fits k _ _ B _ _ Hv Hw Hsum Hle) as (Hf & Hval).
    exists (PyDec (Dec.add a b)). split; [reflexivity|].
    split; [exact Hf|]. cbn [valor]. exact Hval.
Qed.

Lemma dec_sub_py_fits (k B1 B2 B : Z) (a : Decimal) (w : pyval) :
  fits k B1 a -> pyfits k B2 w -> B1 + B2 <= B -> B <= 10 ^ Dec.prec ->
  exists d, dec_sub_py a w = Ok d /\ fits k B d /\
            (Dec.val d == Dec.val a - valor w)%Q.
Proof.
  intros Ha Hw Hsum Hle.
  destruct (pyfits_valor_dec _ _ _ Hw) as (b & Hb & Hbv & Hsub & _).
  destruct (DecFacts.sub_fits k _ _ B a b Ha Hb Hsum Hle) as (Hf & Hval).
  exists (Dec.sub a b). split; [apply Hsub|]. split; [exact Hf|].
  rewrite Hval, Hbv. reflexivity.
Qed.

(** The run on a ticket within the sizes of its fields: it returns, no
    operation rounds, and the derived attributes have the values of the
    exact arithmetic. *)
Lemma save_valores (parse : string -> option Decimal)
  (tabelas : list TabelaClassificacao) (r : Romaneio) :
  ticket_valido r ->
  parametros_validos (parametros (tabela_do_romaneio tabelas r)) ->
  exists r' cu ci ca,
    save parse tabelas r = Ok r' /\
    calculados parse tabelas r cu ci ca /\
    desconto_kg_umidade r' = desconto_final (desconto_kg_umidade r) cu /\
    desconto_kg_impureza r' = desconto_final (desconto_kg_impureza r) ci /\
    desconto_kg_avariado r' = desconto_final (desconto_kg_avariado r) ca /\
    (valor (total_descontos_kg r')
     == valor (desconto_kg_umidade r') + valor (desconto_kg_impureza r')
        + valor (desconto_kg_avariado r'))%Q /\
    (valor (peso_quebra_tecnica r')
     == (carga r - valor (total_descontos_kg r'))
        * (indice_quebra r / (100 # 1)))%Q /\
    (valor (peso_liquido r')
     == carga r - valor (total_descontos_kg r')
        - valor (peso_quebra_tecnica r'))%Q.
Proof.
  intros (Hb & Ht & Hu & Hi & Ha & Hdu & Hdi & Hda & Harm) (Hpu & Hpi & Hpa & Hts).
  set (p := parametros (tabela_do_romaneio tabelas r)) in *.
  destruct (to_Decimal_campo parse 12 0 _ ltac:(lia) ltac:(lia) Hb) as (b & Eb & Vb & Fb).
  destruct (to_Decimal_campo parse 12 0 _ ltac:(lia) ltac:(lia) Ht) as (t & Et & Vt & Ft).
  destruct (to_Decimal_campo parse 5 2 _ ltac:(lia) ltac:(lia) Hu) as (u & Eu & Vu & Fu).
  destruct (to_Decimal_campo parse 5 2 _ ltac:(lia) ltac:(lia) Hi) as (i & Ei & Vi & Fi).
  destruct (to_Decimal_campo parse 5 2 _ ltac:(lia) ltac:(lia) Ha) as (a & Ea & Va & Fa).
  destruct (DecFacts.sub_fits 0 _ _ (2 * 10 ^ 12) b t Fb Ft ltac:(conta) ltac:(conta))
    as (Fc & Vc).
  destruct (calc_desconto_umidade_fits _ u p Fc Fu (conj Hpu (conj Hpi (conj Hpa Hts))))
    as (cu & Ecu & Fcu & _).
  destruct (calc_desconto_excesso_fits _ i (padrao_imp p) Fc Fi Hpi)
    as (ci & Eci & Fci & _).
  destruct (calc_desconto_excesso_fits _ a (padrao_avar p) Fc Fa Hpa)
    as (ca & Eca & Fca & _).
  pose proof (desconto_final_fits _ cu Hdu Fcu) as Fdu.
  pose proof (desconto_final_fits _ ci Hdi Fci) as Fdi.
  pose proof (desconto_final_fits _ ca Hda Fca) as Fda.
  destruct (py_add_fits 4 _ _ (2 * 10 ^ 18) _ _ Fdu Fdi ltac:(conta) ltac:(conta))
    as (s & Es & Fs & Vs).
  destruct (py_add_fits 4 _ _ (3 * 10 ^ 18) _ _ Fs Fda ltac:(conta) ltac:(conta))
    as (total & Etot & Ftot & Vtot).
  pose proof (DecFacts.fits_up 0 4 _ (2 * 10 ^ 16) _ Fc ltac:(lia) ltac:(conta)) as Fc4.
  destruct (dec_sub_py_fits 4 _ _ (4 * 10 ^ 18) _ _ Fc4 Ftot ltac:(conta) ltac:(conta))
    as (pos & Epos & Fpos & Vpos).
  exists (match armazem_terceiro r with
          | Some armazem =>
              match to_Decimal parse (quebra_tecnica armazem) with
              | Ok idx =>
                  match Dec.div idx d_100 with
                  | Ok q =>
                      com_derivados r (desconto_final (desconto_kg_umidade r) cu)
                        (desconto_final (desconto_kg_impureza r) ci)
                        (desconto_final (desconto_kg_avariado r) ca) total
                        (PyDec (Dec.mul pos q))
                        (PyDec (Dec.sub pos (Dec.mul pos q)))
                  | Raise _ => r
                  end
              | Raise _ => r
              end
          | None =>
              com_derivados r (desconto_final (desconto_kg_umidade r) cu)
                (desconto_final (desconto_kg_impureza r) ci)
                (desconto_final (desconto_kg_avariado r) ca) total
                (PyInt 0) (PyDec (Dec.sub pos d_0_00))
          end), cu, ci, ca.
  assert (Hcalc : calculados parse tabelas r cu ci ca).
  { exists b, t, u, i, a. fold p. auto 10. }
  rewrite save_eq, Eb, Et, Eu, Ei, Ea. cbn [bind]. cbv zeta. fold p.
  rewrite Ecu, Eci, Eca. cbn [bind]. rewrite Es. cbn [bind].
  rewrite Etot. cbn [bind]. rewrite Epos. cbn [bind].
  unfold carga, indice_quebra.
  destruct (armazem_terceiro r) as [arm|].
  - destruct (to_Decimal_campo parse 5 2 _ ltac:(lia) ltac:(lia) Harm)
      as (idx & Eidx & Vidx & Fidx).
    destruct (DecFacts.div_100_fits 2 _ _ Fidx ltac:(conta)) as (q & Eq & Fq & Vq).
    unfold d_100. rewrite Eidx. cbn [bind]. rewrite Eq. cbn [bind].
    destruct (DecFacts.mul_fits 4 4 _ _ (4 * 10 ^ 23) pos q Fpos Fq
                ltac:(conta) ltac:(conta)) as (Fm & Vm).
    pose proof (DecFacts.fits_up 4 8 _ (4 * 10 ^ 22) _ Fpos ltac:(lia) ltac:(conta)) as Fpos8.
    destruct (DecFacts.sub_fits 8 _ _ (10 ^ 24) pos (Dec.mul pos q) Fpos8 Fm
                ltac:(conta) ltac:(conta)) as (Fl & Vl).
    split; [reflexivity|]. split; [exact Hcalc|]. campos.
    repeat (split; [reflexivity|]). cbn [valor].
    split; [rewrite Vtot, Vs; reflexivity|]. split.
    + rewrite Vm, Vq, Vpos, Vc, Vb, Vt, Vidx. reflexivity.
    + rewrite Vl, Vm, Vq, Vpos, Vc, Vb, Vt, Vidx. reflexivity.
  - destruct (DecFacts.sub_fits 4 _ _ (5 * 10 ^ 18) pos d_0_00 Fpos
                (fits_zero 4 1 (-2) ltac:(lia) ltac:(lia))
                ltac:(conta) ltac:(conta)) as (Fl & Vl).
    split; [reflexivity|]. split; [exact Hcalc|]. campos.
    repeat (split; [reflexivity|]). cbn [valor].
    split; [rewrite Vtot, Vs; reflexivity|]. split.
    + change (inject_Z 0) with 0%Q. field.
    + rewrite Vl, Vpos, Vc, Vb, Vt.
      change (Dec.val d_0_00) with (0 * (1 # 100))%Q.
      change (inject_Z 0) with 0%Q. ring.
Qed.

(** The calculated deductions of a ticket within the sizes of its fields, as
    numbers. *)
Lemma calculados_valores (parse : string -> option Decimal)
  (tabelas : list TabelaClassificacao) (r : Romaneio) (cu ci ca : Decimal) :
  ticket_valido r ->
  parametros_validos (parametros (tabela_do_romaneio tabelas r)) ->
  calculados parse tabelas r cu ci ca ->
  let p := parametros (tabela_do_romaneio tabelas r) in
  (((Dec.val (padrao_umid p) < valor (umidade_percentual r))%Q ->
    (Dec.val cu
     == carga r * ((valor (umidade_percentual r) - Dec.val (padrao_umid p))
                   / (100 # 1))
        + carga r * (Dec.val (taxa_sec p) / (100 # 1)))%Q) /\
   ((valor (umidade_percentual r) <= Dec.val (padrao_umid p))%Q ->
    cu = d_0_00)) /\
  (((Dec.val (padrao_imp p) < valor (impureza_percentual r))%Q ->
    (Dec.val ci
     == carga r * ((valor (impureza_percentual r) - Dec.val (padrao_imp p))
                   / (100 # 1)))%Q) /\
   ((valor (impureza_percentual r) <= Dec.val (padrao_imp p))%Q ->
    ci = d_0_00)) /\
  (((Dec.val (padrao_avar p) < valor (avariado_percentual r))%Q ->
    (Dec.val ca
     == carga r * ((valor (avariado_percentual r) - Dec.val (padrao_avar p))
                   / (100 # 1)))%Q) /\
   ((valor (avariado_percentual r) <= Dec.val (padrao_avar p))%Q ->
    ca = d_0_00)).
Proof.
  intros (Hb & Ht & Hu & Hi & Ha & _) Hp
         (b & t & u & i & a & Eb & Et & Eu & Ei & Ea & Ecu & Eci & Eca).
  cbv zeta. set (p := parametros (tabela_do_romaneio tabelas r)) in *.
  pose proof Hp as (Hpu & Hpi & Hpa & Hts).
  destruct (to_Decimal_campo parse 12 0 _ ltac:(lia) ltac:(lia) Hb) as (b' & Eb' & Vb & Fb).
  rewrite Eb in Eb'. injection Eb' as <-.
  destruct (to_Decimal_campo parse 12 0 _ ltac:(lia) ltac:(lia) Ht) as (t' & Et' & Vt & Ft).
  rewrite Et in Et'. injection Et' as <-.
  destruct (to_Decimal_campo parse 5 2 _ ltac:(lia) ltac:(lia) Hu) as (u' & Eu' & Vu & Fu).
  rewrite Eu in Eu'. injection Eu' as <-.
  destruct (to_Decimal_campo parse 5 2 _ ltac:(lia) ltac:(lia) Hi) as (i' & Ei' & Vi & Fi).
  rewrite Ei in Ei'. injection Ei' as <-.
  destruct (to_Decimal_campo parse 5 2 _ ltac:(lia) ltac:(lia) Ha) as (a' & Ea' & Va & Fa).
  rewrite Ea in Ea'. injection Ea' as <-.
  destruct (DecFacts.sub_fits 0 _ _ (2 * 10 ^ 12) b t Fb Ft ltac:(conta) ltac:(conta))
    as (Fc & Vc).
  assert (Hcarga : (Dec.val (Dec.sub b t) == carga r)%Q).
  { unfold carga. rewrite Vc, Vb, Vt. reflexivity. }
  destruct (calc_desconto_umidade_fits _ u p Fc Fu Hp) as (cu' & Ecu' & _ & Hgt & Hle).
  rewrite Ecu in Ecu'. injection Ecu' as <-.
  destruct (calc_desconto_excesso_fits _ i (padrao_imp p) Fc Fi Hpi)
    as (ci' & Eci' & _ & Hgti & Hlei).
  rewrite Eci in Eci'. injection Eci' as <-.
  destruct (calc_desconto_excesso_fits _ a (padrao_avar p) Fc Fa Hpa)
    as (ca' & Eca' & _ & Hgta & Hlea).
  rewrite Eca in Eca'. injection Eca' as <-.
  rewrite <- Vu, <- Vi, <- Va, <- Hcarga. tauto.
Qed.

Lemma parametros_padrao_validos : parametros_validos parametros_padrao.
Proof.
  unfold parametros_validos, parametros_padrao, fits; cbn [padrao_umid padrao_imp
    padrao_avar taxa_sec d_14_00 d_1_00 d_0_00 Dec.coef Dec.expo].
  repeat split; conta.
Qed.

(** Closed facts on the tickets of the examples. *)
(** ** The run on the object and the returned ticket *)

(** The run on the object stops in the ticket [save] returns, and raises
    what [save] raises. *)
Lemma save_self_save (parse : string -> option Decimal)
  (tabelas : list TabelaClassificacao) (r : Romaneio) :
  match save parse tabelas r with
  | Ok r' => save_self parse tabelas r = (r', Ok tt)
  | Raise e => snd (save_self parse tabelas r) = Raise e
  end.
Proof.
  unfold save, save_self, quebra_e_liquido, bindR, expr, atribuir.
  destruct (to_Decimal parse (peso_bruto r)) as [b|e]; cbn [bind snd]; [|reflexivity].
  destruct (to_Decimal parse (peso_tara r)) as [t|e]; cbn [bind snd]; [|reflexivity].
  destruct (to_Decimal parse (umidade_percentual r)) as [u|e]; cbn [bind snd];
    [|reflexivity].
  destruct (to_Decimal parse (impureza_percentual r)) as [i|e]; cbn [bind snd];
    [|reflexivity].
  destruct (to_Decimal parse (avariado_percentual r)) as [a|e]; cbn [bind snd];
    [|reflexivity].
  destruct (calc_desconto_umidade _ u _) as [cu|e]; cbn [bind snd]; [|reflexivity].
  destruct (calc_desconto_excesso _ i _) as [ci|e]; cbn [bind snd]; [|reflexivity].
  destruct (calc_desconto_excesso _ a _) as [ca|e]; cbn [bind snd]; [|reflexivity].
  cbv zeta.
  match goal with
  | |- context [py_add ?x ?y] => destruct (py_add x y) as [s|e]
  end; cbn [bind snd]; [|reflexivity].
  match goal with
  | |- context [py_add s ?y] => destruct (py_add s y) as [total|e]
  end; cbn [bind snd]; [|reflexivity].
  match goal with
  | |- context [dec_sub_py ?x ?y] => destruct (dec_sub_py x y) as [pos|e]
  end; cbn [bind snd]; [|reflexivity].
  campos.
  destruct (sem_manual (desconto_kg_umidade r)); campos;
    destruct (sem_manual (desconto_kg_impureza r)); campos;
    destruct (sem_manual (desconto_kg_avariado r)); campos;
    (destruct (armazem_terceiro r) as [arm|]; cbn [bind snd];
     [destruct (to_Decimal parse (quebra_tecnica arm)) as [ind|e]; cbn [bind snd];
      [destruct (Dec.div ind d_100) as [q|e]; cbn [bind snd]|];
      reflexivity
     |reflexivity]).
Qed.

Lemma save_self_ok (parse : string -> option Decimal)
  (tabelas : list TabelaClassificacao) (r r' : Romaneio) :
  save parse tabelas r = Ok r' ->
  save_self parse tabelas r = (r', Ok tt) /\
  forall (E : Type) (db : Romaneio -> Romaneio * option E),
    save_completo db parse tabelas r = entregar db r'.
Proof.
  intros H. pose proof (save_self_save parse tabelas r) as Hs.
  rewrite H in Hs. split; [exact Hs|].
  intros E db. unfold save_completo. rewrite Hs. reflexivity.
Qed.

(** A text that is no number in a raw measurement: the run stops at the
    conversion, on the object as it was received. *)
Lemma save_self_entrada_invalida (parse : string -> option Decimal)
  (tabelas : list TabelaClassificacao) (r : Romaneio) :
  entrada_invalida parse r ->
  save_self parse tabelas r = (r, Raise InvalidOperation).
Proof.
  intros Hinv. unfold save_self, bindR, expr.
  destruct (to_Decimal_cases parse (peso_bruto r)) as [(b & Hb)|Hb];
    [|rewrite Hb; reflexivity].
  destruct Hinv as [H|Hinv];
    [rewrite (to_Decimal_texto parse _ H) in Hb; discriminate|].
  rewrite Hb.
  destruct (to_Decimal_cases parse (peso_tara r)) as [(t & Ht)|Ht];
    [|rewrite Ht; reflexivity].
  destruct Hinv as [H|Hinv];
    [rewrite (to_Decimal_texto parse _ H) in Ht; discriminate|].
  rewrite Ht.
  destruct (to_Decimal_cases parse (umidade_percentual r)) as [(u & Hu)|Hu];
    [|rewrite Hu; reflexivity].
  destruct Hinv as [H|Hinv];
    [rewrite (to_Decimal_texto parse _ H) in Hu; discriminate|].
  rewrite Hu.
  destruct (to_Decimal_cases parse (impureza_percentual r)) as [(i & Hi)|Hi];
    [|rewrite Hi; reflexivity].
  destruct Hinv as [H|H];
    [rewrite (to_Decimal_texto parse _ H) in Hi; discriminate|].
  rewrite Hi.
  rewrite (to_Decimal_texto parse _ H). reflexivity.
Qed.

Lemma py_add_cases (v w : pyval) :
  (exists x, py_add v w = Ok x) \/ py_add v w = Raise TypeError.
Proof. destruct v, w; cbn [py_add]; eauto. Qed.

Lemma dec_sub_py_cases (a : Decimal) (w : pyval) :
  (exists x, dec_sub_py a w = Ok x) \/ dec_sub_py a w = Raise TypeError.
Proof. destruct w; cbn [dec_sub_py]; eauto. Qed.

(** No run divides by zero: every divisor is the literal 100. *)
Lemma save_sem_divisao (parse : string -> option Decimal)
  (tabelas : list TabelaClassificacao) (r : Romaneio) :
  save parse tabelas r <> Raise DivisionByZero.
Proof.
  rewrite save_eq.
  destruct (to_Decimal_cases parse (peso_bruto r)) as [(b & ->)| ->];
    cbn [bind]; [|discriminate].
  destruct (to_Decimal_cases parse (peso_tara r)) as [(t & ->)| ->];
    cbn [bind]; [|discriminate].
  destruct (to_Decimal_cases parse (umidade_percentual r)) as [(u & ->)| ->];
    cbn [bind]; [|discriminate].
  destruct (to_Decimal_cases parse (impureza_percentual r)) as [(i & ->)| ->];
    cbn [bind]; [|discriminate].
  destruct (to_Decimal_cases parse (avariado_percentual r)) as [(a & ->)| ->];
    cbn [bind]; [|discriminate].
  cbv zeta.
  destruct (calc_desconto_umidade_total (Dec.sub b t) u
              (parametros (tabela_do_romaneio tabelas r))) as (cu & ->).
  destruct (calc_desconto_excesso_total (Dec.sub b t) i
              (padrao_imp (parametros (tabela_do_romaneio tabelas r)))) as (ci & ->).
  destruct (calc_desconto_excesso_total (Dec.sub b t) a
              (padrao_avar (parametros (tabela_do_romaneio tabelas r)))) as (ca & ->).
  cbn [bind].
  destruct (py_add_cases (desconto_final (desconto_kg_umidade r) cu)
              (desconto_final (desconto_kg_impureza r) ci)) as [(s & ->)| ->];
    cbn [bind]; [|discriminate].
  destruct (py_add_cases s (desconto_final (desconto_kg_avariado r) ca))
    as [(total & ->)| ->]; cbn [bind]; [|discriminate].
  destruct (dec_sub_py_cases (Dec.sub b t) total) as [(pos & ->)| ->];
    cbn [bind]; [|discriminate].
  destruct (armazem_terceiro r) as [arm|]; [|discriminate].
  destruct (to_Decimal_cases parse (quebra_tecnica arm)) as [(ind & ->)| ->];
    cbn [bind]; [|discriminate].
  destruct (DecFacts.div_100_total ind) as (q & Hq).
  unfold d_100. rewrite Hq. cbn [bind]. discriminate.
Qed.

Lemma save_self_sem_divisao (parse : string -> option Decimal)
  (tabelas : list TabelaClassificacao) (r s : Romaneio) :
  save_self parse tabelas r <> (s, Raise DivisionByZero).
Proof.
  intros H. pose proof (save_self_save parse tabelas r) as Hs.
  pose proof (save_sem_divisao parse tabelas r) as Hd.
  destruct (save parse tabelas r) as [r'|e].
  - rewrite Hs in H. discriminate.
  - rewrite H in Hs. cbn [snd] in Hs. congruence.
Qed.

(** ** The deduction of the specification *)

Lemma desconto_esperado_casos (x carga medido padrao taxa : Q) :
  ((padrao < medido)%Q ->
   (x == carga * ((medido - padrao) + taxa) / (100 # 1))%Q) ->
  ((medido <= padrao)%Q -> (x == 0)%Q) ->
  (x == desconto_esperado carga medido padrao taxa)%Q.
Proof.
  intros Hgt Hle. unfold desconto_esperado.
  destruct (Qle_bool medido padrao) eqn:E.
  - apply Hle. apply Qle_bool_iff. exact E.
  - apply Hgt. apply Qnot_le_lt. intros H.
    apply Qle_bool_iff in H. congruence.
Qed.

(** The three calculated deductions are those of the specification. *)
Lemma calculados_esperados (parse : string -> option Decimal)
  (tabelas : list TabelaClassificacao) (r : Romaneio) (cu ci ca : Decimal) :
  ticket_valido r ->
  parametros_validos (parametros (tabela_do_romaneio tabelas r)) ->
  calculados parse tabelas r cu ci ca ->
  let p := parametros (tabela_do_romaneio tabelas r) in
  (Dec.val cu == desconto_esperado (carga r) (valor (umidade_percentual r))
                   (Dec.val (padrao_umid p)) (Dec.val (taxa_sec p)))%Q /\
  (Dec.val ci == desconto_esperado (carga r) (valor (impureza_percentual r))
                   (Dec.val (padrao_imp p)) 0)%Q /\
  (Dec.val ca == desconto_esperado (carga r) (valor (avariado_percentual r))
                   (Dec.val (padrao_avar p)) 0)%Q.
Proof.
  intros Hv Hp Hcalc.
  destruct (calculados_valores parse tabelas r cu ci ca Hv Hp Hcalc)
    as ((Hu1 & Hu0) & (Hi1 & Hi0) & (Ha1 & Ha0)).
  cbv zeta in *.
  split; [|split]; apply desconto_esperado_casos.
  - intros H. rewrite (Hu1 H). field.
  - intros H. rewrite (Hu0 H). reflexivity.
  - intros H. rewrite (Hi1 H). field.
  - intros H. rewrite (Hi0 H). reflexivity.
  - intros H. rewrite (Ha1 H). field.
  - intros H. rewrite (Ha0 H). reflexivity.
Qed.

Ltac exemplo := vm_compute; repeat split; first [exact I | congruence].

(** ** The claims *)

(** C1. Whatever the inputs (manual deductions or not, a warehouse or not),
    when the calculation has run the net weight equals the load weight
    ([peso_bruto - peso_tara]) minus [total_descontos_kg] minus
    [peso_quebra_tecnica], in decimal arithmetic on the stored attributes;
    and for a ticket and a standard within the sizes of their fields, where
    no operation rounds, the equality is one of exact numbers. *)
Theorem C1_peso_liquido_identity :
  forall parse tabelas r,
    ticket_numerico r ->
    exists r',
      save parse tabelas r = Ok r' /\
      liquido_coerente parse r' /\
      (ticket_valido r ->
       parametros_validos (parametros (tabela_do_romaneio tabelas r)) ->
       (valor (peso_liquido r')
        == carga r - valor (total_descontos_kg r')
           - valor (peso_quebra_tecnica r'))%Q).
Proof.
  intros parse tabelas r Hnum.
  destruct (save_total parse tabelas r Hnum) as [r' H]. exists r'.
  split; [exact H|]. split.
  - destruct (save_ok parse tabelas r r' H)
      as (b & t & u & i & a & cu & ci & ca & s & total & pos & quebra & liquido
          & Hb & Ht & _ & _ & _ & _ & _ & _ & _ & _ & Hpos & -> & Hfim).
    unfold liquido_coerente. campos.
    destruct Hfim as [(Harm & -> & ->) | (arm & idx & q & Harm & Hidx & Hq & -> & ->)].
    + exists b, t, (Dec.sub pos d_0_00), pos, (Dec.sub pos (of_int 0)).
      repeat (split; [assumption || reflexivity|]).
      pose proof (dec_sub_py_bound _ _ _ Hpos) as Hbound.
      rewrite !DecFacts.sub_zero_val by (assumption || reflexivity). reflexivity.
    + exists b, t, (Dec.sub pos (Dec.mul pos q)), pos, (Dec.sub pos (Dec.mul pos q)).
      repeat (split; [assumption || reflexivity|]). reflexivity.
  - intros Hv Hp.
    destruct (save_valores parse tabelas r Hv Hp)
      as (r'' & cu & ci & ca & Hs & _ & _ & _ & _ & _ & _ & Hl).
    rewrite H in Hs. injection Hs as <-. exact Hl.
Qed.

Lemma C1_peso_liquido_identity_witness :
  ticket_numerico ticket_3 /\
  exists r', save plain_decimal [] ticket_3 = Ok r' /\
             liquido_coerente plain_decimal r' /\
             (valor (peso_liquido r')
              == carga ticket_3 - valor (total_descontos_kg r')
                 - valor (peso_quebra_tecnica r'))%Q.
Proof.
  split; [vm_compute; tauto|].
  destruct (C1_peso_liquido_identity plain_decimal [] ticket_3) as (r' & Hs & Hc & Hq).
  - vm_compute. tauto.
  - exists r'. split; [exact Hs|]. split; [exact Hc|]. apply Hq; exemplo.
Defined.

(** C2 as stated fails: a manual deduction may be negative.  With a manual
    moisture deduction of -100 kg on a load of 8000 kg the net weight is
    8100 kg. *)
Lemma C2_negative_override_counterexample :
  ticket_valido ticket_negativo /\
  exists r',
    save plain_decimal [] ticket_negativo = Ok r' /\
    (valor (peso_liquido r') == 8100 # 1)%Q /\
    (carga ticket_negativo == 8000 # 1)%Q /\
    ~ (valor (peso_liquido r') <= carga ticket_negativo)%Q.
Proof.
  split; [exemplo|].
  eexists. split; [vm_compute; reflexivity|].
  split; [vm_compute; reflexivity|]. split; [vm_compute; reflexivity|].
  vm_compute. intros H. apply H. reflexivity.
Qed.

(** C2, as the method has it.  For a ticket and a standard within the sizes
    of their fields, with a load weight, manual deductions and a drying fee
    that are not negative and a shrinkage rate between 0 and 100, the net
    weight does not exceed the load weight. *)
Theorem C2_net_weight_bounded :
  forall parse tabelas r,
    ticket_valido r ->
    parametros_validos (parametros (tabela_do_romaneio tabelas r)) ->
    (0 <= carga r)%Q ->
    (0 <= valor (desconto_kg_umidade r))%Q ->
    (0 <= valor (desconto_kg_impureza r))%Q ->
    (0 <= valor (desconto_kg_avariado r))%Q ->
    (0 <= Dec.val (taxa_sec (parametros (tabela_do_romaneio tabelas r))))%Q ->
    (0 <= indice_quebra r)%Q -> (indice_quebra r <= 100 # 1)%Q ->
    exists r',
      save parse tabelas r = Ok r' /\
      (valor (peso_liquido r') <= carga r)%Q.
Proof.
  intros parse tabelas r Hv Hp Hcarga Hmu Hmi Hma Htaxa Hi0 Hi100.
  destruct (save_valores parse tabelas r Hv Hp)
    as (r' & cu & ci & ca & Hs & Hcalc & Hdu & Hdi & Hda & Htot & Hq & Hl).
  destruct (calculados_valores parse tabelas r cu ci ca Hv Hp Hcalc)
    as ((Hgu & Hlu) & (Hgi & Hli) & (Hga & Hla)).
  set (p := parametros (tabela_do_romaneio tabelas r)) in *.
  assert (Hfinal : forall v c, (0 <= valor v)%Q -> (0 <= Dec.val c)%Q ->
                               (0 <= valor (desconto_final v c))%Q).
  { intros v c H1 H2. unfold desconto_final. destruct (sem_manual v); assumption. }
  assert (Hcu : (0 <= Dec.val cu)%Q).
  { destruct (Qlt_le_dec (Dec.val (padrao_umid p)) (valor (umidade_percentual r)))
      as [Hgt|Hle].
    - rewrite (Hgu Hgt).
      set (e := (valor (umidade_percentual r) - Dec.val (padrao_umid p))%Q).
      assert (0 <= e)%Q by (subst e; lra).
      assert (0 <= carga r * e)%Q by (apply Qmult_le_0_compat; assumption).
      assert (0 <= carga r * Dec.val (taxa_sec p))%Q
        by (apply Qmult_le_0_compat; assumption).
      assert (Heq : (carga r * (e / (100 # 1)) + carga r * (Dec.val (taxa_sec p) / (100 # 1))
                     == (carga r * e + carga r * Dec.val (taxa_sec p)) * (1 # 100))%Q)
        by field.
      rewrite Heq. lra.
    - rewrite (Hlu Hle). vm_compute. discriminate. }
  assert (Hexc : forall c m padrao,
             ((padrao < m)%Q -> (Dec.val c == carga r * ((m - padrao) / (100 # 1)))%Q) ->
             ((m <= padrao)%Q -> c = d_0_00) -> (0 <= Dec.val c)%Q).
  { intros c m padrao Hg Hle'.
    destruct (Qlt_le_dec padrao m) as [Hgt|Hle].
    - rewrite (Hg Hgt).
      assert (0 <= m - padrao)%Q by lra.
      assert (0 <= carga r * (m - padrao))%Q by (apply Qmult_le_0_compat; assumption).
      assert (Heq : (carga r * ((m - padrao) / (100 # 1))
                     == (carga r * (m - padrao)) * (1 # 100))%Q) by field.
      rewrite Heq. lra.
    - rewrite (Hle' Hle). vm_compute. discriminate. }
  pose proof (Hexc ci _ _ Hgi Hli) as Hci.
  pose proof (Hexc ca _ _ Hga Hla) as Hca.
  assert (Htotal : (0 <= valor (total_descontos_kg r'))%Q).
  { rewrite Htot, Hdu, Hdi, Hda.
    pose proof (Hfinal _ cu Hmu Hcu). pose proof (Hfinal _ ci Hmi Hci).
    pose proof (Hfinal _ ca Hma Hca). lra. }
  exists r'. split; [exact Hs|].
  rewrite Hl, Hq.
  set (T := valor (total_descontos_kg r')) in *.
  set (I := indice_quebra r) in *.
  assert (H1 : (0 <= carga r * I)%Q) by (apply Qmult_le_0_compat; assumption).
  assert (H2 : (0 <= T * ((100 # 1) - I))%Q)
    by (apply Qmult_le_0_compat; [assumption | lra]).
  assert (Heq : (carga r - T - (carga r - T) * (I / (100 # 1))
                 == carga r - (carga r * I + T * ((100 # 1) - I)) * (1 # 100))%Q)
    by field.
  rewrite Heq. lra.
Qed.

Lemma C2_net_weight_bounded_witness :
  ticket_valido ticket_3 /\
  exists r',
    save plain_decimal [] ticket_3 = Ok r' /\
    (valor (peso_liquido r') <= carga ticket_3)%Q.
Proof.
  split; [exemplo|].
  apply (C2_net_weight_bounded plain_decimal [] ticket_3); exemplo.
Defined.

(** C3. For a ticket and a standard within the sizes of their fields, when
    the measured moisture exceeds the standard moisture the calculated
    moisture deduction is load weight x ((moisture - standard moisture) +
    drying fee) / 100; when it does not, the calculated deduction is
    [Decimal('0.00')] whatever the drying fee, so that the fee is charged
    with an excess of moisture and never alone.  The calculated deduction
    is the one stored when no manual value is given. *)
Theorem C3_moisture_deduction :
  forall parse tabelas r,
    ticket_valido r ->
    parametros_validos (parametros (tabela_do_romaneio tabelas r)) ->
    exists r' cu ci ca,
      save parse tabelas r = Ok r' /\
      calculados parse tabelas r cu ci ca /\
      let p := parametros (tabela_do_romaneio tabelas r) in
      ((Dec.val (padrao_umid p) < valor (umidade_percentual r))%Q ->
       (Dec.val cu
        == carga r
           * ((valor (umidade_percentual r) - Dec.val (padrao_umid p))
              + Dec.val (taxa_sec p))
           / (100 # 1))%Q) /\
      ((valor (umidade_percentual r) <= Dec.val (padrao_umid p))%Q ->
       cu = d_0_00) /\
      ((valor (desconto_kg_umidade r) == 0)%Q ->
       desconto_kg_umidade r' = PyDec cu).
Proof.
  intros parse tabelas r Hv Hp.
  destruct (save_valores parse tabelas r Hv Hp)
    as (r' & cu & ci & ca & Hs & Hcalc & Hdu & _).
  destruct (calculados_valores parse tabelas r cu ci ca Hv Hp Hcalc)
    as ((Hgt & Hle) & _).
  exists r', cu, ci, ca. split; [exact Hs|]. split; [exact Hcalc|].
  cbv zeta. split; [|split].
  - intros H. rewrite (Hgt H). field.
  - exact Hle.
  - intros Hz. rewrite Hdu. apply desconto_final_sem_manual; [|exact Hz].
    destruct Hv as (_ & _ & _ & _ & _ & Hc & _).
    exact (campo_numerico _ _ _ Hc).
Qed.

Lemma C3_moisture_deduction_witness :
  ticket_valido ticket_1 /\
  parametros_validos (parametros (tabela_do_romaneio [] ticket_1)) /\
  exists r' cu,
    save plain_decimal [] ticket_1 = Ok r' /\
    (Dec.val cu == 320 # 1)%Q /\ desconto_kg_umidade r' = PyDec cu.
Proof.
  assert (Hv : ticket_valido ticket_1) by exemplo.
  assert (Hp : parametros_validos (parametros (tabela_do_romaneio [] ticket_1)))
    by exemplo.
  split; [exact Hv|]. split; [exact Hp|].
  destruct (C3_moisture_deduction plain_decimal [] ticket_1 Hv Hp)
    as (r' & cu & ci & ca & Hs & _ & Hgt & _ & Hst).
  exists r', cu. split; [exact Hs|]. split.
  - rewrite Hgt by exemplo. vm_compute. reflexivity.
  - apply Hst. vm_compute. reflexivity.
Defined.

(** C4. In each of the three categories (moisture, impurity, damage), when
    the measured percentage does not exceed the standard of the category,
    equality included, the calculated deduction is exactly
    [Decimal('0.00')], and it is the deduction stored for the category when
    no manual value is given. *)
Theorem C4_no_excess_no_deduction :
  forall parse tabelas r,
    ticket_numerico r ->
    exists r' cu ci ca,
      save parse tabelas r = Ok r' /\
      calculados parse tabelas r cu ci ca /\
      let p := parametros (tabela_do_romaneio tabelas r) in
      ((valor (umidade_percentual r) <= Dec.val (padrao_umid p))%Q ->
       cu = d_0_00 /\
       ((valor (desconto_kg_umidade r) == 0)%Q ->
        desconto_kg_umidade r' = PyDec d_0_00)) /\
      ((valor (impureza_percentual r) <= Dec.val (padrao_imp p))%Q ->
       ci = d_0_00 /\
       ((valor (desconto_kg_impureza r) == 0)%Q ->
        desconto_kg_impureza r' = PyDec d_0_00)) /\
      ((valor (avariado_percentual r) <= Dec.val (padrao_avar p))%Q ->
       ca = d_0_00 /\
       ((valor (desconto_kg_avariado r) == 0)%Q ->
        desconto_kg_avariado r' = PyDec d_0_00)).
Proof.
  intros parse tabelas r Hnum.
  destruct (save_total parse tabelas r Hnum) as [r' H].
  destruct (save_ok parse tabelas r r' H)
    as (b & t & u & i & a & cu & ci & ca & s & total & pos & quebra & liquido
        & Hb & Ht & Hu & Hi & Ha & Hcu & Hci & Hca & _ & _ & _ & Hr & _).
  destruct Hnum as (_ & _ & Hnu & Hni & Hna & Hdu & Hdi & Hda & _).
  exists r', cu, ci, ca. split; [exact H|]. split.
  { exists b, t, u, i, a. auto 10. }
  subst r'. campos. cbv zeta. split; [|split]; intros Hle.
  - rewrite <- (to_Decimal_valor parse _ u Hnu Hu) in Hle.
    rewrite (calc_desconto_umidade_zero _ _ _ Hle) in Hcu.
    injection Hcu as <-. split; [reflexivity|].
    intros Hz. apply desconto_final_sem_manual; assumption.
  - rewrite <- (to_Decimal_valor parse _ i Hni Hi) in Hle.
    rewrite (calc_desconto_excesso_zero _ _ _ Hle) in Hci.
    injection Hci as <-. split; [reflexivity|].
    intros Hz. apply desconto_final_sem_manual; assumption.
  - rewrite <- (to_Decimal_valor parse _ a Hna Ha) in Hle.
    rewrite (calc_desconto_excesso_zero _ _ _ Hle) in Hca.
    injection Hca as <-. split; [reflexivity|].
    intros Hz. apply desconto_final_sem_manual; assumption.
Qed.

Lemma C4_no_excess_no_deduction_witness :
  ticket_numerico ticket_1 /\
  exists r',
    save plain_decimal [] ticket_1 = Ok r' /\
    desconto_kg_impureza r' = PyDec d_0_00 /\
    desconto_kg_avariado r' = PyDec d_0_00.
Proof.
  split; [vm_compute; tauto|].
  destruct (C4_no_excess_no_deduction plain_decimal [] ticket_1)
    as (r' & cu & ci & ca & H & _ & _ & Hi & Ha).
  - vm_compute. tauto.
  - exists r'. split; [exact H|]. split.
    + apply Hi; vm_compute; congruence.
    + apply Ha; vm_compute; congruence.
Defined.

(** C5. A manual deduction that is not zero is stored as it is in its own
    category and is never combined with the calculated value; each of the
    other categories keeps the deduction calculated from the percentages,
    which for a ticket and a standard within the sizes of their fields is the
    deduction of the specification: load weight x excess / 100 above the
    standard of the category (with the drying fee for moisture), 0 otherwise;
    a manual value that is absent (None) or equal to 0 counts as not given,
    so that the calculated deduction is stored in its place. *)
Theorem C5_manual_precedence :
  forall parse tabelas r,
    ticket_numerico r ->
    exists r' cu ci ca,
      save parse tabelas r = Ok r' /\
      calculados parse tabelas r cu ci ca /\
      precedencia (desconto_kg_umidade r) cu (desconto_kg_umidade r') /\
      precedencia (desconto_kg_impureza r) ci (desconto_kg_impureza r') /\
      precedencia (desconto_kg_avariado r) ca (desconto_kg_avariado r') /\
      (ticket_valido r ->
       parametros_validos (parametros (tabela_do_romaneio tabelas r)) ->
       let p := parametros (tabela_do_romaneio tabelas r) in
       (Dec.val cu
        == desconto_esperado (carga r) (valor (umidade_percentual r))
             (Dec.val (padrao_umid p)) (Dec.val (taxa_sec p)))%Q /\
       (Dec.val ci
        == desconto_esperado (carga r) (valor (impureza_percentual r))
             (Dec.val (padrao_imp p)) 0)%Q /\
       (Dec.val ca
        == desconto_esperado (carga r) (valor (avariado_percentual r))
             (Dec.val (padrao_avar p)) 0)%Q).
Proof.
  intros parse tabelas r Hnum.
  destruct (save_total parse tabelas r Hnum) as [r' H].
  destruct (save_ok parse tabelas r r' H)
    as (b & t & u & i & a & cu & ci & ca & s & total & pos & quebra & liquido
        & Hb & Ht & Hu & Hi & Ha & Hcu & Hci & Hca & _ & _ & _ & Hr & _).
  destruct Hnum as (_ & _ & _ & _ & _ & Hdu & Hdi & Hda & _).
  assert (Hcalc : calculados parse tabelas r cu ci ca)
    by (exists b, t, u, i, a; auto 10).
  exists r', cu, ci, ca. split; [exact H|]. split; [exact Hcalc|].
  subst r'. cbn [com_derivados desconto_kg_umidade desconto_kg_impureza
                 desconto_kg_avariado].
  repeat (split; [apply desconto_final_precedencia; assumption|]).
  intros Hv Hp. exact (calculados_esperados parse tabelas r cu ci ca Hv Hp Hcalc).
Qed.

Lemma C5_manual_precedence_witness :
  (exists r4,
     save plain_decimal [] ticket_4 = Ok r4 /\
     desconto_kg_umidade r4 = PyDec (Dec.mk 100 0) /\
     (valor (peso_liquido r4) == 7900 # 1)%Q) /\
  ticket_numerico ticket_5 /\
  exists r',
    save plain_decimal [] ticket_5 = Ok r' /\
    desconto_kg_umidade r' = PyDec (Dec.mk 100 0) /\
    (valor (desconto_kg_impureza r') == 200 # 1)%Q /\
    (valor (desconto_kg_avariado r') == 0)%Q.
Proof.
  split.
  { eexists. split; [vm_compute; reflexivity|].
    split; vm_compute; reflexivity. }
  assert (Hn : ticket_numerico ticket_5) by (vm_compute; tauto).
  split; [exact Hn|].
  destruct (C5_manual_precedence plain_decimal [] ticket_5 Hn)
    as (r' & cu & ci & ca & Hs & _ & Pu & Pi & Pa & Hval).
  destruct (Hval ltac:(exemplo) ltac:(exemplo)) as (_ & Vi & Va).
  exists r'. split; [exact Hs|]. split; [|split].
  - apply (proj2 Pu). vm_compute. discriminate.
  - rewrite (proj1 Pi ltac:(vm_compute; reflexivity)). cbn [valor].
    rewrite Vi. vm_compute. reflexivity.
  - rewrite (proj1 Pa ltac:(vm_compute; reflexivity)). cbn [valor].
    rewrite Va. vm_compute. reflexivity.
Defined.




(** C7. Recomputation is idempotent.  [save] is a function of the ticket and
    of the classification tables, so two runs on the same inputs agree; and
    in the form of the save hook, where the second run reads the deductions
    the first run stored on the ticket, the second run returns the very ticket
    the first run returned: the same raw inputs (hence the same load weight)
    and the same three deductions, total, shrinkage and net weight, decimal
    for decimal. *)
Theorem C7_save_idempotent :
  forall parse tabelas r r1,
    save parse tabelas r = Ok r1 -> save parse tabelas r1 = Ok r1.
Proof.
  intros parse tabelas r r1 H.
  destruct (save_ok parse tabelas r r1 H)
    as (b & t & u & i & a & cu & ci & ca & s & total & pos & quebra & liquido
        & Hb & Ht & Hu & Hi & Ha & Hcu & Hci & Hca & Hs & Htot & Hpos & -> & Hfim).
  rewrite save_eq. unfold com_derivados at 1 2 3 4 5.
  cbn [peso_bruto peso_tara umidade_percentual impureza_percentual
       avariado_percentual].
  rewrite Hb, Ht, Hu, Hi, Ha. cbn [bind]. cbv zeta.
  change (tabela_do_romaneio tabelas (com_derivados r _ _ _ _ _ _))
    with (tabela_do_romaneio tabelas r).
  rewrite Hcu, Hci, Hca. cbn [bind].
  change (desconto_kg_umidade (com_derivados r ?x _ _ _ _ _)) with x.
  cbn [com_derivados desconto_kg_umidade desconto_kg_impureza
       desconto_kg_avariado armazem_terceiro].
  rewrite !desconto_final_idem, Hs. cbn [bind]. rewrite Htot. cbn [bind].
  rewrite Hpos. cbn [bind].
  destruct Hfim as [(Harm & -> & ->) | (arm & idx & q & Harm & Hidx & Hq & -> & ->)];
    rewrite Harm.
  - reflexivity.
  - rewrite Hidx. cbn [bind]. rewrite Hq. cbn [bind]. reflexivity.
Qed.

Lemma C7_save_idempotent_witness :
  save plain_decimal [] ticket_3 = Ok (salvo plain_decimal [] ticket_3) /\
  save plain_decimal [] (salvo plain_decimal [] ticket_3)
  = Ok (salvo plain_decimal [] ticket_3).
Proof.
  split; [vm_compute; reflexivity|].
  apply (C7_save_idempotent plain_decimal [] ticket_3). vm_compute. reflexivity.
Defined.

(** C8. When no classification table is resolved for the ticket the method
    goes on with the default standard (moisture 14.00, impurity 1.00, damage
    0.00, drying fee 0.00): in each category without a manual value the
    ticket it returns carries the deduction of the specification for these
    thresholds, load weight x excess over 14, 1 and 0 per cent / 100, with no
    fee; the run equals the run in which a table holding exactly these four
    values is resolved; and on numeric attributes it returns a ticket, with
    no error. *)
Theorem C8_default_standard :
  forall parse tabelas r,
    tabela_do_romaneio tabelas r = None ->
    parametros (tabela_do_romaneio tabelas r)
    = mkParametros (Dec.mk 1400 (-2)) (Dec.mk 100 (-2)) (Dec.mk 0 (-2))
                   (Dec.mk 0 (-2)) /\
    (forall tabelas' t,
        tabela_do_romaneio tabelas' r = Some t ->
        padrao_umidade t = Dec.mk 1400 (-2) ->
        padrao_impureza t = Dec.mk 100 (-2) ->
        padrao_avariado t = Dec.mk 0 (-2) ->
        taxa_secagem t = Dec.mk 0 (-2) ->
        save parse tabelas r = save parse tabelas' r) /\
    (ticket_numerico r -> exists r', save parse tabelas r = Ok r') /\
    (ticket_valido r ->
     exists r',
       save parse tabelas r = Ok r' /\
       ((valor (desconto_kg_umidade r) == 0)%Q ->
        (valor (desconto_kg_umidade r')
         == desconto_esperado (carga r) (valor (umidade_percentual r))
              (14 # 1) 0)%Q) /\
       ((valor (desconto_kg_impureza r) == 0)%Q ->
        (valor (desconto_kg_impureza r')
         == desconto_esperado (carga r) (valor (impureza_percentual r))
              (1 # 1) 0)%Q) /\
       ((valor (desconto_kg_avariado r) == 0)%Q ->
        (valor (desconto_kg_avariado r')
         == desconto_esperado (carga r) (valor (avariado_percentual r))
              0 0)%Q)).
Proof.
  intros parse tabelas r Hnone. split; [|split; [|split]].
  - rewrite Hnone. reflexivity.
  - intros tabelas' t Hsome Hu Hi Ha Hs.
    rewrite !save_eq. rewrite Hnone, Hsome.
    unfold parametros. rewrite Hu, Hi, Ha, Hs. reflexivity.
  - apply save_total.
  - intros Hv.
    assert (Hp : parametros_validos (parametros (tabela_do_romaneio tabelas r)))
      by (rewrite Hnone; exact parametros_padrao_validos).
    destruct (save_valores parse tabelas r Hv Hp)
      as (r' & cu & ci & ca & Hs & Hcalc & Hdu & Hdi & Hda & _).
    destruct (calculados_valores parse tabelas r cu ci ca Hv Hp Hcalc)
      as ((Hu1 & Hu0) & (Hi1 & Hi0) & (Ha1 & Ha0)).
    cbv zeta in *. rewrite Hnone in Hu1, Hu0, Hi1, Hi0, Ha1, Ha0.
    cbn [parametros parametros_padrao padrao_umid padrao_imp padrao_avar
         taxa_sec] in Hu1, Hu0, Hi1, Hi0, Ha1, Ha0.
    assert (V14 : (Dec.val d_14_00 == 14 # 1)%Q) by (vm_compute; reflexivity).
    assert (V1 : (Dec.val d_1_00 == 1 # 1)%Q) by (vm_compute; reflexivity).
    assert (V0 : (Dec.val d_0_00 == 0)%Q) by (vm_compute; reflexivity).
    rewrite V14 in Hu1, Hu0. rewrite V1 in Hi1, Hi0. rewrite V0 in Hu1, Ha1, Ha0.
    pose proof (ticket_valido_numerico r Hv)
      as (_ & _ & _ & _ & _ & Ndu & Ndi & Nda & _).
    exists r'. split; [exact Hs|]. split; [|split]; intros Hz.
    + rewrite Hdu, (desconto_final_sem_manual _ cu Ndu Hz). cbn [valor].
      apply desconto_esperado_casos; intros H.
      * rewrite (Hu1 H). field.
      * rewrite (Hu0 H). exact V0.
    + rewrite Hdi, (desconto_final_sem_manual _ ci Ndi Hz). cbn [valor].
      apply desconto_esperado_casos; intros H.
      * rewrite (Hi1 H). field.
      * rewrite (Hi0 H). exact V0.
    + rewrite Hda, (desconto_final_sem_manual _ ca Nda Hz). cbn [valor].
      apply desconto_esperado_casos; intros H.
      * rewrite (Ha1 H). field.
      * rewrite (Ha0 H). exact V0.
Qed.

Lemma C8_default_standard_witness :
  tabela_do_romaneio [tabela_soja] ticket_milho = None /\
  tabela_do_romaneio [tabela_soja; tabela_milho_padrao] ticket_milho
  = Some tabela_milho_padrao /\
  save plain_decimal [tabela_soja] ticket_milho
  = save plain_decimal [tabela_soja; tabela_milho_padrao] ticket_milho /\
  ticket_valido ticket_milho /\
  exists r', save plain_decimal [tabela_soja] ticket_milho = Ok r' /\
             (valor (desconto_kg_umidade r') == 320 # 1)%Q /\
             (valor (desconto_kg_impureza r') == 0)%Q.
Proof.
  assert (Hnone : tabela_do_romaneio [tabela_soja] ticket_milho = None)
    by reflexivity.
  assert (Hv : ticket_valido ticket_milho) by exemplo.
  split; [exact Hnone|]. split; [reflexivity|].
  destruct (C8_default_standard plain_decimal [tabela_soja] ticket_milho Hnone)
    as (_ & Hsame & _ & Hval).
  split; [|split; [exact Hv|]].
  - apply (Hsame [tabela_soja; tabela_milho_padrao] tabela_milho_padrao);
      reflexivity.
  - destruct (Hval Hv) as (r' & Hs & Hu & Hi & _).
    exists r'. split; [exact Hs|]. split.
    + rewrite Hu by (vm_compute; reflexivity). vm_compute. reflexivity.
    + rewrite Hi by (vm_compute; reflexivity). vm_compute. reflexivity.
Defined.

(** C9. For a ticket and a standard within the sizes of their fields, the
    technical shrinkage is the weight after classification (load weight minus
    the total of the deductions) times the rate of the warehouse over 100,
    and it is exactly 0 without a warehouse.  With gross 10000, tare 2000,
    moisture 18 %, impurity 0.5 %, damage 0 %, no table and a rate of 2 %: the
    weight after classification is 7680 kg, the shrinkage 153.6 kg and the net
    weight 7526.4 kg. *)
Theorem C9_technical_shrinkage :
  (forall parse tabelas r,
      ticket_valido r ->
      parametros_validos (parametros (tabela_do_romaneio tabelas r)) ->
      exists r',
        save parse tabelas r = Ok r' /\
        (forall armazem,
            armazem_terceiro r = Some armazem ->
            (valor (peso_quebra_tecnica r')
             == (carga r - valor (total_descontos_kg r'))
                * (valor (quebra_tecnica armazem) / (100 # 1)))%Q) /\
        (armazem_terceiro r = None -> peso_quebra_tecnica r' = PyInt 0)) /\
  (exists r',
      save plain_decimal [] ticket_3 = Ok r' /\
      (carga ticket_3 - valor (total_descontos_kg r') == 7680 # 1)%Q /\
      (valor (peso_quebra_tecnica r') == 1536 # 10)%Q /\
      (valor (peso_liquido r') == 75264 # 10)%Q).
Proof.
  split.
  - intros parse tabelas r Hv Hp.
    destruct (save_valores parse tabelas r Hv Hp)
      as (r' & cu & ci & ca & Hs & _ & _ & _ & _ & _ & Hq & _).
    exists r'. split; [exact Hs|]. split.
    + intros arm Harm. rewrite Hq. unfold indice_quebra. rewrite Harm.
      reflexivity.
    + intros Hnone.
      destruct (save_ok parse tabelas r r' Hs)
        as (b & t & u & i & a & cu' & ci' & ca' & s & total & pos & quebra
            & liquido & _ & _ & _ & _ & _ & _ & _ & _ & _ & _ & _ & -> & Hfim).
      campos.
      destruct Hfim as [(_ & -> & _) | (arm & idx & q & Harm & _)];
        [reflexivity | congruence].
  - eexists. split; [vm_compute; reflexivity|].
    repeat split; vm_compute; reflexivity.
Qed.

Lemma C9_technical_shrinkage_witness :
  ticket_valido ticket_3 /\
  parametros_validos (parametros (tabela_do_romaneio [] ticket_3)) /\
  exists r',
    save plain_decimal [] ticket_3 = Ok r' /\
    (valor (peso_quebra_tecnica r')
     == (carga ticket_3 - valor (total_descontos_kg r'))
        * (valor (quebra_tecnica armazem_2) / (100 # 1)))%Q.
Proof.
  assert (Hv : ticket_valido ticket_3) by exemplo.
  assert (Hp : parametros_validos (parametros (tabela_do_romaneio [] ticket_3)))
    by exemplo.
  split; [exact Hv|]. split; [exact Hp|].
  destruct C9_technical_shrinkage as (Hgeral & _).
  destruct (Hgeral plain_decimal [] ticket_3 Hv Hp) as (r' & Hs & Hq & _).
  exists r'. split; [exact Hs|]. apply Hq. reflexivity.
Defined.

(** C10. The recomputation on save writes only the derived attributes (the
    three deductions in kg, their total, the technical shrinkage and the net
    weight): every other attribute of the ticket that [save] returns (tenant,
    date, ticket number, farm, field, crop, driver, plate, tare, gross weight,
    the three measured percentages, the warehouse) is the one it received. *)
Theorem C10_save_frame :
  forall parse tabelas r r',
    save parse tabelas r = Ok r' -> mesmas_entradas r r'.
Proof.
  intros parse tabelas r r' H.
  destruct (save_ok parse tabelas r r' H)
    as (b & t & u & i & a & cu & ci & ca & s & total & pos & quebra & liquido
        & _ & _ & _ & _ & _ & _ & _ & _ & _ & _ & _ & -> & _).
  unfold mesmas_entradas, com_derivados. cbn. repeat split; reflexivity.
Qed.

Lemma C10_save_frame_witness :
  save plain_decimal [] ticket_3 = Ok (salvo plain_decimal [] ticket_3) /\
  mesmas_entradas ticket_3 (salvo plain_decimal [] ticket_3).
Proof.
  split; [vm_compute; reflexivity|].
  apply (C10_save_frame plain_decimal [] ticket_3). vm_compute. reflexivity.
Defined.

(** ** Further properties of the models *)

(** *** Comparisons *)

Lemma dec_leb_val (a b : Decimal) :
  dec_leb a b = true <-> (Dec.val a <= Dec.val b)%Q.
Proof.
  unfold dec_leb. pose proof (DecFacts.gtb_val a b) as H.
  destruct (Dec.gtb a b); cbn [negb]; split; intros Hx.
  - discriminate.
  - exfalso. apply (Qlt_not_le (Dec.val b) (Dec.val a)); [apply H; reflexivity | exact Hx].
  - apply Qnot_lt_le. intros Hlt. apply H in Hlt. discriminate.
  - reflexivity.
Qed.

Lemma dec_geb_val (a b : Decimal) :
  dec_geb a b = true <-> (Dec.val b <= Dec.val a)%Q.
Proof.
  unfold dec_geb. pose proof (DecFacts.gtb_val b a) as H.
  destruct (Dec.gtb b a); cbn [negb]; split; intros Hx.
  - discriminate.
  - exfalso. apply (Qlt_not_le (Dec.val a) (Dec.val b)); [apply H; reflexivity | exact Hx].
  - apply Qnot_lt_le. intros Hlt. apply H in Hlt. discriminate.
  - reflexivity.
Qed.

Lemma dec_ltb_val (a b : Decimal) :
  dec_ltb a b = true <-> (Dec.val a < Dec.val b)%Q.
Proof. unfold dec_ltb. apply DecFacts.gtb_val. Qed.

Lemma val_int_zero : (Dec.val (of_int 0) == 0)%Q.
Proof. reflexivity. Qed.

Lemma agregado_ou_val (soma : option Decimal) (padrao : Decimal) :
  (Dec.val padrao == 0)%Q ->
  (Dec.val (agregado_ou soma padrao) == valor_agregado soma)%Q.
Proof.
  intros Hp. unfold agregado_ou, valor_agregado. destruct soma as [d|]; [|exact Hp].
  unfold Dec.is_zero. destruct (Dec.coef d =? 0) eqn:E; [|reflexivity].
  apply Z.eqb_eq in E. rewrite Hp, (DecFacts.val_zero d E). reflexivity.
Qed.

(** Closing the cases of a status: conjunctions of equivalences between a
    status and comparisons of rationals. *)
Ltac casos :=
  repeat split; intros;
  repeat match goal with H : _ /\ _ |- _ => destruct H end;
  try discriminate; try reflexivity; try lra.

(** *** The status of an item of a purchase order *)

(** X4. [ItemPedidoCompra.update_status], for an ordered and a delivered
    quantity of at most 3 decimal places below 10^24: the item becomes
    CONCLUIDO exactly when the delivered quantity reaches the ordered one,
    PARCIAL exactly when something but not all was delivered, ABERTO
    otherwise.  The status the item had is not read: a cancelled item never
    stays CANCELADO. *)
Theorem X4_update_status :
  forall self entregue,
    fits 3 (10 ^ 27) (ItemPedidoCompra.quantidade self) ->
    fits 3 (10 ^ 27) entregue ->
    let q := Dec.val (ItemPedidoCompra.quantidade self) in
    let e := Dec.val entregue in
    let s := ItemPedidoCompra.status (ItemPedidoCompra.update_status self entregue) in
    (s = ItemPedidoCompra.CONCLUIDO <-> (q <= e)%Q) /\
    (s = ItemPedidoCompra.PARCIAL <-> (0 < e)%Q /\ (e < q)%Q) /\
    (s = ItemPedidoCompra.ABERTO <-> (e <= 0)%Q /\ (e < q)%Q) /\
    s <> ItemPedidoCompra.CANCELADO.
Proof.
  intros self entregue Hq He. cbv zeta.
  destruct (DecFacts.sub_fits 3 _ _ (10 ^ 28) _ _ Hq He ltac:(conta) ltac:(conta))
    as (_ & Hv).
  unfold ItemPedidoCompra.update_status, ItemPedidoCompra.saldo_restante.
  set (saldo := Dec.sub (ItemPedidoCompra.quantidade self) entregue) in *.
  pose proof (dec_leb_val saldo (of_int 0)) as Hle.
  pose proof (dec_ltb_val saldo (ItemPedidoCompra.quantidade self)) as Hlt.
  rewrite Hv, val_int_zero in Hle. rewrite Hv in Hlt.
  set (q := Dec.val (ItemPedidoCompra.quantidade self)) in *.
  set (e := Dec.val entregue) in *.
  destruct (dec_leb saldo (of_int 0)).
  - assert (H0 : (q - e <= 0)%Q) by (apply Hle; reflexivity).
    cbn [ItemPedidoCompra.status]. casos.
  - assert (Hn : ~ (q - e <= 0)%Q) by (intros Hx; apply Hle in Hx; discriminate).
    destruct (dec_ltb saldo (ItemPedidoCompra.quantidade self)).
    + assert (H1 : (q - e < q)%Q) by (apply Hlt; reflexivity).
      cbn [ItemPedidoCompra.status]. casos.
    + assert (Hm : ~ (q - e < q)%Q) by (intros Hx; apply Hlt in Hx; discriminate).
      cbn [ItemPedidoCompra.status]. casos.
Qed.

Lemma X4_update_status_witness :
  ItemPedidoCompra.status
    (ItemPedidoCompra.update_status
       (ItemPedidoCompra.mk (Dec.mk 100000 (-3)) (Dec.mk 15000 (-4))
          ItemPedidoCompra.CANCELADO)
       (Dec.mk 40000 (-3)))
  = ItemPedidoCompra.PARCIAL.
Proof.
  destruct (X4_update_status
              (ItemPedidoCompra.mk (Dec.mk 100000 (-3)) (Dec.mk 15000 (-4))
                 ItemPedidoCompra.CANCELADO)
              (Dec.mk 40000 (-3)))
    as (_ & (_ & H) & _).
  - exemplo.
  - exemplo.
  - apply H. split; vm_compute; reflexivity.
Defined.

(** A decimal that is not zero, divided by itself, is [Decimal('1')]. *)
Lemma div_self (a : Decimal) :
  Dec.coef a <> 0 -> Dec.div a a = Ok (Dec.mk 1 0).
Proof.
  intros Hnz. unfold Dec.div.
  destruct (Dec.coef a =? 0) eqn:E; [apply Z.eqb_eq in E; contradiction|].
  replace (Dec.ndigits (Dec.coef a) - Dec.ndigits (Dec.coef a) + Dec.prec + 1)
    with 29 by (unfold Dec.prec; lia).
  replace (Dec.expo a - Dec.expo a - 29) with (-29) by lia.
  replace (Dec.expo a - Dec.expo a - -29) with 29 by lia.
  change (0 <=? 29) with true. cbv iota.
  rewrite (Z.mul_comm (Z.abs (Dec.coef a))), Z.mod_mul, Z.div_mul by lia.
  change (0 =? 0) with true. cbv iota.
  change (Dec.strip_zeros (Z.to_nat 29) (10 ^ 29) (-29)) with (1, 0).
  cbv iota beta.
  assert (Hs : Z.sgn (Dec.coef a) * Z.sgn (Dec.coef a) * 1 = 1)
    by (destruct (Dec.coef a); cbn [Z.sgn]; lia).
  rewrite Hs. reflexivity.
Qed.

(** X5. [ItemPedidoCompra.percentual_concluido] never raises: the division
    is made only by an ordered quantity above zero.  It is [Decimal('0')]
    when the ordered quantity is zero or negative, and exactly 100 when the
    delivered quantity is the same decimal as the ordered one. *)
Theorem X5_percentual_concluido :
  forall self entregue,
    (exists p, ItemPedidoCompra.percentual_concluido self entregue = Ok p) /\
    ((Dec.val (ItemPedidoCompra.quantidade self) <= 0)%Q ->
     ItemPedidoCompra.percentual_concluido self entregue = Ok (Dec.mk 0 0)) /\
    ((0 < Dec.val (ItemPedidoCompra.quantidade self))%Q ->
     ItemPedidoCompra.percentual_concluido self (ItemPedidoCompra.quantidade self)
     = Ok (Dec.mk 100 0)).
Proof.
  intros self entregue. unfold ItemPedidoCompra.percentual_concluido.
  pose proof (DecFacts.gtb_val (ItemPedidoCompra.quantidade self) (of_int 0)) as Hg.
  rewrite val_int_zero in Hg.
  set (q := ItemPedidoCompra.quantidade self) in *.
  assert (Hnz : (0 < Dec.val q)%Q -> Dec.coef q <> 0).
  { intros Hpos Hz. rewrite (DecFacts.val_zero q Hz) in Hpos.
    exact (Qlt_irrefl _ Hpos). }
  destruct (Dec.gtb q (of_int 0)) eqn:E.
  - assert (Hpos : (0 < Dec.val q)%Q) by (apply Hg; reflexivity).
    specialize (Hnz Hpos). split; [|split].
    + unfold Dec.div. destruct (Dec.coef q =? 0) eqn:Ez;
        [apply Z.eqb_eq in Ez; contradiction|].
      destruct (Dec.coef entregue =? 0); [eexists; reflexivity|].
      match goal with
      | |- context [let '(c, e') := ?x in _] => destruct x as [c e']
      end.
      eexists; reflexivity.
    + intros Hle. exfalso. apply (Qlt_not_le _ _ Hpos Hle).
    + intros _. rewrite (div_self q Hnz). reflexivity.
  - split; [eexists; reflexivity|]. split; [reflexivity|].
    intros Hpos. apply Hg in Hpos. discriminate.
Qed.

Lemma X5_percentual_concluido_witness :
  ItemPedidoCompra.percentual_concluido
    (ItemPedidoCompra.mk (Dec.mk 0 (-3)) (Dec.mk 15000 (-4)) ItemPedidoCompra.ABERTO)
    (Dec.mk 40000 (-3))
  = Ok (Dec.mk 0 0) /\
  ItemPedidoCompra.percentual_concluido
    (ItemPedidoCompra.mk (Dec.mk 2500 (-3)) (Dec.mk 15000 (-4)) ItemPedidoCompra.ABERTO)
    (Dec.mk 2500 (-3))
  = Ok (Dec.mk 100 0).
Proof.
  split.
  - apply (X5_percentual_concluido
             (ItemPedidoCompra.mk (Dec.mk 0 (-3)) (Dec.mk 15000 (-4))
                ItemPedidoCompra.ABERTO) (Dec.mk 40000 (-3))).
    vm_compute. discriminate.
  - apply (X5_percentual_concluido
             (ItemPedidoCompra.mk (Dec.mk 2500 (-3)) (Dec.mk 15000 (-4))
                ItemPedidoCompra.ABERTO) (Dec.mk 2500 (-3))).
    vm_compute. reflexivity.
Defined.

(** *** The status of an account after a settlement *)

(** X6. [BaixaContaPagar.save] and [BaixaContaReceber.save]: with the total
    settled read as 0 when there is no row or the sum is zero, the account
    becomes PAGO when the total reaches its value, PARCIAL when the total is
    above zero and below its value, and is left exactly as it was otherwise:
    no settlement puts an account back to PENDENTE.  For amounts of at most
    2 decimal places below 10^25 the account becomes PAGO exactly when
    [saldo_devedor] is zero or negative. *)
Theorem X6_baixa_status :
  forall conta soma,
    let total := valor_agregado soma in
    let vt := Dec.val (Financeiro.valor_total conta) in
    let conta' := Financeiro.baixa_save conta soma in
    ((vt <= total)%Q -> Financeiro.status conta' = Financeiro.PAGO) /\
    ((total < vt)%Q -> (0 < total)%Q ->
     Financeiro.status conta' = Financeiro.PARCIAL) /\
    ((total < vt)%Q -> (total <= 0)%Q -> conta' = conta) /\
    Financeiro.valor_total conta' = Financeiro.valor_total conta /\
    (Financeiro.status conta' = Financeiro.PENDENTE ->
     Financeiro.status conta = Financeiro.PENDENTE) /\
    (fits 2 (10 ^ 27) (Financeiro.valor_total conta) ->
     fits 2 (10 ^ 27) (Financeiro.valor_pago soma) ->
     ((Dec.val (Financeiro.saldo_devedor conta soma) <= 0)%Q <-> (vt <= total)%Q)).
Proof.
  intros conta soma. cbv zeta.
  pose proof (agregado_ou_val soma d_0_00 ltac:(reflexivity)) as Hv.
  fold (Financeiro.valor_pago soma) in Hv.
  unfold Financeiro.baixa_save, Financeiro.saldo_devedor.
  set (tp := Financeiro.valor_pago soma) in *.
  pose proof (dec_geb_val tp (Financeiro.valor_total conta)) as Hge.
  pose proof (DecFacts.gtb_val tp (of_int 0)) as Hgt.
  rewrite val_int_zero in Hgt. rewrite Hv in Hge, Hgt.
  set (total := valor_agregado soma) in *.
  set (vt := Dec.val (Financeiro.valor_total conta)) in *.
  assert (Hsaldo : fits 2 (10 ^ 27) (Financeiro.valor_total conta) ->
                   fits 2 (10 ^ 27) tp ->
                   ((Dec.val (Dec.sub (Financeiro.valor_total conta) tp) <= 0)%Q
                    <-> (vt <= total)%Q)).
  { intros F1 F2.
    destruct (DecFacts.sub_fits 2 _ _ (10 ^ 28) _ _ F1 F2 ltac:(conta) ltac:(conta))
      as (_ & Hs).
    rewrite Hs, Hv. unfold vt. split; intros; lra. }
  destruct (dec_geb tp (Financeiro.valor_total conta)).
  - assert (H0 : (vt <= total)%Q) by (apply Hge; reflexivity).
    cbn [Financeiro.status Financeiro.valor_total].
    repeat split; intros; try discriminate; try reflexivity; try lra;
      try (apply Hsaldo; assumption).
  - assert (Hn : ~ (vt <= total)%Q) by (intros Hx; apply Hge in Hx; discriminate).
    destruct (Dec.gtb tp (of_int 0)).
    + assert (H1 : (0 < total)%Q) by (apply Hgt; reflexivity).
      cbn [Financeiro.status Financeiro.valor_total].
      repeat split; intros; try discriminate; try reflexivity; try lra;
        try (apply Hsaldo; assumption).
    + assert (Hm : ~ (0 < total)%Q) by (intros Hx; apply Hgt in Hx; discriminate).
      repeat split; intros; try discriminate; try reflexivity; try lra;
        try assumption; try (apply Hsaldo; assumption).
Qed.

Lemma X6_baixa_status_witness :
  Financeiro.status
    (Financeiro.baixa_save
       (Financeiro.mkConta (Dec.mk 150000 (-2)) Financeiro.PENDENTE)
       (Some (Dec.mk 50000 (-2))))
  = Financeiro.PARCIAL /\
  Financeiro.baixa_save
    (Financeiro.mkConta (Dec.mk 150000 (-2)) Financeiro.PAGO) None
  = Financeiro.mkConta (Dec.mk 150000 (-2)) Financeiro.PAGO.
Proof.
  split.
  - apply (X6_baixa_status
             (Financeiro.mkConta (Dec.mk 150000 (-2)) Financeiro.PENDENTE)
             (Some (Dec.mk 50000 (-2)))); vm_compute; reflexivity.
  - apply (X6_baixa_status
             (Financeiro.mkConta (Dec.mk 150000 (-2)) Financeiro.PAGO) None).
    + vm_compute. reflexivity.
    + vm_compute. discriminate.
Defined.

(** *** The cost of an item of a field operation *)

(** X7. [OperacaoCampoItem.save], for a unit cost and an area of at most 4
    decimal places below 10^8: when the cost is flagged as a total the stored
    [custo_final] is the unit cost, whatever the area; otherwise it is the
    unit cost times the area of the operation, and an operation with no area
    or with an area of zero is costed as one hectare. *)
Theorem X7_custo_final :
  forall is_custo_total custo_unitario area,
    fits 4 (10 ^ 12) custo_unitario ->
    match area with Some a => fits 4 (10 ^ 12) a | None => True end ->
    let c := OperacaoCampo.custo_final is_custo_total custo_unitario area in
    (is_custo_total = true -> c = custo_unitario) /\
    (is_custo_total = false ->
     forall a, area = Some a -> ~ (Dec.val a == 0)%Q ->
               (Dec.val c == Dec.val custo_unitario * Dec.val a)%Q) /\
    (is_custo_total = false ->
     match area with Some a => (Dec.val a == 0)%Q | None => True end ->
     (Dec.val c == Dec.val custo_unitario)%Q).
Proof.
  intros ict cu area Hcu Ha. cbv zeta. unfold OperacaoCampo.custo_final.
  assert (Hum : fits 4 (10 ^ 12) (Dec.mk 10 (-1))) by (split; conta).
  destruct ict.
  - split; [reflexivity|]. split; intros; discriminate.
  - split; [intros; discriminate|]. split.
    + intros _ a -> Hnz. unfold agregado_ou, Dec.is_zero.
      destruct (Dec.coef a =? 0) eqn:E.
      * apply Z.eqb_eq in E. exfalso. apply Hnz. apply DecFacts.val_zero. exact E.
      * destruct (DecFacts.mul_fits 4 4 _ _ (10 ^ 24) cu a Hcu Ha
                    ltac:(conta) ltac:(conta)) as (_ & Hv).
        exact Hv.
    + intros _ Hz.
      assert (Har : agregado_ou area (Dec.mk 10 (-1)) = Dec.mk 10 (-1)).
      { unfold agregado_ou. destruct area as [a|]; [|reflexivity].
        apply val_eq_zero in Hz. unfold Dec.is_zero. rewrite Hz.
        reflexivity. }
      rewrite Har.
      destruct (DecFacts.mul_fits 4 4 _ _ (10 ^ 24) cu _ Hcu Hum
                  ltac:(conta) ltac:(conta)) as (_ & Hv).
      rewrite Hv. change (Dec.val (Dec.mk 10 (-1))) with (10 * (1 # 10))%Q.
      field.
Qed.

Lemma X7_custo_final_witness :
  (Dec.val (OperacaoCampo.custo_final false (Dec.mk 1250000 (-4))
              (Some (Dec.mk 0 (-4))))
   == 125 # 1)%Q.
Proof.
  destruct (X7_custo_final false (Dec.mk 1250000 (-4)) (Some (Dec.mk 0 (-4))))
    as (_ & _ & H).
  - exemplo.
  - exemplo.
  - rewrite H; [vm_compute; reflexivity | reflexivity | vm_compute; reflexivity].
Defined.

(** *** The load weight and the deductions read back from a ticket *)

Lemma pyfits_up (k k' B B' : Z) (v : pyval) :
  pyfits k B v -> k <= k' -> B * 10 ^ (k' - k) <= B' -> pyfits k' B' v.
Proof.
  destruct v; cbn [pyfits]; try tauto; intros; eapply DecFacts.fits_up; eassumption.
Qed.

Lemma py_sub_fits (k B1 B2 B : Z) (v w : pyval) :
  pyfits k B1 v -> pyfits k B2 w -> B1 + B2 <= B -> B <= 10 ^ Dec.prec ->
  exists x, py_sub v w = Ok x /\ pyfits k B x /\
            (valor x == valor v - valor w)%Q.
Proof.
  intros Hv Hw Hsum Hle.
  destruct v as [|y|a|s]; cbn [pyfits] in Hv; try contradiction;
    destruct w as [|z|b|s']; cbn [pyfits] in Hw; try contradiction;
    cbn [py_sub valor].
  - exists (PyInt (y - z)). split; [reflexivity|]. split.
    + cbn [pyfits].
      pose proof (DecFacts.fits_weaken _ _ _ _
                    (DecFacts.add_exact_fits _ _ _ _ _ Hv
                       (DecFacts.fits_neg _ _ _ Hw)) Hsum) as H.
      unfold Dec.add_exact, Dec.neg, of_int in H. cbn [Dec.coef Dec.expo] in H.
      unfold of_int. destruct H as [He Hc]. split; [exact He|].
      cbn [Dec.coef Dec.expo] in *.
      replace (Z.min 0 0) with 0 in Hc by reflexivity.
      replace (0 - 0) with 0 in Hc by reflexivity.
      change (10 ^ 0) with 1 in Hc at 1 2. rewrite !Z.mul_1_r in Hc.
      replace (y - z) with (y + - z) by lia. exact Hc.
    + cbn [valor]. unfold Zminus. rewrite inject_Z_plus, inject_Z_opp. reflexivity.
  - destruct (DecFacts.sub_fits k _ _ B _ _ Hv Hw Hsum Hle) as (Hf & Hval).
    exists (PyDec (Dec.sub (of_int y) b)). split; [reflexivity|].
    split; [exact Hf|]. cbn [valor]. rewrite Hval, val_of_int. reflexivity.
  - destruct (DecFacts.sub_fits k _ _ B _ _ Hv Hw Hsum Hle) as (Hf & Hval).
    exists (PyDec (Dec.sub a (of_int z))). split; [reflexivity|].
    split; [exact Hf|]. cbn [valor]. rewrite Hval, val_of_int. reflexivity.
  - destruct (DecFacts.sub_fits k _ _ B _ _ Hv Hw Hsum Hle) as (Hf & Hval).
    exists (PyDec (Dec.sub a b)). split; [reflexivity|].
    split; [exact Hf|]. cbn [valor]. exact Hval.
Qed.

(** [v or Decimal('0')] on an attribute within a size. *)
Lemma py_or_campo (md dp : Z) (v : pyval) :
  0 <= md -> 0 <= dp -> campo md dp v ->
  pyfits dp (10 ^ md) (py_or v (PyDec (Dec.mk 0 0))) /\
  (valor (py_or v (PyDec (Dec.mk 0 0))) == valor v)%Q.
Proof.
  intros Hmd Hdp Hc.
  assert (Hz : fits dp (10 ^ md) (Dec.mk 0 0)).
  { apply fits_zero; [lia|]. apply Z.pow_pos_nonneg; lia. }
  unfold py_or. destruct v as [|z|d|s]; cbn [campo truthy] in *; try contradiction.
  - split; [exact Hz | reflexivity].
  - destruct (z =? 0) eqn:E; cbn [negb].
    + apply Z.eqb_eq in E. subst z. split; [exact Hz | reflexivity].
    + split; [exact Hc | reflexivity].
  - unfold Dec.is_zero. destruct (Dec.coef d =? 0) eqn:E; cbn [negb].
    + apply Z.eqb_eq in E. split; [exact Hz|]. cbn [valor].
      rewrite (DecFacts.val_zero d E). reflexivity.
    + split; [exact Hc | reflexivity].
Qed.

Lemma peso_carga_valor (r : Romaneio) :
  campo 12 0 (peso_bruto r) -> campo 12 0 (peso_tara r) ->
  exists v, peso_carga r = Ok v /\ pyfits 0 (2 * 10 ^ 12) v /\
            (valor v == carga r)%Q.
Proof.
  intros Hb Ht.
  destruct (py_or_campo 12 0 _ ltac:(lia) ltac:(lia) Hb) as (Fb & Vb).
  destruct (py_or_campo 12 0 _ ltac:(lia) ltac:(lia) Ht) as (Ft & Vt).
  destruct (py_sub_fits 0 _ _ (2 * 10 ^ 12) _ _ Fb Ft ltac:(conta) ltac:(conta))
    as (v & Hv & Fv & Vv).
  exists v. split; [exact Hv|]. split; [exact Fv|].
  unfold carga. rewrite Vv, Vb, Vt. reflexivity.
Qed.

(** X1. [Romaneio.peso_carga], for a gross weight and a tare within the sizes
    of their fields (None read as 0): the property returns the gross weight
    minus the tare, the load weight [save] computes with, and [save] does not
    change what it returns. *)
Theorem X1_peso_carga :
  forall r,
    campo 12 0 (peso_bruto r) -> campo 12 0 (peso_tara r) ->
    exists v,
      peso_carga r = Ok v /\
      (valor v == valor (peso_bruto r) - valor (peso_tara r))%Q /\
      (forall parse tabelas r',
          save parse tabelas r = Ok r' -> peso_carga r' = Ok v).
Proof.
  intros r Hb Ht.
  destruct (peso_carga_valor r Hb Ht) as (v & Hv & _ & Vv).
  exists v. split; [exact Hv|]. split; [exact Vv|].
  intros parse tabelas r' Hs.
  destruct (save_ok parse tabelas r r' Hs)
    as (b & t & u & i & a & cu & ci & ca & s & total & pos & quebra & liquido
        & _ & _ & _ & _ & _ & _ & _ & _ & _ & _ & _ & -> & _).
  exact Hv.
Qed.

Lemma X1_peso_carga_witness :
  exists v, peso_carga ticket_sem_bruto = Ok v /\ (valor v == - (2000 # 1))%Q.
Proof.
  destruct (X1_peso_carga ticket_sem_bruto) as (v & Hv & Vv & _).
  - exemplo.
  - exemplo.
  - exists v. split; [exact Hv|]. rewrite Vv. vm_compute. reflexivity.
Defined.

(** The sizes of what [save] stores on a ticket within the sizes of its
    fields. *)
Lemma save_tamanhos (parse : string -> option Decimal)
  (tabelas : list TabelaClassificacao) (r : Romaneio) :
  ticket_valido r ->
  parametros_validos (parametros (tabela_do_romaneio tabelas r)) ->
  exists r' liquido,
    save parse tabelas r = Ok r' /\
    peso_liquido r' = PyDec liquido /\
    fits 8 (10 ^ 24) liquido /\
    pyfits 8 (4 * 10 ^ 23) (peso_quebra_tecnica r').
Proof.
  intros (Hb & Ht & Hu & Hi & Ha & Hdu & Hdi & Hda & Harm) (Hpu & Hpi & Hpa & Hts).
  set (p := parametros (tabela_do_romaneio tabelas r)) in *.
  destruct (to_Decimal_campo parse 12 0 _ ltac:(lia) ltac:(lia) Hb) as (b & Eb & Vb & Fb).
  destruct (to_Decimal_campo parse 12 0 _ ltac:(lia) ltac:(lia) Ht) as (t & Et & Vt & Ft).
  destruct (to_Decimal_campo parse 5 2 _ ltac:(lia) ltac:(lia) Hu) as (u & Eu & Vu & Fu).
  destruct (to_Decimal_campo parse 5 2 _ ltac:(lia) ltac:(lia) Hi) as (i & Ei & Vi & Fi).
  destruct (to_Decimal_campo parse 5 2 _ ltac:(lia) ltac:(lia) Ha) as (a & Ea & Va & Fa).
  destruct (DecFacts.sub_fits 0 _ _ (2 * 10 ^ 12) b t Fb Ft ltac:(conta) ltac:(conta))
    as (Fc & Vc).
  destruct (calc_desconto_umidade_fits _ u p Fc Fu (conj Hpu (conj Hpi (conj Hpa Hts))))
    as (cu & Ecu & Fcu & _).
  destruct (calc_desconto_excesso_fits _ i (padrao_imp p) Fc Fi Hpi)
    as (ci & Eci & Fci & _).
  destruct (calc_desconto_excesso_fits _ a (padrao_avar p) Fc Fa Hpa)
    as (ca & Eca & Fca & _).
  pose proof (desconto_final_fits _ cu Hdu Fcu) as Fdu.
  pose proof (desconto_final_fits _ ci Hdi Fci) as Fdi.
  pose proof (desconto_final_fits _ ca Hda Fca) as Fda.
  destruct (py_add_fits 4 _ _ (2 * 10 ^ 18) _ _ Fdu Fdi ltac:(conta) ltac:(conta))
    as (s & Es & Fs & Vs).
  destruct (py_add_fits 4 _ _ (3 * 10 ^ 18) _ _ Fs Fda ltac:(conta) ltac:(conta))
    as (total & Etot & Ftot & Vtot).
  pose proof (DecFacts.fits_up 0 4 _ (2 * 10 ^ 16) _ Fc ltac:(lia) ltac:(conta)) as Fc4.
  destruct (dec_sub_py_fits 4 _ _ (4 * 10 ^ 18) _ _ Fc4 Ftot ltac:(conta) ltac:(conta))
    as (pos & Epos & Fpos & Vpos).
  rewrite save_eq, Eb, Et, Eu, Ei, Ea. cbn [bind]. cbv zeta. fold p.
  rewrite Ecu, Eci, Eca. cbn [bind]. rewrite Es. cbn [bind].
  rewrite Etot. cbn [bind]. rewrite Epos. cbn [bind].
  destruct (armazem_terceiro r) as [arm|].
  - destruct (to_Decimal_campo parse 5 2 _ ltac:(lia) ltac:(lia) Harm)
      as (idx & Eidx & Vidx & Fidx).
    destruct (DecFacts.div_100_fits 2 _ _ Fidx ltac:(conta)) as (q & Eq & Fq & Vq).
    unfold d_100. rewrite Eidx. cbn [bind]. rewrite Eq. cbn [bind].
    destruct (DecFacts.mul_fits 4 4 _ _ (4 * 10 ^ 23) pos q Fpos Fq
                ltac:(conta) ltac:(conta)) as (Fm & Vm).
    pose proof (DecFacts.fits_up 4 8 _ (4 * 10 ^ 22) _ Fpos ltac:(lia) ltac:(conta)) as Fpos8.
    destruct (DecFacts.sub_fits 8 _ _ (10 ^ 24) pos (Dec.mul pos q) Fpos8 Fm
                ltac:(conta) ltac:(conta)) as (Fl & Vl).
    eexists. eexists. split; [reflexivity|]. campos.
    split; [reflexivity|]. split; [exact Fl | exact Fm].
  - destruct (DecFacts.sub_fits 4 _ _ (5 * 10 ^ 18) pos d_0_00 Fpos
                (fits_zero 4 1 (-2) ltac:(lia) ltac:(lia))
                ltac:(conta) ltac:(conta)) as (Fl & Vl).
    eexists. eexists. split; [reflexivity|]. campos.
    split; [reflexivity|]. split.
    + apply (DecFacts.fits_up 4 8 (5 * 10 ^ 18)); [exact Fl | lia | conta].
    + cbn [pyfits]. apply fits_zero; conta.
Qed.

(** X2. [Romaneio.peso_descontos]: on a ticket that was never calculated
    ([peso_liquido] is None) it is [Decimal('0')]; on the ticket [save]
    returns, for a ticket and a standard within the sizes of their fields,
    it is the total of the deductions [save] stored, the technical shrinkage
    left out. *)
Theorem X2_peso_descontos :
  (forall r, peso_liquido r = PyNone ->
             peso_descontos r = Ok (PyDec (Dec.mk 0 0))) /\
  (forall parse tabelas r,
      ticket_valido r ->
      parametros_validos (parametros (tabela_do_romaneio tabelas r)) ->
      exists r' d,
        save parse tabelas r = Ok r' /\
        peso_descontos r' = Ok d /\
        (valor d == valor (total_descontos_kg r'))%Q).
Proof.
  split.
  - intros r H. unfold peso_descontos. rewrite H. reflexivity.
  - intros parse tabelas r Hv Hp.
    destruct (save_tamanhos parse tabelas r Hv Hp)
      as (r' & liquido & Hs & Hl & Fl & Fq).
    destruct (save_valores parse tabelas r Hv Hp)
      as (r'' & cu & ci & ca & Hs' & _ & _ & _ & _ & _ & _ & Vl).
    rewrite Hs in Hs'. injection Hs' as <-.
    destruct (save_ok parse tabelas r r' Hs)
      as (b & t & u & i & a & cu' & ci' & ca' & s & total & pos & quebra & liquido'
          & _ & _ & _ & _ & _ & _ & _ & _ & _ & _ & _ & Hr & _).
    assert (Hcarga : peso_carga r' = peso_carga r) by (rewrite Hr; reflexivity).
    destruct Hv as (Hb & Ht & _).
    destruct (peso_carga_valor r Hb Ht) as (c & Hc & Fc & Vc).
    assert (Fl' : pyfits 8 (10 ^ 24) (peso_liquido r')) by (rewrite Hl; exact Fl).
    destruct (py_add_fits 8 _ _ (2 * 10 ^ 24) _ _ Fl' Fq ltac:(conta) ltac:(conta))
      as (sm & Hsm & Fsm & Vsm).
    pose proof (pyfits_up 0 8 _ (2 * 10 ^ 20) _ Fc ltac:(lia) ltac:(conta)) as Fc8.
    destruct (py_sub_fits 8 _ _ (3 * 10 ^ 24) _ _ Fc8 Fsm ltac:(conta) ltac:(conta))
      as (d & Hd & _ & Vd).
    exists r', d. split; [exact Hs|]. split.
    + unfold peso_descontos. rewrite Hl, Hcarga, Hc. cbn [bind].
      rewrite <- Hl, Hsm. cbn [bind]. exact Hd.
    + rewrite Vd, Vsm, Vc, Vl. ring.
Qed.

Lemma X2_peso_descontos_witness :
  exists r' d,
    save plain_decimal [] ticket_3 = Ok r' /\
    peso_descontos r' = Ok d /\ (valor d == 320 # 1)%Q.
Proof.
  destruct X2_peso_descontos as (_ & H).
  destruct (H plain_decimal [] ticket_3) as (r' & d & Hs & Hd & Vd).
  - exemplo.
  - exemplo.
  - exists r', d. split; [exact Hs|]. split; [exact Hd|].
    rewrite Vd.
    assert (Hr : r' = salvo plain_decimal [] ticket_3).
    { unfold salvo. rewrite Hs. reflexivity. }
    rewrite Hr. vm_compute. reflexivity.
Defined.

(** *** A second save after an edit *)

(** What [save] leaves in the three deductions can be added: an [int] or a
    [Decimal]. *)
Lemma save_ok_somavel (parse : string -> option Decimal)
  (tabelas : list TabelaClassificacao) (r r1 : Romaneio) :
  save parse tabelas r = Ok r1 ->
  somavel (desconto_kg_umidade r1) /\ somavel (desconto_kg_impureza r1) /\
  somavel (desconto_kg_avariado r1).
Proof.
  intros H.
  destruct (save_ok parse tabelas r r1 H)
    as (b & t & u & i & a & cu & ci & ca & s & total & pos & quebra & liquido
        & _ & _ & _ & _ & _ & _ & _ & _ & Hs & Htot & Hpos & -> & _).
  campos.
  destruct (desconto_final (desconto_kg_umidade r) cu) as [|y|x|sx];
    destruct (desconto_final (desconto_kg_impureza r) ci) as [|y'|x'|sx'];
    cbn [py_add] in Hs; try discriminate Hs; injection Hs as <-;
    destruct (desconto_final (desconto_kg_avariado r) ca) as [|y''|x''|sx''];
    cbn [py_add] in Htot; try discriminate Htot; injection Htot as <-;
    cbn [dec_sub_py] in Hpos; try discriminate Hpos;
    cbn [somavel]; tauto.
Qed.

Lemma somavel_numerico (v : pyval) : somavel v -> numerico v.
Proof. destruct v; cbn; tauto. Qed.

Lemma desconto_final_manual (v : pyval) (c : Decimal) :
  numerico v -> ~ (valor v == 0)%Q -> desconto_final v c = v.
Proof.
  intros Hn Hz. unfold desconto_final.
  destruct (sem_manual v) eqn:E; [|reflexivity].
  exfalso. apply Hz. apply (sem_manual_valor v Hn). exact E.
Qed.

(** X3. A deduction that [save] stored and that is not zero is not
    calculated again: when the measured percentages of the saved ticket are
    changed and the ticket is saved again, with whatever table, each
    deduction that was not zero keeps the value of the first save. *)
Theorem X3_stored_deduction_kept :
  forall parse tabelas r r1,
    save parse tabelas r = Ok r1 ->
    forall tabelas' umidade impureza avariado r2,
      save parse tabelas' (com_percentuais r1 umidade impureza avariado) = Ok r2 ->
      (~ (valor (desconto_kg_umidade r1) == 0)%Q ->
       desconto_kg_umidade r2 = desconto_kg_umidade r1) /\
      (~ (valor (desconto_kg_impureza r1) == 0)%Q ->
       desconto_kg_impureza r2 = desconto_kg_impureza r1) /\
      (~ (valor (desconto_kg_avariado r1) == 0)%Q ->
       desconto_kg_avariado r2 = desconto_kg_avariado r1).
Proof.
  intros parse tabelas r r1 H1 tabelas' um im av r2 H2.
  destruct (save_ok_somavel parse tabelas r r1 H1) as (Su & Si & Sa).
  destruct (save_ok parse tabelas' _ r2 H2)
    as (b & t & u & i & a & cu & ci & ca & s & total & pos & quebra & liquido
        & _ & _ & _ & _ & _ & _ & _ & _ & _ & _ & _ & -> & _).
  unfold com_percentuais. campos.
  repeat split; intros Hz; apply desconto_final_manual;
    auto using somavel_numerico.
Qed.

Lemma X3_stored_deduction_kept_witness :
  desconto_kg_umidade (salvo plain_decimal [] ticket_1)
  = PyDec (Dec.mk 32000 (-2)) /\
  exists r2,
    save plain_decimal []
      (com_percentuais (salvo plain_decimal [] ticket_1)
         (PyDec (Dec.mk 2000 (-2))) (PyDec (Dec.mk 50 (-2)))
         (PyDec (Dec.mk 0 (-2)))) = Ok r2 /\
    desconto_kg_umidade r2 = PyDec (Dec.mk 32000 (-2)).
Proof.
  split; [vm_compute; reflexivity|].
  eexists. split; [vm_compute; reflexivity|].
  refine (proj1 (X3_stored_deduction_kept plain_decimal [] ticket_1
                   (salvo plain_decimal [] ticket_1) _ []
                   (PyDec (Dec.mk 2000 (-2))) (PyDec (Dec.mk 50 (-2)))
                   (PyDec (Dec.mk 0 (-2))) _ _) _).
  - vm_compute. reflexivity.
  - vm_compute. reflexivity.
  - vm_compute. discriminate.
Defined.

(** *** Rounding never crosses a decimal of the context precision *)

(** The order of two decimals, on their coefficients at the smaller
    exponent. *)
Lemma val_le_coef (a b : Decimal) :
  (Dec.val a <= Dec.val b)%Q <->
  Dec.coef a * 10 ^ (Dec.expo a - Z.min (Dec.expo a) (Dec.expo b))
  <= Dec.coef b * 10 ^ (Dec.expo b - Z.min (Dec.expo a) (Dec.expo b)).
Proof.
  rewrite <- dec_leb_val. unfold dec_leb, Dec.gtb, Dec.compare.
  set (x := Dec.coef a * _). set (y := Dec.coef b * _).
  destruct (Z.compare_spec x y); cbn [negb]; split; intros; try lia;
    try reflexivity; discriminate.
Qed.

Lemma ndigits_lower (c k : Z) :
  0 < k -> Dec.ndigits c - Dec.prec = k -> 10 ^ (Dec.prec - 1 + k) <= Z.abs c.
Proof.
  intros Hk Hn.
  destruct (Z_lt_le_dec (Z.abs c) (10 ^ (Dec.prec - 1 + k))) as [Hlt|Hge];
    [|exact Hge].
  pose proof (DecFacts.ndigits_min c (Dec.prec - 1 + k)
                ltac:(unfold Dec.prec; lia) Hlt).
  lia.
Qed.

(** Rounding to the context precision does not cross a decimal that is not
    negative and has at most [prec] digits. *)
Lemma fix_le (d y : Decimal) :
  Z.abs (Dec.coef y) < 10 ^ Dec.prec ->
  (0 <= Dec.val y)%Q -> (Dec.val d <= Dec.val y)%Q ->
  (Dec.val (Dec.fix_ d) <= Dec.val y)%Q.
Proof.
  intros Hy Hy0 Hle. unfold Dec.fix_.
  set (k := Dec.ndigits (Dec.coef d) - Dec.prec).
  destruct (k <=? 0) eqn:Ek; [exact Hle|]. apply Z.leb_gt in Ek.
  pose proof (ndigits_lower (Dec.coef d) k Ek eq_refl) as Hlow.
  pose proof (DecFacts.ndigits_upper (Dec.coef d)) as Hup.
  replace (Dec.ndigits (Dec.coef d)) with (Dec.prec + k) in Hup by (subst k; lia).
  assert (Hk10 : 0 < 10 ^ k) by (apply Z.pow_pos_nonneg; lia).
  set (q := Z.abs (Dec.coef d) / 10 ^ k).
  set (r := Z.abs (Dec.coef d) mod 10 ^ k).
  set (half := 5 * 10 ^ (k - 1)).
  set (q1 := if (half <? r) || ((r =? half) && Z.odd q) then q + 1 else q).
  assert (Hq0 : 0 <= q) by (subst q; apply Z.div_pos; lia).
  assert (Hq10 : 0 <= q1) by (subst q1; destruct (_ || _); lia).
  (* the result has the sign of the coefficient *)
  assert (Hneg : forall x e, 0 <= x -> Dec.coef d <= 0 ->
                             (Dec.val (Dec.mk (Z.sgn (Dec.coef d) * x) e) <= Dec.val y)%Q).
  { intros x e Hx Hc. eapply Qle_trans; [|exact Hy0].
    unfold Dec.val. cbn [Dec.coef Dec.expo].
    assert (Hs : Z.sgn (Dec.coef d) * x <= 0) by (destruct (Dec.coef d); cbn [Z.sgn]; lia).
    rewrite Zle_Qle in Hs. change (inject_Z 0) with 0%Q in Hs.
    pose proof (DecFacts.pow10_pos e) as Hp.
    setoid_replace 0%Q with (0 * (10 # 1) ^ e)%Q by ring.
    apply Qmult_le_compat_r; [exact Hs | apply Qlt_le_weak; exact Hp]. }
  destruct (Z_le_gt_dec (Dec.coef d) 0) as [Hc|Hc].
  { destruct (10 ^ Dec.prec <=? q1); apply Hneg; try assumption.
    apply Z.div_pos; lia. }
  (* a positive coefficient *)
  assert (Habs : Z.abs (Dec.coef d) = Dec.coef d) by lia.
  rewrite Habs in Hlow, Hup.
  rewrite (Z.sgn_pos (Dec.coef d)) by lia.
  apply val_le_coef in Hle.
  assert (Hcy : 0 <= Dec.coef y).
  { destruct (Z_le_gt_dec 0 (Dec.coef y)) as [|Hn]; [assumption|exfalso].
    assert (Hv : (Dec.val y < 0)%Q).
    { unfold Dec.val. pose proof (DecFacts.pow10_pos (Dec.expo y)) as Hp.
      setoid_replace 0%Q with (0 * (10 # 1) ^ Dec.expo y)%Q by ring.
      apply Qmult_lt_compat_r; [exact Hp|].
      change 0%Q with (inject_Z 0). rewrite <- Zlt_Qlt. lia. }
    apply (Qlt_not_le _ _ Hv Hy0). }
  rewrite (Z.abs_eq (Dec.coef y)) in Hy by lia.
  assert (H28 : 10 ^ Dec.prec <= 10 ^ (Dec.prec - 1 + k)).
  { apply Z.pow_le_mono_r; unfold Dec.prec; lia. }
  assert (Hey : Dec.expo d + k <= Dec.expo y).
  { destruct (Z_le_gt_dec (Dec.expo d + k) (Dec.expo y)) as [|Hlt];
      [assumption|exfalso].
    destruct (Z_le_gt_dec (Dec.expo d) (Dec.expo y)) as [Hm|Hm].
    - rewrite Z.min_l in Hle by lia.
      replace (Dec.expo d - Dec.expo d) with 0 in Hle by lia.
      change (10 ^ 0) with 1 in Hle. rewrite Z.mul_1_r in Hle.
      assert (10 ^ (Dec.expo y - Dec.expo d) <= 10 ^ (k - 1))
        by (apply Z.pow_le_mono_r; lia).
      assert (0 < 10 ^ (Dec.expo y - Dec.expo d)) by (apply Z.pow_pos_nonneg; lia).
      assert (Hprod : Dec.coef y * 10 ^ (Dec.expo y - Dec.expo d)
                      < 10 ^ Dec.prec * 10 ^ (k - 1)) by nia.
      rewrite <- Z.pow_add_r in Hprod by (unfold Dec.prec; lia).
      replace (Dec.prec + (k - 1)) with (Dec.prec - 1 + k) in Hprod by lia.
      lia.
    - rewrite Z.min_r in Hle by lia.
      replace (Dec.expo y - Dec.expo y) with 0 in Hle by lia.
      change (10 ^ 0) with 1 in Hle. rewrite Z.mul_1_r in Hle.
      assert (0 < 10 ^ (Dec.expo d - Dec.expo y)) by (apply Z.pow_pos_nonneg; lia).
      nia. }
  rewrite Z.min_l in Hle by lia.
  replace (Dec.expo d - Dec.expo d) with 0 in Hle by lia.
  change (10 ^ 0) with 1 in Hle. rewrite Z.mul_1_r in Hle.
  set (f := Dec.expo y - Dec.expo d - k).
  set (M := Dec.coef y * 10 ^ f).
  assert (Hf : 0 <= f) by (subst f; lia).
  assert (HcM : Dec.coef d <= M * 10 ^ k).
  { subst M. rewrite <- Z.mul_assoc, <- Z.pow_add_r by lia.
    replace (f + k) with (Dec.expo y - Dec.expo d) by (subst f; lia). exact Hle. }
  pose proof (Z.div_mod (Z.abs (Dec.coef d)) (10 ^ k) ltac:(lia)) as Hdm.
  pose proof (Z.mod_pos_bound (Z.abs (Dec.coef d)) (10 ^ k) Hk10) as Hrb.
  fold q r in Hdm, Hrb. rewrite Habs in Hdm.
  assert (Hhalf : 0 < half).
  { subst half. assert (0 < 10 ^ (k - 1)) by (apply Z.pow_pos_nonneg; lia). lia. }
  assert (Hq1M : q1 <= M).
  { subst q1. destruct ((half <? r) || ((r =? half) && Z.odd q)) eqn:Eup.
    - assert (Hr : 0 < r).
      { apply orb_true_iff in Eup. destruct Eup as [E|E].
        - apply Z.ltb_lt in E. lia.
        - apply andb_true_iff in E. destruct E as [E _]. apply Z.eqb_eq in E. lia. }
      clearbody q r. set (P := 10 ^ k) in *. nia.
    - clearbody q r. set (P := 10 ^ k) in *. nia. }
  (* from coefficients back to values *)
  assert (Hfin : forall c e, 0 <= Dec.expo y - e -> c <= Dec.coef y * 10 ^ (Dec.expo y - e) ->
                             (Dec.val (Dec.mk (1 * c) e) <= Dec.val y)%Q).
  { intros c e He Hc'. apply val_le_coef. cbn [Dec.coef Dec.expo].
    rewrite Z.min_l by lia. replace (e - e) with 0 by lia.
    change (10 ^ 0) with 1. lia. }
  destruct (10 ^ Dec.prec <=? q1) eqn:Ecarry.
  - apply Z.leb_le in Ecarry.
    assert (Hf1 : 1 <= f).
    { destruct (Z.eq_dec f 0) as [E0|]; [|lia]. exfalso.
      subst M. rewrite E0 in Hq1M. change (10 ^ 0) with 1 in Hq1M. lia. }
    apply Hfin; [lia|].
    replace (Dec.expo y - (Dec.expo d + k + 1)) with (f - 1) by (subst f; lia).
    assert (HM : M = Dec.coef y * 10 ^ (f - 1) * 10).
    { subst M. rewrite <- Z.mul_assoc. f_equal.
      replace f with ((f - 1) + 1) at 1 by lia.
      rewrite Z.pow_add_r by lia. reflexivity. }
    apply Z.div_le_upper_bound; lia.
  - apply Hfin; [lia|].
    replace (Dec.expo y - (Dec.expo d + k)) with f by (subst f; lia). exact Hq1M.
Qed.

(** *** Sums of decimals *)

Lemma py_sum_from_dec (l : list Decimal) :
  forall d,
    exists d',
      fold_left (fun acc x => a <- acc ;; py_add a (PyDec x)) l (Ok (PyDec d))
      = Ok (PyDec d') /\
      (Z.abs (Dec.coef d) < 10 ^ Dec.prec -> Z.abs (Dec.coef d') < 10 ^ Dec.prec).
Proof.
  induction l as [|x l IH]; intros d.
  - exists d. split; [reflexivity | tauto].
  - cbn [fold_left bind py_add].
    destruct (IH (Dec.add d x)) as (d' & Hd' & Hb).
    exists d'. split; [exact Hd'|]. intros _. apply Hb. apply DecFacts.fix_bound.
Qed.

(** [sum] over decimals never raises: the [int] 0 on an empty list, a decimal
    of at most [prec] digits otherwise. *)
Lemma py_sum_cases (l : list Decimal) :
  (l = [] /\ py_sum l = Ok (PyInt 0)) \/
  (exists d, py_sum l = Ok (PyDec d) /\ Z.abs (Dec.coef d) < 10 ^ Dec.prec).
Proof.
  destruct l as [|x l]; [left; split; reflexivity|]. right.
  unfold py_sum. cbn [fold_left bind py_add].
  destruct (py_sum_from_dec l (Dec.add (of_int 0) x)) as (d' & Hd' & Hb).
  exists d'. split; [exact Hd'|]. apply Hb. apply DecFacts.fix_bound.
Qed.

Lemma div_ok (a b : Decimal) :
  Dec.coef b <> 0 -> exists q, Dec.div a b = Ok q.
Proof.
  intros Hnz. unfold Dec.div.
  destruct (Dec.coef b =? 0) eqn:Ez; [apply Z.eqb_eq in Ez; contradiction|].
  destruct (Dec.coef a =? 0); [eexists; reflexivity|].
  match goal with
  | |- context [let '(c, e') := ?x in _] => destruct x as [c e']
  end.
  eexists; reflexivity.
Qed.

Lemma val_pos_coef (d : Decimal) : (0 < Dec.val d)%Q -> Dec.coef d <> 0.
Proof.
  intros Hpos Hz. rewrite (DecFacts.val_zero d Hz) in Hpos.
  exact (Qlt_irrefl _ Hpos).
Qed.

(** *** The share of an operation in the cost of a field *)

(** The product by a decimal that is at most 1 does not exceed a factor that
    is not negative and has at most [prec] digits. *)
Lemma mul_le_factor (c p : Decimal) :
  Z.abs (Dec.coef c) < 10 ^ Dec.prec -> (0 <= Dec.val c)%Q ->
  (Dec.val p <= 1)%Q -> (Dec.val (Dec.mul c p) <= Dec.val c)%Q.
Proof.
  intros Hc H0 Hp. unfold Dec.mul. apply fix_le; [exact Hc | exact H0|].
  rewrite DecFacts.val_mul_exact.
  assert (H : (Dec.val p * Dec.val c <= 1 * Dec.val c)%Q)
    by (apply Qmult_le_compat_r; assumption).
  lra.
Qed.

Lemma custo_total_somavel (op : OperacaoCampo.t) :
  exists c, OperacaoCampo.custo_total op = Ok c /\ somavel c.
Proof.
  unfold OperacaoCampo.custo_total.
  destruct (py_sum_cases (OperacaoCampo.itens op)) as [(_ & ->) | (d & -> & _)];
    eexists; split; try reflexivity; exact I.
Qed.

(** The share of an operation whose cost is not negative. *)
Lemma parcela_le (area : Decimal) (op : OperacaoCampo.t) (c : pyval) :
  OperacaoCampo.custo_total op = Ok c -> (0 <= valor c)%Q ->
  exists x, Talhao.parcela area op = Ok x /\ (valor x <= valor c)%Q /\
            somavel x.
Proof.
  intros Hct H0.
  assert (Hc : exists y,
             (forall p, py_mul_dec c p = Ok (Dec.mul y p)) /\
             (Dec.val y == valor c)%Q /\ Z.abs (Dec.coef y) < 10 ^ Dec.prec /\
             somavel c).
  { unfold OperacaoCampo.custo_total in Hct.
    destruct (py_sum_cases (OperacaoCampo.itens op)) as [(_ & Hs) | (d & Hs & Hd)];
      rewrite Hs in Hct; injection Hct as <-.
    - exists (of_int 0). split; [reflexivity|]. split; [reflexivity|].
      split; [|exact I]. cbn [of_int Dec.coef].
      apply Z.pow_pos_nonneg; unfold Dec.prec; lia.
    - exists d. split; [reflexivity|]. split; [reflexivity|].
      split; [exact Hd | exact I]. }
  destruct Hc as (y & Hmul & Vy & By & Sc).
  unfold Talhao.parcela. rewrite Hct. cbn [bind].
  set (op_area := agregado_ou (OperacaoCampo.area_aplicada_ha op) (Dec.mk 1 0)).
  destruct (Dec.gtb op_area (of_int 0)) eqn:Epos;
    [|exists c; split; [reflexivity | split; [apply Qle_refl | exact Sc]]].
  apply DecFacts.gtb_val in Epos. rewrite val_int_zero in Epos.
  destruct (div_ok area op_area (val_pos_coef _ Epos)) as (q & ->).
  cbn [bind]. rewrite Hmul. cbn [bind].
  eexists. split; [reflexivity|]. split; [|exact I].
  cbn [valor]. rewrite <- Vy in *.
  apply mul_le_factor; [exact By | exact H0|].
  destruct (Dec.gtb q (of_int 1)) eqn:E1.
  - vm_compute. discriminate.
  - apply Qnot_lt_le. intros Hlt.
    assert (Hg : Dec.gtb q (of_int 1) = true).
    { apply DecFacts.gtb_val. exact Hlt. }
    congruence.
Qed.

(** X8. [Talhao.calcular_custo_total], the body of its loop: the cost of an
    operation, [sum] of the final costs of its items, is always defined, and
    when it is not negative the share the field is charged never exceeds it,
    whatever the area of the field and the area of the operation ("Não
    cobrar mais que o total"), rounding of the quotient and of the product
    included. *)
Theorem X8_parcela_cap :
  forall area_hectares operacao,
    exists c,
      OperacaoCampo.custo_total operacao = Ok c /\
      ((0 <= valor c)%Q ->
       exists x, Talhao.parcela area_hectares operacao = Ok x /\
                 (valor x <= valor c)%Q).
Proof.
  intros area op.
  destruct (custo_total_somavel op) as (c & Hc & _).
  exists c. split; [exact Hc|]. intros H0.
  destruct (parcela_le area op c Hc H0) as (x & Hx & Hle & _).
  exists x. auto.
Qed.

Lemma X8_parcela_cap_witness :
  exists c x,
    OperacaoCampo.custo_total
      (OperacaoCampo.mk [Dec.mk 100000 (-2); Dec.mk 5050 (-2)]
         (Some (Dec.mk 300000 (-4)))) = Ok c /\
    Talhao.parcela (Dec.mk 1000 (-2))
      (OperacaoCampo.mk [Dec.mk 100000 (-2); Dec.mk 5050 (-2)]
         (Some (Dec.mk 300000 (-4)))) = Ok x /\
    (valor x <= valor c)%Q.
Proof.
  destruct (X8_parcela_cap (Dec.mk 1000 (-2))
              (OperacaoCampo.mk [Dec.mk 100000 (-2); Dec.mk 5050 (-2)]
                 (Some (Dec.mk 300000 (-4)))))
    as (c & Hc & H).
  assert (Hcv : c = PyDec (Dec.mk 105050 (-2))).
  { vm_compute in Hc. congruence. }
  destruct H as (x & Hx & Hle).
  - rewrite Hcv. vm_compute. discriminate.
  - exists c, x. auto.
Defined.

(** *** The cost of a field over all its operations *)

Lemma soma_custos_nonneg (l : list Decimal) :
  Forall OperacaoCampo.custo_valido l -> (0 <= soma_Q (map Dec.val l))%Q.
Proof.
  induction 1 as [|d l [_ Hd] _ IH]; cbn [map soma_Q fold_right].
  - apply Qle_refl.
  - fold (soma_Q (map Dec.val l)). lra.
Qed.

Lemma pyfits_weaken (k B B' : Z) (v : pyval) :
  pyfits k B v -> B <= B' -> pyfits k B' v.
Proof.
  destruct v; cbn [pyfits]; try tauto; intros H Hle;
    exact (DecFacts.fits_weaken _ _ _ _ H Hle).
Qed.

Lemma custos_fold (l : list Decimal) :
  forall acc n,
    0 <= n -> pyfits 2 (1 + n * 10 ^ 15) acc ->
    Forall OperacaoCampo.custo_valido l ->
    n + Z.of_nat (length l) <= 1000 ->
    exists v,
      fold_left (fun acc x => a <- acc ;; py_add a (PyDec x)) l (Ok acc) = Ok v /\
      pyfits 2 (2 * 10 ^ 18) v /\
      (valor v == valor acc + soma_Q (map Dec.val l))%Q.
Proof.
  induction l as [|d l IH]; intros acc n Hn Hacc Hval Hlen.
  - exists acc. split; [reflexivity|]. split.
    + apply (pyfits_weaken _ _ _ _ Hacc). cbn [length] in Hlen. lia.
    + cbn [map soma_Q fold_right]. ring.
  - cbn [fold_left bind].
    apply Forall_cons_iff in Hval. destruct Hval as ((Fd & _) & Hval).
    cbn [length] in Hlen. rewrite Nat2Z.inj_succ in Hlen.
    destruct (py_add_fits 2 _ _ (1 + (n + 1) * 10 ^ 15) acc (PyDec d) Hacc Fd
                ltac:(lia) ltac:(unfold Dec.prec; lia))
      as (x & -> & Fx & Vx).
    destruct (IH x (n + 1) ltac:(lia) Fx Hval ltac:(lia)) as (v & Hv & Fv & Vv).
    exists v. split; [exact Hv|]. split; [exact Fv|].
    rewrite Vv, Vx. cbn [valor map soma_Q fold_right].
    fold (soma_Q (map Dec.val l)). ring.
Qed.

(** The cost of a valid operation is the exact sum of the costs of its
    items. *)
Lemma custo_total_exato (op : OperacaoCampo.t) :
  OperacaoCampo.valida op ->
  exists c,
    OperacaoCampo.custo_total op = Ok c /\ pyfits 2 (2 * 10 ^ 18) c /\
    (valor c == OperacaoCampo.custo_exato op)%Q /\ (0 <= valor c)%Q.
Proof.
  intros [Hval Hlen].
  destruct (custos_fold (OperacaoCampo.itens op) (PyInt 0) 0 ltac:(lia)
              ltac:(cbn [pyfits]; apply fits_zero; conta) Hval ltac:(lia))
    as (c & Hc & Fc & Vc).
  assert (Ve : (valor c == OperacaoCampo.custo_exato op)%Q).
  { rewrite Vc. unfold OperacaoCampo.custo_exato. cbn [valor].
    change (inject_Z 0) with 0%Q. ring. }
  exists c. split; [exact Hc|]. split; [exact Fc|]. split; [exact Ve|].
  rewrite Ve. apply soma_custos_nonneg. exact Hval.
Qed.

Lemma somavel_dec (a : Decimal) (x : pyval) :
  somavel x ->
  exists b, dec_add_py a x = Ok (Dec.add a b) /\ (Dec.val b == valor x)%Q.
Proof.
  destruct x as [|z|b|s]; cbn [somavel]; try contradiction; intros _.
  - exists (of_int z). split; [reflexivity | apply val_of_int].
  - exists b. split; reflexivity.
Qed.

Lemma talhao_fold (area : Decimal) (ops : list OperacaoCampo.t) :
  forall total y n,
    0 <= n -> fits 2 (1 + n * (2 * 10 ^ 18)) y ->
    (0 <= Dec.val y)%Q -> (Dec.val total <= Dec.val y)%Q ->
    Forall OperacaoCampo.valida ops ->
    n + Z.of_nat (length ops) <= 10 ^ 5 ->
    exists t,
      fold_left
        (fun acc operacao =>
           custo_total <- acc ;;
           x <- Talhao.parcela area operacao ;;
           dec_add_py custo_total x)
        ops (Ok total) = Ok t /\
      (Dec.val t <= Dec.val y + soma_Q (map OperacaoCampo.custo_exato ops))%Q.
Proof.
  induction ops as [|op ops IH]; intros total y n Hn Fy Hy0 Hle Hval Hlen.
  - exists total. split; [reflexivity|]. cbn [map soma_Q fold_right]. lra.
  - apply Forall_cons_iff in Hval. destruct Hval as (Hop & Hval).
    cbn [length] in Hlen. rewrite Nat2Z.inj_succ in Hlen.
    destruct (custo_total_exato op Hop) as (c & Hc & Fc & Vc & Hc0).
    destruct (parcela_le area op c Hc Hc0) as (x & Hx & Hxc & Sx).
    destruct (pyfits_valor_dec 2 _ c Fc) as (cd & Fcd & Vcd & _).
    destruct (somavel_dec total x Sx) as (b & Hb & Vb).
    cbn [fold_left bind]. rewrite Hx. cbn [bind]. rewrite Hb.
    pose proof (DecFacts.add_exact_fits _ _ _ _ _ Fy Fcd) as Fy'.
    assert (Fy'' : fits 2 (1 + (n + 1) * (2 * 10 ^ 18)) (Dec.add_exact y cd))
      by (apply (DecFacts.fits_weaken _ _ _ _ Fy'); lia).
    pose proof (DecFacts.val_add_exact y cd) as Vy'.
    assert (Hnew : (Dec.val (Dec.add total b) <= Dec.val (Dec.add_exact y cd))%Q).
    { unfold Dec.add. apply fix_le.
      - pose proof (DecFacts.fits_coef _ _ _ Fy'') as Hb'.
        unfold Dec.prec. lia.
      - rewrite Vy', Vcd. lra.
      - rewrite DecFacts.val_add_exact, Vy', Vcd, Vb. lra. }
    destruct (IH (Dec.add total b) (Dec.add_exact y cd) (n + 1) ltac:(lia) Fy''
                ltac:(rewrite Vy', Vcd; lra) Hnew Hval ltac:(lia))
      as (t & Ht & Vt).
    exists t. split; [exact Ht|].
    cbn [map soma_Q fold_right].
    fold (soma_Q (map OperacaoCampo.custo_exato ops)).
    rewrite Vy', Vcd, Vc in Vt. lra.
Qed.

(** X11. [Talhao.calcular_custo_total], the whole loop: for at most 100000
    operations of at most 1000 items each, with costs within the size of
    [custo_final] and not negative, the method returns a decimal, and the
    cost charged to the field never exceeds the exact sum of the costs of all
    the items of its operations, whatever the areas, every rounding of the
    quotients, products and additions included. *)
Theorem X11_custo_talhao_bounded :
  forall area_hectares operacoes,
    Forall OperacaoCampo.valida operacoes ->
    Z.of_nat (length operacoes) <= 10 ^ 5 ->
    exists t,
      Talhao.calcular_custo_total area_hectares operacoes = Ok t /\
      (Dec.val t <= soma_Q (map OperacaoCampo.custo_exato operacoes))%Q.
Proof.
  intros area ops Hval Hlen.
  destruct (talhao_fold area ops d_0_00 d_0_00 0 ltac:(lia)
              ltac:(apply fits_zero; conta)
              ltac:(vm_compute; discriminate) ltac:(apply Qle_refl)
              Hval ltac:(lia))
    as (t & Ht & Vt).
  exists t. split; [exact Ht|].
  assert (H0 : (Dec.val d_0_00 == 0)%Q) by reflexivity.
  rewrite H0 in Vt. lra.
Qed.

Lemma X11_custo_talhao_bounded_witness :
  exists t,
    Talhao.calcular_custo_total (Dec.mk 50 0)
      [OperacaoCampo.mk [Dec.mk 100000 (-2); Dec.mk 50000 (-2)]
         (Some (Dec.mk 10000 (-2)));
       OperacaoCampo.mk [Dec.mk 20000 (-2)] None] = Ok t /\
    (Dec.val t <= 1700 # 1)%Q.
Proof.
  destruct (X11_custo_talhao_bounded (Dec.mk 50 0)
              [OperacaoCampo.mk [Dec.mk 100000 (-2); Dec.mk 50000 (-2)]
                 (Some (Dec.mk 10000 (-2)));
               OperacaoCampo.mk [Dec.mk 20000 (-2)] None])
    as (t & Ht & Vt).
  - repeat constructor; vm_compute; congruence.
  - vm_compute. congruence.
  - exists t. split; [exact Ht|].
    assert (E : (soma_Q (map OperacaoCampo.custo_exato
               [OperacaoCampo.mk [Dec.mk 100000 (-2); Dec.mk 50000 (-2)]
                  (Some (Dec.mk 10000 (-2)));
                OperacaoCampo.mk [Dec.mk 20000 (-2)] None]) == 1700 # 1)%Q)
      by (vm_compute; reflexivity).
    rewrite <- E. exact Vt.
Defined.


(** *** The return of a planting *)

Lemma ciclo_custo_fold (l : list OperacaoCampo.t) :
  forall acc,
    exists d,
      fold_left
        (fun acc operacao =>
           custo_total <- acc ;;
           c <- OperacaoCampo.custo_total operacao ;;
           dec_add_py custo_total c)
        l (Ok acc) = Ok d.
Proof.
  induction l as [|op l IH]; intros acc; [eexists; reflexivity|].
  cbn [fold_left bind].
  destruct (custo_total_somavel op) as (c & -> & Hc). cbn [bind].
  destruct c; cbn [somavel] in Hc; try contradiction; cbn [dec_add_py]; apply IH.
Qed.

(** X9. [Plantio.calcular_roi] never raises: the profit is divided by the
    total cost only when that cost is above zero.  When the total cost is
    zero or negative, and so for a planting with no operation, the return is
    [Decimal('0.00')] whatever the estimated revenue. *)
Theorem X9_calcular_roi :
  forall self,
    (exists roi, Ciclo.calcular_roi self = Ok roi) /\
    (exists custo,
        Ciclo.calcular_custo_total self = Ok custo /\
        ((Dec.val custo <= 0)%Q -> Ciclo.calcular_roi self = Ok d_0_00)) /\
    (Ciclo.operacoes self = [] -> Ciclo.calcular_roi self = Ok d_0_00).
Proof.
  intros self.
  destruct (ciclo_custo_fold (Ciclo.operacoes self) d_0_00) as (custo & Hc).
  fold (Ciclo.calcular_custo_total self) in Hc.
  pose proof (DecFacts.gtb_val custo (of_int 0)) as Hg.
  rewrite val_int_zero in Hg.
  split; [|split].
  - unfold Ciclo.calcular_roi, Ciclo.calcular_lucro_estimado.
    rewrite Hc. cbn [bind].
    destruct (Dec.gtb custo (of_int 0)) eqn:E; [|eexists; reflexivity].
    assert (Hpos : (0 < Dec.val custo)%Q) by (apply Hg; reflexivity).
    destruct (div_ok (Dec.sub (Ciclo.calcular_receita_estimada self) custo) custo
                (val_pos_coef _ Hpos)) as (q & ->).
    cbn [bind]. eexists; reflexivity.
  - exists custo. split; [exact Hc|]. intros Hle.
    unfold Ciclo.calcular_roi. rewrite Hc. cbn [bind].
    destruct (Dec.gtb custo (of_int 0)) eqn:E; [|reflexivity].
    exfalso. apply (Qlt_not_le 0 (Dec.val custo)); [apply Hg; reflexivity | exact Hle].
  - intros Hnil. unfold Ciclo.calcular_roi, Ciclo.calcular_custo_total.
    rewrite Hnil. reflexivity.
Qed.

Lemma X9_calcular_roi_witness :
  Ciclo.calcular_roi
    (Ciclo.mk (Some (Dec.mk 1205000 (-4))) (Dec.mk 6000 (-2)) (Dec.mk 12050 (-2)) [])
  = Ok d_0_00.
Proof.
  apply (X9_calcular_roi
           (Ciclo.mk (Some (Dec.mk 1205000 (-4))) (Dec.mk 6000 (-2))
              (Dec.mk 12050 (-2)) [])).
  reflexivity.
Defined.

(** *** The cost of a planting against the cost of its fields *)

Lemma dec_add_py_fits (k B1 B2 B : Z) (a : Decimal) (w : pyval) :
  fits k B1 a -> pyfits k B2 w -> B1 + B2 <= B -> B <= 10 ^ Dec.prec ->
  exists x, dec_add_py a w = Ok x /\ fits k B x /\
            (Dec.val x == Dec.val a + valor w)%Q.
Proof.
  intros Ha Hw Hsum Hle.
  destruct w as [|z|b|s]; cbn [pyfits] in Hw; try contradiction;
    cbn [dec_add_py valor];
    destruct (DecFacts.add_fits k B1 B2 B a _ Ha Hw Hsum Hle) as (Hf & Hv);
    eexists; (split; [reflexivity|]); (split; [exact Hf|]).
  - rewrite Hv, val_of_int. reflexivity.
  - exact Hv.
Qed.

Lemma soma_exatos_nonneg (ops : list OperacaoCampo.t) :
  Forall OperacaoCampo.valida ops ->
  (0 <= soma_Q (map OperacaoCampo.custo_exato ops))%Q.
Proof.
  induction 1 as [|op ops [Hop _] _ IH]; cbn [map soma_Q fold_right].
  - apply Qle_refl.
  - fold (soma_Q (map OperacaoCampo.custo_exato ops)).
    pose proof (soma_custos_nonneg _ Hop) as H0.
    unfold OperacaoCampo.custo_exato at 1. lra.
Qed.

Lemma ciclo_custo_exato_fold (ops : list OperacaoCampo.t) :
  forall total n,
    0 <= n -> fits 2 (1 + n * (2 * 10 ^ 18)) total ->
    Forall OperacaoCampo.valida ops ->
    n + Z.of_nat (length ops) <= 10 ^ 5 ->
    exists t,
      fold_left
        (fun acc operacao =>
           custo_total <- acc ;;
           c <- OperacaoCampo.custo_total operacao ;;
           dec_add_py custo_total c)
        ops (Ok total) = Ok t /\
      (Dec.val t == Dec.val total + soma_Q (map OperacaoCampo.custo_exato ops))%Q.
Proof.
  induction ops as [|op ops IH]; intros total n Hn Ft Hval Hlen.
  - exists total. split; [reflexivity|]. cbn [map soma_Q fold_right]. ring.
  - apply Forall_cons_iff in Hval. destruct Hval as (Hop & Hval).
    cbn [length] in Hlen. rewrite Nat2Z.inj_succ in Hlen.
    destruct (custo_total_exato op Hop) as (c & Hc & Fc & Vc & _).
    cbn [fold_left bind]. rewrite Hc. cbn [bind].
    destruct (dec_add_py_fits 2 _ _ (1 + (n + 1) * (2 * 10 ^ 18)) total c Ft Fc
                ltac:(lia) ltac:(unfold Dec.prec; lia))
      as (x & -> & Fx & Vx).
    destruct (IH x (n + 1) ltac:(lia) Fx Hval ltac:(lia)) as (t & Ht & Vt).
    exists t. split; [exact Ht|].
    cbn [map soma_Q fold_right].
    fold (soma_Q (map OperacaoCampo.custo_exato ops)).
    rewrite Vt, Vx, Vc. ring.
Qed.

(** X12. [Plantio.calcular_custo_total], for at most 100000 operations of at
    most 1000 items each, with costs within the size of [custo_final] and
    not negative: the cost of the planting is the exact sum of the costs of
    all the items of its operations, no addition rounds, and it is not
    negative.  The cost [Talhao.calcular_custo_total] charges to a field over
    the same operations never exceeds it, whatever the area of the field. *)
Theorem X12_custo_plantio_exact :
  forall self,
    Forall OperacaoCampo.valida (Ciclo.operacoes self) ->
    Z.of_nat (length (Ciclo.operacoes self)) <= 10 ^ 5 ->
    exists custo,
      Ciclo.calcular_custo_total self = Ok custo /\
      (Dec.val custo ==
       soma_Q (map OperacaoCampo.custo_exato (Ciclo.operacoes self)))%Q /\
      (0 <= Dec.val custo)%Q /\
      forall area_hectares,
        exists t,
          Talhao.calcular_custo_total area_hectares (Ciclo.operacoes self)
          = Ok t /\
          (Dec.val t <= Dec.val custo)%Q.
Proof.
  intros self Hval Hlen.
  destruct (ciclo_custo_exato_fold (Ciclo.operacoes self) d_0_00 0 ltac:(lia)
              ltac:(apply fits_zero; conta) Hval ltac:(lia))
    as (custo & Hc & Vc).
  assert (H0 : (Dec.val d_0_00 == 0)%Q) by reflexivity.
  assert (Ve : (Dec.val custo ==
                soma_Q (map OperacaoCampo.custo_exato (Ciclo.operacoes self)))%Q)
    by (rewrite Vc, H0; ring).
  exists custo. split; [exact Hc|]. split; [exact Ve|]. split.
  - rewrite Ve. apply soma_exatos_nonneg. exact Hval.
  - intros area.
    destruct (talhao_fold area (Ciclo.operacoes self) d_0_00 d_0_00 0 ltac:(lia)
                ltac:(apply fits_zero; conta)
                ltac:(vm_compute; discriminate) ltac:(apply Qle_refl)
                Hval ltac:(lia))
      as (t & Ht & Vt).
    exists t. split; [exact Ht|]. rewrite Ve. rewrite H0 in Vt. lra.
Qed.

Lemma X12_custo_plantio_exact_witness :
  exists custo,
    Ciclo.calcular_custo_total
      (Ciclo.mk (Some (Dec.mk 1500000 (-4))) (Dec.mk 6000 (-2))
         (Dec.mk 12000 (-2))
         [OperacaoCampo.mk [Dec.mk 100000 (-2); Dec.mk 50000 (-2)]
            (Some (Dec.mk 10000 (-2)));
          OperacaoCampo.mk [Dec.mk 20000 (-2)] None]) = Ok custo /\
    (Dec.val custo == 1700 # 1)%Q.
Proof.
  destruct (X12_custo_plantio_exact
              (Ciclo.mk (Some (Dec.mk 1500000 (-4))) (Dec.mk 6000 (-2))
                 (Dec.mk 12000 (-2))
                 [OperacaoCampo.mk [Dec.mk 100000 (-2); Dec.mk 50000 (-2)]
                    (Some (Dec.mk 10000 (-2)));
                  OperacaoCampo.mk [Dec.mk 20000 (-2)] None]))
    as (custo & Hc & Vc & _).
  - repeat constructor; vm_compute; congruence.
  - vm_compute. congruence.
  - exists custo. split; [exact Hc|]. rewrite Vc. vm_compute. reflexivity.
Defined.


(** *** The value of a sales contract *)

Lemma contrato_fold (itens : list ContratoVenda.Item) :
  forall acc n,
    0 <= n -> pyfits 4 (1 + n * 10 ^ 22) acc ->
    Forall ContratoVenda.item_valido itens ->
    n + Z.of_nat (length itens) <= 10 ^ 5 ->
    exists v,
      fold_left (fun acc x => a <- acc ;; py_add a (PyDec x))
        (map ContratoVenda.valor_total itens) (Ok acc) = Ok v /\
      (valor v == valor acc + soma_Q (map ContratoVenda.valor_exato itens))%Q.
Proof.
  induction itens as [|it itens IH]; intros acc n Hn Hacc Hval Hlen.
  - exists acc. split; [reflexivity|]. cbn [map soma_Q fold_right]. ring.
  - cbn [map fold_left bind].
    apply Forall_cons_iff in Hval. destruct Hval as ((Fq & Fu) & Hval).
    destruct (DecFacts.mul_fits 2 2 _ _ (10 ^ 22) _ _ Fq Fu ltac:(conta) ltac:(conta))
      as (Fm & Vm).
    fold (ContratoVenda.valor_total it) in Fm, Vm.
    cbn [length] in Hlen. rewrite Nat2Z.inj_succ in Hlen.
    destruct (py_add_fits 4 _ _ (1 + (n + 1) * 10 ^ 22) acc
                (PyDec (ContratoVenda.valor_total it)) Hacc Fm
                ltac:(lia) ltac:(unfold Dec.prec; lia))
      as (x & -> & Fx & Vx).
    destruct (IH x (n + 1) ltac:(lia) Fx Hval ltac:(lia)) as (v & Hv & Vv).
    exists v. split; [exact Hv|].
    rewrite Vv, Vx. cbn [valor map soma_Q fold_right].
    fold (soma_Q (map ContratoVenda.valor_exato itens)).
    unfold ContratoVenda.valor_exato at 2. rewrite Vm. ring.
Qed.

(** X10. [ContratoVenda.valor_total_contrato], for at most 100000 items
    within the sizes of their fields: the value of the contract is the exact
    sum of quantity times unit price over its items, no addition and no
    product rounds.  For a contract without items it is the [int] 0, not a
    decimal. *)
Theorem X10_valor_total_contrato :
  forall itens,
    Forall ContratoVenda.item_valido itens ->
    Z.of_nat (length itens) <= 10 ^ 5 ->
    exists v,
      ContratoVenda.valor_total_contrato itens = Ok v /\
      (valor v == soma_Q (map ContratoVenda.valor_exato itens))%Q /\
      (itens = [] -> v = PyInt 0).
Proof.
  intros itens Hval Hlen.
  destruct (contrato_fold itens (PyInt 0) 0 ltac:(lia)
              ltac:(cbn [pyfits]; apply fits_zero; conta) Hval ltac:(lia))
    as (v & Hv & Vv).
  exists v. split; [exact Hv|]. split.
  - rewrite Vv. cbn [valor]. change (inject_Z 0) with 0%Q. ring.
  - intros ->. cbn in Hv. congruence.
Qed.

Lemma X10_valor_total_contrato_witness :
  exists v,
    ContratoVenda.valor_total_contrato
      [ContratoVenda.mkItem (Dec.mk 100000 (-2)) (Dec.mk 12050 (-2));
       ContratoVenda.mkItem (Dec.mk 25050 (-2)) (Dec.mk 9000 (-2))] = Ok v /\
    (valor v == 143045 # 1)%Q.
Proof.
  destruct (X10_valor_total_contrato
              [ContratoVenda.mkItem (Dec.mk 100000 (-2)) (Dec.mk 12050 (-2));
               ContratoVenda.mkItem (Dec.mk 25050 (-2)) (Dec.mk 9000 (-2))])
    as (v & Hv & Vv & _).
  - repeat constructor; exemplo.
  - vm_compute. discriminate.
  - exists v. split; [exact Hv|]. rewrite Vv. vm_compute. reflexivity.
Defined.
